(** * Answer evaluation, rewards and progress propagation

  A shallow embedding of the grading and reward pipeline of the e-learning
  backend: [questions/models.py], [questions/views.py], [lessons/views.py],
  [users/models.py] and [gamification/models.py].

  Python integers are [Z]; JSON payloads are values of [Py.json]; a string
  is a sequence of characters with codes 0 to 255, and the string
  functions are Python's on ASCII text ([Py.ascii_text]); database tables
  are finite maps or append-only lists; [timezone.now()] is an explicit
  argument of every operation that reads the clock. *)

From Stdlib Require Import ZArith QArith String Ascii List Permutation Lia ZifyBool.
From stdpp Require Import base decidable option list sorting gmap strings pretty.

Set Warnings "-register-all".

Open Scope string_scope.
Open Scope list_scope.
Open Scope Z_scope.

(** ** The Python values the views manipulate *)

Module Py.

(** A parsed JSON document, as [serializers.JSONField] hands it to the view.
    Numbers with a fractional part are left out of the model. *)
Inductive json : Type :=
| JNull
| JBool (b : bool)
| JInt (n : Z)
| JStr (s : string)
| JList (l : list json)
| JDict (d : list (string * json)).

(** Exceptions that escape the view code (none of them is caught there).
    [IntegrityError] is the database refusing a row. *)
Inductive exn : Type :=
| AttributeError
| TypeError
| ZeroDivisionError
| IntegrityError.

Inductive outcome (A : Type) : Type :=
| Return (a : A)
| Raise (e : exn).
Arguments Return {A} a.
Arguments Raise {A} e.

Definition bind {A B : Type} (m : outcome A) (k : A -> outcome B) : outcome B :=
  match m with
  | Return a => k a
  | Raise e => Raise e
  end.

Definition code (c : ascii) : Z := Z.of_nat (nat_of_ascii c).

(** Text whose code points are all below 128. On such text [lower] and
    [int_of_str] below are Python's [str.lower] and [int]; outside it
    Python folds the case of other letters and reads other digits and
    blanks, which this development does not follow. *)
Definition is_ascii (c : ascii) : bool := code c <? 128.

Fixpoint ascii_text (s : string) : bool :=
  match s with
  | EmptyString => true
  | String c s' => is_ascii c && ascii_text s'
  end.

(** Every string of a JSON value, keys included, is ASCII text. *)
Fixpoint ascii_json (x : json) : bool :=
  match x with
  | JNull | JBool _ | JInt _ => true
  | JStr s => ascii_text s
  | JList l => forallb ascii_json l
  | JDict d => forallb (fun kv : string * json => ascii_text kv.1 && ascii_json kv.2) d
  end.

(** [str.lower] on ASCII text. *)
Definition lower_char (c : ascii) : ascii :=
  if (65 <=? code c) && (code c <=? 90)
  then ascii_of_nat (nat_of_ascii c + 32)
  else c.

Fixpoint lower (s : string) : string :=
  match s with
  | EmptyString => EmptyString
  | String c s' => String (lower_char c) (lower s')
  end.

(** The ASCII characters [int] strips around a numeral: tab, line feed,
    vertical tab, form feed, carriage return and space. *)
Definition is_space (c : ascii) : bool :=
  ((9 <=? code c) && (code c <=? 13)) || (code c =? 32).

Fixpoint lstrip (s : string) : string :=
  match s with
  | EmptyString => EmptyString
  | String c s' => if is_space c then lstrip s' else s
  end.

Definition strip (s : string) : string :=
  String.rev (lstrip (String.rev (lstrip s))).

Definition digit_of (c : ascii) : option Z :=
  if (48 <=? code c) && (code c <=? 57) then Some (code c - 48) else None.

(** Decimal digits, with a single underscore allowed between two digits. *)
Fixpoint digits_go (acc : Z) (after_digit : bool) (s : string) : option Z :=
  match s with
  | EmptyString => if after_digit then Some acc else None
  | String c s' =>
      match digit_of c with
      | Some d => digits_go (10 * acc + d) true s'
      | None =>
          if Ascii.eqb c "_" && after_digit
          then digits_go acc false s'
          else None
      end
  end.

(** [int(s)] for a string: [None] stands for [ValueError]. *)
Definition int_of_str (s : string) : option Z :=
  match strip s with
  | String "-" ds => Z.opp <$> digits_go 0 false ds
  | String "+" ds => digits_go 0 false ds
  | ds => digits_go 0 false ds
  end.

(** [int(a)] for a JSON value: [None] stands for [ValueError]/[TypeError]. *)
Definition int (a : json) : option Z :=
  match a with
  | JInt n => Some n
  | JBool b => Some (if b then 1 else 0)
  | JStr s => int_of_str s
  | JNull | JList _ | JDict _ => None
  end.

(** [str(x)] for a JSON scalar. The [repr] of a list or a dict is not
    modelled ([None]); it starts with a bracket, so it never equals the
    decimal numeral of a primary key. *)
Definition str (x : json) : option string :=
  match x with
  | JStr s => Some s
  | JInt n => Some (pretty n)
  | JBool b => Some (if b then "True" else "False")
  | JNull => Some "None"
  | JList _ | JDict _ => None
  end.

(** [sorted] on a list of integers. *)
Definition sorted (l : list Z) : list Z := merge_sort Z.le l.

(** Truth value of a string, as in [if question.explanation:]. *)
Definition truthy (s : string) : bool :=
  match s with
  | EmptyString => false
  | String _ _ => true
  end.

End Py.

(** ** questions/models.py *)

Module Questions.
Import Py.

Record QuestionChoice := {
  choice_id : Z;
  choice_text : string;
  choice_is_correct : bool;
  choice_order : Z
}.

Record FillBlankAnswer := {
  blank_index : Z;
  answer_text : string
}.

(** A [DragDropMapping] row, by the primary keys of its two items. *)
Record DragDropMapping := {
  target : Z;
  draggable_item : Z
}.

Record ReorderItem := {
  item_id : Z;
  correct_position : Z
}.

Record MultipleChoiceQuestion := {
  is_multiple_selection : bool;
  choices : list QuestionChoice
}.

Record FillBlankQuestion := {
  case_sensitive : bool;
  answers : list FillBlankAnswer
}.

Record DragDropQuestion := {
  mappings : list DragDropMapping
}.

Record ReorderQuestion := {
  reorder_items : list ReorderItem
}.

(** The row of the specialised table that shares the question's primary
    key; [Question.type] is the tag. *)
Inductive Variant : Type :=
| MULTIPLE_CHOICE (q : MultipleChoiceQuestion)
| FILL_BLANK (q : FillBlankQuestion)
| DRAG_DROP (q : DragDropQuestion)
| REORDER (q : ReorderQuestion).

Record Question := {
  jems : Z;
  xp_available : Z;
  explanation : string;
  variant : Variant
}.

(** [MultipleChoiceQuestion.get_correct_choices] *)
Definition get_correct_choices (q : MultipleChoiceQuestion) : list Z :=
  choice_id <$> filter (fun c => choice_is_correct c = true) (choices q).

(** [FillBlankQuestion.get_correct_answers]: blank index to the list of
    accepted texts. *)
Definition get_correct_answers (q : FillBlankQuestion) : gmap Z (list string) :=
  foldl
    (fun (acc : gmap Z (list string)) answer =>
       let acc :=
         match acc !! blank_index answer with
         | None => <[blank_index answer := []]> acc
         | Some _ => acc
         end in
       alter (fun l => l ++ [answer_text answer]) (blank_index answer) acc)
    ∅ (answers q).

(** [DragDropQuestion.get_correct_mappings]: target id (as a string) to the
    list of valid draggable item ids (as strings). *)
Definition get_correct_mappings (q : DragDropQuestion) : gmap string (list string) :=
  foldl
    (fun (acc : gmap string (list string)) mapping =>
       let target_id := pretty (target mapping) in
       let acc :=
         match acc !! target_id with
         | None => <[target_id := []]> acc
         | Some _ => acc
         end in
       alter (fun l => l ++ [pretty (draggable_item mapping)]) target_id acc)
    ∅ (mappings q).

Definition position_le (a b : ReorderItem) : Prop :=
  correct_position a <= correct_position b.

#[local] Instance position_le_dec a b : Decision (position_le a b).
Proof. unfold position_le. apply _. Defined.

(** [ReorderQuestion.get_correct_order] *)
Definition get_correct_order (q : ReorderQuestion) : list string :=
  (fun item => pretty (item_id item)) <$> merge_sort position_le (reorder_items q).

(** ** questions/views.py: the evaluators *)

(** The [feedback] dictionary. Keys that the code leaves out are [None]. *)
Record Feedback := {
  correct : bool;
  message : string;
  fb_explanation : option string;
  incorrect_blanks : option (list Z);
  incorrect_targets : option (list string)
}.

(** [{"correct": False, "message": msg}] *)
Definition rejected (msg : string) : Feedback :=
  {| correct := false; message := msg; fb_explanation := None;
     incorrect_blanks := None; incorrect_targets := None |}.

(** The success branch shared by the four validators. *)
Definition accepted (question : Question) (msg : string) : Feedback :=
  {| correct := true; message := msg;
     fb_explanation :=
       if truthy (explanation question) then Some (explanation question) else None;
     incorrect_blanks := None; incorrect_targets := None |}.

(** [QuestionSubmitView._validate_multiple_choice] *)
Definition _validate_multiple_choice
    (question : Question) (mcq : MultipleChoiceQuestion) (answer : json)
    : bool * Feedback :=
  match answer with
  | JList answer =>
      if negb (is_multiple_selection mcq) && (1 <? Z.of_nat (length answer))
      then (false, rejected "Only one answer allowed for this question")
      else
        match mapM int answer with
        | None => (false, rejected "Invalid choice IDs")
        | Some answer =>
            let correct_answers := get_correct_choices mcq in
            let is_correct := bool_decide (sorted answer = sorted correct_answers) in
            if is_correct
            then (true, accepted question "Correct!")
            else (false, rejected "Incorrect. Try again!")
        end
  | _ => (false, rejected "Answer must be a list of choice IDs")
  end.

(** One blank of [_validate_fill_blank]: the test guarded by
    [question.case_sensitive]. [user_answer.lower()] raises on anything but
    a string. *)
Definition is_blank_correct
    (fbq : FillBlankQuestion) (user_answer : json) (valid_answers : list string)
    : outcome bool :=
  if case_sensitive fbq
  then
    match user_answer with
    | JStr s => Return (bool_decide (s ∈ valid_answers))
    | _ => Return false
    end
  else
    match user_answer with
    | JStr s => Return (bool_decide (lower s ∈ lower <$> valid_answers))
    | _ => Raise AttributeError
    end.

(** The loop of [_validate_fill_blank] over [answer.items()]: [inl] is an
    early [return False, feedback]; [inr] the final [incorrect_blanks]. *)
Fixpoint fill_blank_loop
    (fbq : FillBlankQuestion) (correct_answers : gmap Z (list string))
    (items : list (string * json)) (incorrect : list Z)
    : outcome (Feedback + list Z) :=
  match items with
  | [] => Return (inr incorrect)
  | (blank_idx_str, user_answer) :: items =>
      match int_of_str blank_idx_str with
      | None =>
          Return (inl (rejected ("Invalid blank index format: " +:+ blank_idx_str)))
      | Some blank_idx =>
          match correct_answers !! blank_idx with
          | None =>
              Return (inl (rejected ("Invalid blank index: " +:+ pretty blank_idx)))
          | Some valid_answers =>
              bind (is_blank_correct fbq user_answer valid_answers)
                (fun ok =>
                   fill_blank_loop fbq correct_answers items
                     (if ok then incorrect else incorrect ++ [blank_idx]))
          end
      end
  end.

(** [QuestionSubmitView._validate_fill_blank] *)
Definition _validate_fill_blank
    (question : Question) (fbq : FillBlankQuestion) (answer : json)
    : outcome (bool * Feedback) :=
  match answer with
  | JDict answer =>
      let correct_answers := get_correct_answers fbq in
      bind (fill_blank_loop fbq correct_answers answer [])
        (fun r =>
           match r with
           | inl feedback => Return (false, feedback)
           | inr incorrect =>
               let is_correct := bool_decide (length incorrect = 0%nat) in
               if is_correct
               then Return (true, accepted question "Correct!")
               else Return (false,
                 {| correct := false; message := "Incorrect. Try again!";
                    fb_explanation := None;
                    incorrect_blanks := Some incorrect;
                    incorrect_targets := None |})
           end)
  | _ =>
      Return (false,
        rejected "Answer must be a dictionary mapping blank indices to answers")
  end.

(** [item_idx not in valid_items] for one converted item. *)
Definition item_valid (valid_items : list string) (item_idx : option string) : bool :=
  match item_idx with
  | Some s => bool_decide (s ∈ valid_items)
  | None => false
  end.

(** The loop of [_validate_drag_drop] over [answer.items()]. *)
Fixpoint drag_drop_loop
    (correct_mappings : gmap string (list string))
    (items : list (string * json)) (incorrect : list string)
    : Feedback + list string :=
  match items with
  | [] => inr incorrect
  | (target_idx, item_indices) :: items =>
      match correct_mappings !! target_idx with
      | None => inl (rejected ("Invalid target ID: " +:+ target_idx))
      | Some valid_items =>
          let item_indices :=
            match item_indices with
            | JList l => l
            | x => [x]
            end in
          let item_indices := str <$> item_indices in
          drag_drop_loop correct_mappings items
            (if forallb (item_valid valid_items) item_indices
             then incorrect else incorrect ++ [target_idx])
      end
  end.

(** [QuestionSubmitView._validate_drag_drop] *)
Definition _validate_drag_drop
    (question : Question) (ddq : DragDropQuestion) (answer : json)
    : bool * Feedback :=
  match answer with
  | JDict answer =>
      let correct_mappings := get_correct_mappings ddq in
      match drag_drop_loop correct_mappings answer [] with
      | inl feedback => (false, feedback)
      | inr incorrect =>
          let is_correct := bool_decide (length incorrect = 0%nat) in
          if is_correct
          then (true, accepted question "Correct!")
          else (false,
            {| correct := false; message := "Incorrect. Try again!";
               fb_explanation := None;
               incorrect_blanks := None;
               incorrect_targets := Some incorrect |})
      end
  | _ =>
      (false,
       rejected "Answer must be a dictionary mapping target IDs to draggable item IDs")
  end.

(** [QuestionSubmitView._validate_reorder] *)
Definition _validate_reorder
    (question : Question) (rq : ReorderQuestion) (answer : json)
    : bool * Feedback :=
  match answer with
  | JList answer =>
      let answer := str <$> answer in
      let correct_order := get_correct_order rq in
      let is_correct := bool_decide (answer = Some <$> correct_order) in
      if is_correct
      then (true, accepted question "Correct sequence!")
      else (false, rejected "Incorrect sequence. Try again!")
  | _ =>
      (false, rejected "Answer must be a list of item IDs in the correct order")
  end.

(** [QuestionSubmitView._evaluate_answer]: dispatch on the question type. *)
Definition _evaluate_answer (question : Question) (answer : json)
    : outcome (bool * Feedback) :=
  match variant question with
  | MULTIPLE_CHOICE specific_question =>
      Return (_validate_multiple_choice question specific_question answer)
  | FILL_BLANK specific_question =>
      _validate_fill_blank question specific_question answer
  | DRAG_DROP specific_question =>
      Return (_validate_drag_drop question specific_question answer)
  | REORDER specific_question =>
      Return (_validate_reorder question specific_question answer)
  end.

End Questions.

(** ** users/models.py *)

Module Users.

(** Date-times are seconds since the epoch in UTC; dates are day numbers. *)
Definition datetime : Type := Z.

(** [datetime.date()] *)
Definition date (t : datetime) : Z := t / 86400.

Record CustomUser := {
  jems : Z;
  total_xp : Z;
  streak_days : Z;
  last_activity : option datetime
}.

End Users.

(** ** gamification/models.py *)

Module Gamification.

Inductive SourceType : Type :=
| LESSON | QUESTION | STREAK | COURSE | ADMIN | REVIEW.

#[global] Instance SourceType_eq_dec : EqDecision SourceType.
Proof. solve_decision. Defined.

(** A [UserXP] row. [content_type] is left out: the lesson, course and
    review paths store [None] there. *)
Record UserXP := {
  xp_user : Z;
  xp_amount : Z;
  xp_source_type : SourceType;
  xp_object_id : option Z
}.

(** A [UserJem] row; the views only ever write the [QUESTION] source. *)
Record UserJem := {
  jem_user : Z;
  jem_amount : Z;
  jem_object_id : option Z
}.

End Gamification.

(** ** lessons/models.py and the rows of the other applications *)

Module Lessons.
Import Users.

(** A [Lesson]; [course] is [lesson.chapter.course]. *)
Record Lesson := {
  xp_available : Z;
  is_published : bool;
  course : Z
}.

Record Slide := {
  slide_lesson : Z;
  is_required : bool
}.

Record UserSlideProgress := {
  is_completed : bool
}.

Record UserLessonProgress := {
  completion_percentage : Q;
  xp_earned : Z;
  started_at : datetime;
  completed_date : option datetime
}.

Record UserCourseEnrollment := {
  enrollment_percentage : Q;
  enrollment_is_completed : bool
}.

Record LessonReview := {
  review_user : Z;
  review_lesson : Z;
  score : Z;
  total_possible : Z;
  review_percentage : Q;
  completion_time : option datetime
}.

(** A [QuestionSlide]: the question it shows. *)
Record QuestionSlide := {
  question : Z
}.

Record LessonReviewQuestionAttempt := {
  attempt_review : Z;
  attempt_question_slide : Z;
  attempt_user_answer : Py.json;
  attempt_is_correct : bool;
  attempt_xp_earned : Z
}.

End Lessons.

(** ** The database *)

Module Store.
Import Users Gamification.

(** A [UserQuestionAttempt] row. *)
Record UserQuestionAttempt := {
  user : Z;
  question : Z;
  lesson : Z;
  user_answer : Py.json;
  is_correct : bool;
  attempt_number : Z;
  jems_earned : Z
}.

(** Tables with a primary key or a [unique_together] constraint are finite
    maps on that key; the ledgers are lists in insertion order. *)
Record DB := {
  users : gmap Z CustomUser;
  questions : gmap Z Questions.Question;
  lessons : gmap Z Lessons.Lesson;
  slides : gmap Z Lessons.Slide;
  question_slides : gmap Z Lessons.QuestionSlide;
  slide_progress : gmap (Z * Z) Lessons.UserSlideProgress;
  lesson_progress : gmap (Z * Z) Lessons.UserLessonProgress;
  enrollments : gmap (Z * Z) Lessons.UserCourseEnrollment;
  lesson_reviews : gmap Z Lessons.LessonReview;
  review_attempts : list Lessons.LessonReviewQuestionAttempt;
  question_attempts : list UserQuestionAttempt;
  xp_transactions : list UserXP;
  jem_transactions : list UserJem
}.

Definition set_users (f : gmap Z CustomUser -> gmap Z CustomUser) (db : DB) : DB :=
  {| users := f (users db); questions := questions db; lessons := lessons db;
     slides := slides db; question_slides := question_slides db;
     slide_progress := slide_progress db; lesson_progress := lesson_progress db;
     enrollments := enrollments db; lesson_reviews := lesson_reviews db;
     review_attempts := review_attempts db;
     question_attempts := question_attempts db;
     xp_transactions := xp_transactions db;
     jem_transactions := jem_transactions db |}.

Definition set_lesson_progress
    (f : gmap (Z * Z) Lessons.UserLessonProgress -> gmap (Z * Z) Lessons.UserLessonProgress)
    (db : DB) : DB :=
  {| users := users db; questions := questions db; lessons := lessons db;
     slides := slides db; question_slides := question_slides db;
     slide_progress := slide_progress db; lesson_progress := f (lesson_progress db);
     enrollments := enrollments db; lesson_reviews := lesson_reviews db;
     review_attempts := review_attempts db;
     question_attempts := question_attempts db;
     xp_transactions := xp_transactions db;
     jem_transactions := jem_transactions db |}.

Definition set_enrollments
    (f : gmap (Z * Z) Lessons.UserCourseEnrollment -> gmap (Z * Z) Lessons.UserCourseEnrollment)
    (db : DB) : DB :=
  {| users := users db; questions := questions db; lessons := lessons db;
     slides := slides db; question_slides := question_slides db;
     slide_progress := slide_progress db; lesson_progress := lesson_progress db;
     enrollments := f (enrollments db); lesson_reviews := lesson_reviews db;
     review_attempts := review_attempts db;
     question_attempts := question_attempts db;
     xp_transactions := xp_transactions db;
     jem_transactions := jem_transactions db |}.

Definition set_lesson_reviews
    (f : gmap Z Lessons.LessonReview -> gmap Z Lessons.LessonReview) (db : DB) : DB :=
  {| users := users db; questions := questions db; lessons := lessons db;
     slides := slides db; question_slides := question_slides db;
     slide_progress := slide_progress db; lesson_progress := lesson_progress db;
     enrollments := enrollments db; lesson_reviews := f (lesson_reviews db);
     review_attempts := review_attempts db;
     question_attempts := question_attempts db;
     xp_transactions := xp_transactions db;
     jem_transactions := jem_transactions db |}.

(** [LessonReviewQuestionAttempt.objects.create] *)
Definition create_review_attempt (a : Lessons.LessonReviewQuestionAttempt) (db : DB) : DB :=
  {| users := users db; questions := questions db; lessons := lessons db;
     slides := slides db; question_slides := question_slides db;
     slide_progress := slide_progress db; lesson_progress := lesson_progress db;
     enrollments := enrollments db; lesson_reviews := lesson_reviews db;
     review_attempts := review_attempts db ++ [a];
     question_attempts := question_attempts db;
     xp_transactions := xp_transactions db;
     jem_transactions := jem_transactions db |}.

(** [UserQuestionAttempt.objects.create] *)
Definition create_attempt (a : UserQuestionAttempt) (db : DB) : DB :=
  {| users := users db; questions := questions db; lessons := lessons db;
     slides := slides db; question_slides := question_slides db;
     slide_progress := slide_progress db; lesson_progress := lesson_progress db;
     enrollments := enrollments db; lesson_reviews := lesson_reviews db;
     review_attempts := review_attempts db;
     question_attempts := question_attempts db ++ [a];
     xp_transactions := xp_transactions db;
     jem_transactions := jem_transactions db |}.

(** [UserXP.objects.create] *)
Definition create_xp (t : UserXP) (db : DB) : DB :=
  {| users := users db; questions := questions db; lessons := lessons db;
     slides := slides db; question_slides := question_slides db;
     slide_progress := slide_progress db; lesson_progress := lesson_progress db;
     enrollments := enrollments db; lesson_reviews := lesson_reviews db;
     review_attempts := review_attempts db;
     question_attempts := question_attempts db;
     xp_transactions := xp_transactions db ++ [t];
     jem_transactions := jem_transactions db |}.

(** [UserJem.objects.create] *)
Definition create_jem (t : UserJem) (db : DB) : DB :=
  {| users := users db; questions := questions db; lessons := lessons db;
     slides := slides db; question_slides := question_slides db;
     slide_progress := slide_progress db; lesson_progress := lesson_progress db;
     enrollments := enrollments db; lesson_reviews := lesson_reviews db;
     review_attempts := review_attempts db;
     question_attempts := question_attempts db;
     xp_transactions := xp_transactions db;
     jem_transactions := jem_transactions db ++ [t] |}.

(** The ledger total of a user: the sum of the amounts of all their
    [UserXP] rows. *)
Definition ledger_xp (uid : Z) (db : DB) : Z :=
  foldr Z.add 0
    (xp_amount <$> filter (fun t => xp_user t = uid) (xp_transactions db)).

(** The [UserXP] rows written for a user completing a lesson. *)
Definition lesson_awards (uid lesson_id : Z) (db : DB) : list UserXP :=
  filter
    (fun t => xp_user t = uid /\ xp_source_type t = LESSON
              /\ xp_object_id t = Some lesson_id)
    (xp_transactions db).

(** The [UserXP] rows written for the completion of a review. *)
Definition review_awards (review_id : Z) (db : DB) : list UserXP :=
  filter
    (fun t => xp_source_type t = REVIEW /\ xp_object_id t = Some review_id)
    (xp_transactions db).

(** The clock readings of one request: [timezone.now()] and
    [timezone.localdate()], the date in the configured time zone. *)
Record Clock := {
  now : datetime;
  localdate : Z
}.

End Store.

(** ** questions/views.py: [QuestionSubmitView] *)

Module QuestionSubmitView.
Import Py Users Gamification Store.

(** [submission_serializer.validated_data] *)
Record Submission := {
  answer : json;
  lesson_id : Z
}.

Record GamificationUpdates := {
  upd_xp_earned : Z;
  upd_jems_earned : Z;
  upd_total_xp : Z;
  upd_total_jems : Z;
  upd_streak_days : Z
}.

Inductive Response : Type :=
| HTTP_200_OK (attempt : UserQuestionAttempt) (feedback : Questions.Feedback)
    (gamification_updates : GamificationUpdates)
| HTTP_400_BAD_REQUEST
| HTTP_401_UNAUTHORIZED
| HTTP_404_NOT_FOUND
| HTTP_500_INTERNAL_SERVER_ERROR (e : exn).

(** [user.save(update_fields=["total_xp", "jems", "last_activity"])] *)
Definition save_totals (uid : Z) (user : CustomUser) (db : DB) : DB :=
  set_users
    (alter (fun row =>
       {| jems := jems user; total_xp := total_xp user;
          streak_days := streak_days row;
          last_activity := last_activity user |}) uid) db.

(** [user.save(update_fields=["streak_days"])] *)
Definition save_streak (uid : Z) (user : CustomUser) (db : DB) : DB :=
  set_users
    (alter (fun row =>
       {| jems := jems row; total_xp := total_xp row;
          streak_days := streak_days user;
          last_activity := last_activity row |}) uid) db.

Definition with_streak_days (n : Z) (user : CustomUser) : CustomUser :=
  {| jems := jems user; total_xp := total_xp user; streak_days := n;
     last_activity := last_activity user |}.

(** [QuestionSubmitView._update_user_streak] *)
Definition _update_user_streak
    (clock : Clock) (uid : Z) (user : CustomUser) (db : DB) : CustomUser * DB :=
  let user :=
    match last_activity user with
    | None => with_streak_days 1 user
    | Some last =>
        let today := localdate clock in
        let last_activity_date := date last in
        if today - last_activity_date =? 1
        then with_streak_days (streak_days user + 1) user
        else if today - last_activity_date >? 1
        then with_streak_days 1 user
        else user
    end in
  (user, save_streak uid user db).

(** Lines 131-145 of [create]: [(jems_earned, xp_earned)]. *)
Definition rewards (question : Questions.Question) (is_correct : bool)
    (attempt_count : Z) : Z * Z :=
  if is_correct
  then
    if attempt_count =? 0
    then (Questions.jems question, Questions.xp_available question)
    else (Z.max 1 (Questions.jems question / (attempt_count + 1)),
          Z.max 10 (Questions.xp_available question / (attempt_count + 1)))
  else (0, 0).

(** [UserQuestionAttempt.objects.filter(user, question, lesson_id).count()] *)
Definition count_attempts (uid question_id lesson : Z) (db : DB) : Z :=
  Z.of_nat (length (filter
    (fun a => user a = uid /\ question a = question_id /\ Store.lesson a = lesson)
    (question_attempts db))).

(** Lines 159-195 of [create]: the updates made for a correct answer. *)
Definition update_stats (clock : Clock) (uid question_id xp_earned jems_earned : Z)
    (user : CustomUser) (db : DB) : CustomUser * DB :=
  let '(user, db) :=
    if xp_earned >? 0
    then
      ({| jems := jems user; total_xp := total_xp user + xp_earned;
          streak_days := streak_days user; last_activity := last_activity user |},
       create_xp {| xp_user := uid; xp_amount := xp_earned;
                    xp_source_type := QUESTION;
                    xp_object_id := Some question_id |} db)
    else (user, db) in
  let '(user, db) :=
    if jems_earned >? 0
    then
      ({| jems := jems user + jems_earned; total_xp := total_xp user;
          streak_days := streak_days user; last_activity := last_activity user |},
       create_jem {| jem_user := uid; jem_amount := jems_earned;
                     jem_object_id := Some question_id |} db)
    else (user, db) in
  let user :=
    {| jems := jems user; total_xp := total_xp user;
       streak_days := streak_days user; last_activity := Some (now clock) |} in
  let db := save_totals uid user db in
  _update_user_streak clock uid user db.

(** [QuestionSubmitView.create], under [@transaction.atomic]: an exception
    leaves the database as it was. [uid] is [request.user], [pk] the
    question id of the URL. A body whose [answer] is [null] or missing
    fails [is_valid()]. The serializer takes [lesson] as a plain integer:
    when it names no lesson, the attempt row breaks its foreign key, the
    database raises [IntegrityError] (at the insert or at the commit) and
    the transaction is rolled back. *)
Definition create (clock : Clock) (uid pk : Z) (data : Submission) (db : DB)
    : Response * DB :=
  match users db !! uid with
  | None => (HTTP_401_UNAUTHORIZED, db)
  | Some user =>
      match questions db !! pk with
      | None => (HTTP_404_NOT_FOUND, db)
      | Some question =>
          match answer data with
          | JNull => (HTTP_400_BAD_REQUEST, db)
          | answer =>
              match Questions._evaluate_answer question answer with
              | Raise e => (HTTP_500_INTERNAL_SERVER_ERROR e, db)
              | Return (is_correct, feedback) =>
                  match lessons db !! lesson_id data with
                  | None => (HTTP_500_INTERNAL_SERVER_ERROR IntegrityError, db)
                  | Some _ =>
                      let attempt_count := count_attempts uid pk (lesson_id data) db in
                      let '(jems_earned, xp_earned) :=
                        rewards question is_correct attempt_count in
                      let attempt :=
                        {| user := uid; question := pk; Store.lesson := lesson_id data;
                           user_answer := answer; is_correct := is_correct;
                           attempt_number := attempt_count + 1;
                           jems_earned := jems_earned |} in
                      let db := create_attempt attempt db in
                      let '(user, db) :=
                        if is_correct
                        then update_stats clock uid pk xp_earned jems_earned user db
                        else (user, db) in
                      (HTTP_200_OK attempt feedback
                         {| upd_xp_earned := xp_earned;
                            upd_jems_earned := jems_earned;
                            upd_total_xp := total_xp user;
                            upd_total_jems := jems user;
                            upd_streak_days := streak_days user |},
                       db)
                  end
              end
          end
      end
  end.

End QuestionSubmitView.

(** ** lessons/views.py *)

Module LessonViews.
Import Py Users Gamification Lessons Store.

(** [(a / b) * 100] on counts, as an exact rational in lowest terms. The
    code computes it in floating point and tests that value ([>= 100],
    which for counts means [a >= b]); the [DecimalField(5, 2)] column it is
    saved to keeps two decimal places and has no room for 1000 and above.
    The records of this development hold the exact value. *)
Definition percentage (a b : Z) : Q :=
  Qred (inject_Z a / inject_Z b * inject_Z 100).

(** [x >= 100] *)
Definition at_least_100 (x : Q) : bool := Qle_bool (inject_Z 100) x.

(** [Slide.objects.filter(lesson=lesson, is_required=True).count()] *)
Definition count_required_slides (lesson_id : Z) (db : DB) : Z :=
  Z.of_nat (length (filter
    (fun kv : Z * Slide => slide_lesson kv.2 = lesson_id /\ is_required kv.2 = true)
    (map_to_list (slides db)))).

(** The join [slide__lesson=lesson, slide__is_required=True]. *)
Definition required_slide_of (lesson_id : Z) (db : DB) (slide_id : Z) : bool :=
  match slides db !! slide_id with
  | Some s => bool_decide (slide_lesson s = lesson_id) && is_required s
  | None => false
  end.

(** [UserSlideProgress.objects.filter(user, slide__lesson=lesson,
    slide__is_required=True, is_completed=True).count()] *)
Definition count_completed_slides (uid lesson_id : Z) (db : DB) : Z :=
  Z.of_nat (length (filter
    (fun kv : (Z * Z) * UserSlideProgress =>
       kv.1.1 = uid /\ is_completed kv.2 = true
       /\ required_slide_of lesson_id db kv.1.2 = true)
    (map_to_list (slide_progress db)))).

(** [UserXP.objects.create(user, amount, source_type="lesson",
    content_type_id=None, object_id=lesson.id)] *)
Definition lesson_xp (uid lesson_id amount : Z) : UserXP :=
  {| xp_user := uid; xp_amount := amount; xp_source_type := LESSON;
     xp_object_id := Some lesson_id |}.

(** [user.total_xp = F("total_xp") + amount; user.save(update_fields=["total_xp"])] *)
Definition add_total_xp (uid amount : Z) (db : DB) : DB :=
  set_users
    (alter (fun row =>
       {| jems := jems row; total_xp := total_xp row + amount;
          streak_days := streak_days row;
          last_activity := last_activity row |}) uid) db.

(** [UserSlideProgressViewSet._update_lesson_progress], for the requesting
    user [uid] and the lesson [lesson_id] of the slide just saved. *)
Definition _update_lesson_progress (clock : Clock) (uid lesson_id : Z) (db : DB) : DB :=
  match lessons db !! lesson_id with
  | None => db
  | Some lesson =>
      let total_slides := count_required_slides lesson_id db in
      if total_slides =? 0 then db
      else
        let completed_slides := count_completed_slides uid lesson_id db in
        let completion_percentage := percentage completed_slides total_slides in
        let lesson_progress :=
          match Store.lesson_progress db !! (uid, lesson_id) with
          | Some p => p
          | None =>
              {| completion_percentage := inject_Z 0; xp_earned := 0;
                 started_at := now clock; completed_date := None |}
          end in
        let lesson_progress :=
          {| completion_percentage := completion_percentage;
             xp_earned := xp_earned lesson_progress;
             started_at := started_at lesson_progress;
             completed_date := completed_date lesson_progress |} in
        let '(lesson_progress, db) :=
          if at_least_100 completion_percentage
             && bool_decide (completed_date lesson_progress = None)
          then
            let lesson_progress :=
              {| completion_percentage := completion_percentage;
                 xp_earned := xp_earned lesson_progress;
                 started_at := started_at lesson_progress;
                 completed_date := Some (now clock) |} in
            if xp_earned lesson_progress <? xp_available lesson
            then
              let xp_to_award := xp_available lesson - xp_earned lesson_progress in
              ({| completion_percentage := completion_percentage;
                  xp_earned := xp_earned lesson_progress + xp_to_award;
                  started_at := started_at lesson_progress;
                  completed_date := completed_date lesson_progress |},
               create_xp (lesson_xp uid lesson_id xp_to_award) db)
            else (lesson_progress, db)
          else (lesson_progress, db) in
        set_lesson_progress (insert (uid, lesson_id) lesson_progress) db
  end.

(** [Lesson.objects.filter(chapter__course=course, is_published=True).count()] *)
Definition count_published_lessons (course_id : Z) (db : DB) : Z :=
  Z.of_nat (length (filter
    (fun kv : Z * Lesson => course kv.2 = course_id /\ is_published kv.2 = true)
    (map_to_list (lessons db)))).

(** The join [lesson__chapter__course=course]. *)
Definition lesson_of_course (course_id : Z) (db : DB) (lesson_id : Z) : bool :=
  match lessons db !! lesson_id with
  | Some l => bool_decide (course l = course_id)
  | None => false
  end.

(** [UserLessonProgress.objects.filter(user, lesson__chapter__course=course,
    completed_date__isnull=False).count()] *)
Definition count_completed_lessons (uid course_id : Z) (db : DB) : Z :=
  Z.of_nat (length (filter
    (fun kv : (Z * Z) * UserLessonProgress =>
       kv.1.1 = uid /\ completed_date kv.2 <> None
       /\ lesson_of_course course_id db kv.1.2 = true)
    (map_to_list (Store.lesson_progress db)))).

(** [LessonCompleteView._update_course_progress] *)
Definition _update_course_progress (uid course_id : Z) (db : DB) : DB :=
  match enrollments db !! (uid, course_id) with
  | None => db
  | Some enrollment =>
      let total_lessons := count_published_lessons course_id db in
      if total_lessons =? 0 then db
      else
        let completed_lessons := count_completed_lessons uid course_id db in
        let completion_percentage := percentage completed_lessons total_lessons in
        let '(enrollment, db) :=
          if at_least_100 completion_percentage
             && negb (enrollment_is_completed enrollment)
          then
            let course_xp := 500 in
            ({| enrollment_percentage := completion_percentage;
                enrollment_is_completed := true |},
             add_total_xp uid course_xp
               (create_xp {| xp_user := uid; xp_amount := course_xp;
                             xp_source_type := COURSE;
                             xp_object_id := Some course_id |} db))
          else
            ({| enrollment_percentage := completion_percentage;
                enrollment_is_completed := enrollment_is_completed enrollment |},
             db) in
        set_enrollments (insert (uid, course_id) enrollment) db
  end.

(** [Lesson.objects.get(pk=lesson_id, is_published=True)]; [None] stands
    for [Lesson.DoesNotExist]. *)
Definition get_published_lesson (pk : Z) (db : DB) : option Lesson :=
  match lessons db !! pk with
  | Some lesson => if is_published lesson then Some lesson else None
  | None => None
  end.

Inductive CompleteResponse : Type :=
| Complete_200_OK (progress : UserLessonProgress)
| Complete_400_BAD_REQUEST (detail : string)
| Complete_401_UNAUTHORIZED
| Complete_404_NOT_FOUND.

(** [LessonCompleteView.update], for the requesting user [uid] and the
    lesson [pk] of the URL. *)
Definition update (clock : Clock) (uid pk : Z) (db : DB) : CompleteResponse * DB :=
  match users db !! uid with
  | None => (Complete_401_UNAUTHORIZED, db)
  | Some _ =>
      match get_published_lesson pk db with
      | None => (Complete_404_NOT_FOUND, db)
      | Some lesson =>
          match Store.lesson_progress db !! (uid, pk) with
          | None => (Complete_400_BAD_REQUEST "You haven't started this lesson.", db)
          | Some progress =>
              let required_slides := count_required_slides pk db in
              let completed_slides := count_completed_slides uid pk db in
              if completed_slides <? required_slides
              then (Complete_400_BAD_REQUEST
                      "You must complete all required slides before completing the lesson.",
                    db)
              else
                if bool_decide (completed_date progress = None)
                then
                  let progress :=
                    {| completion_percentage := inject_Z 100;
                       xp_earned := xp_earned progress;
                       started_at := started_at progress;
                       completed_date := Some (now clock) |} in
                  let '(progress, db) :=
                    if xp_earned progress <? xp_available lesson
                    then
                      let xp_to_award := xp_available lesson - xp_earned progress in
                      ({| completion_percentage := completion_percentage progress;
                          xp_earned := xp_earned progress + xp_to_award;
                          started_at := started_at progress;
                          completed_date := completed_date progress |},
                       add_total_xp uid xp_to_award
                         (create_xp (lesson_xp uid pk xp_to_award) db))
                    else (progress, db) in
                  let db := _update_course_progress uid (course lesson) db in
                  let db := set_lesson_progress (insert (uid, pk) progress) db in
                  (Complete_200_OK progress, db)
                else (Complete_200_OK progress, db)
          end
      end
  end.

(** Iterating over a JSON value, as [set(...)] and [enumerate(...)] do:
    a list yields its elements, a string its characters, a dict its keys;
    anything else is not iterable. *)
Definition iterate (x : json) : outcome (list json) :=
  match x with
  | JList l => Return l
  | JStr s => Return ((fun c => JStr (String c EmptyString)) <$> list_ascii_of_string s)
  | JDict d => Return ((fun kv : string * json => JStr kv.1) <$> d)
  | JNull | JBool _ | JInt _ => Raise TypeError
  end.

(** An element of [set(user_answer)] seen from a set of integers: the
    integer it is equal to, if any. Lists and dicts are unhashable. *)
Definition int_key (x : json) : outcome (option Z) :=
  match x with
  | JInt n => Return (Some n)
  | JBool b => Return (Some (if b then 1 else 0))
  | JStr _ | JNull => Return None
  | JList _ | JDict _ => Raise TypeError
  end.

Fixpoint int_keys (l : list json) : outcome (list (option Z)) :=
  match l with
  | [] => Return []
  | x :: l =>
      bind (int_key x) (fun k => bind (int_keys l) (fun ks => Return (k :: ks)))
  end.

(** [set(user_answer) == set(mcq.get_correct_choices())] *)
Definition review_multiple_choice
    (mcq : Questions.MultipleChoiceQuestion) (user_answer : json) : outcome bool :=
  bind (iterate user_answer) (fun elements =>
  bind (int_keys elements) (fun keys =>
    Return (forallb (fun k : option Z => bool_decide (is_Some k)) keys
            && bool_decide
                 (list_to_set (omap (fun k => k) keys)
                  =@{gset Z} list_to_set (Questions.get_correct_choices mcq))))).

(** The [for idx, answer in enumerate(user_answer)] loop of the review's
    fill-in-the-blank check, from index [idx] on. *)
Fixpoint review_fill_blank_loop
    (correct_answers : gmap Z (list string)) (idx : Z) (elements : list json)
    : outcome bool :=
  match elements with
  | [] => Return true
  | answer :: elements =>
      match correct_answers !! idx with
      | None => Return false
      | Some valid_answers =>
          match answer with
          | JStr s =>
              if bool_decide (lower s ∈ lower <$> valid_answers)
              then review_fill_blank_loop correct_answers (idx + 1) elements
              else Return false
          | _ => Raise AttributeError
          end
      end
  end.

(** Lines 455-472 of [submit_answer]: only two question types are checked. *)
Definition review_is_correct (question : Questions.Question) (user_answer : json)
    : outcome bool :=
  match Questions.variant question with
  | Questions.MULTIPLE_CHOICE mcq => review_multiple_choice mcq user_answer
  | Questions.FILL_BLANK fbq =>
      bind (iterate user_answer)
        (review_fill_blank_loop (Questions.get_correct_answers fbq) 0)
  | Questions.DRAG_DROP _ | Questions.REORDER _ => Return false
  end.

(** [LessonReviewQuestionAttempt.objects.filter(review=review).count()] *)
Definition count_review_attempts (review_id : Z) (db : DB) : Z :=
  Z.of_nat (length (filter (fun a => attempt_review a = review_id) (review_attempts db))).

Inductive ReviewResponse : Type :=
| Review_200_OK (attempt : LessonReviewQuestionAttempt)
| Review_400_BAD_REQUEST
| Review_401_UNAUTHORIZED
| Review_404_NOT_FOUND
| Review_500_INTERNAL_SERVER_ERROR (e : exn).

(** The method [LessonReviewQuestionViewSet.submit_answer], called with the
    two keyword arguments it declares: the question slide [pk] and the
    review [review_pk], for the requesting user [uid]. The method is not
    wrapped in a transaction: rows created before an exception stay. The
    route of [lessons/urls.py] that leads to it is [review_question_submit]
    below. *)
Definition submit_answer (clock : Clock) (uid pk review_pk : Z)
    (data : QuestionSubmitView.Submission) (db : DB) : ReviewResponse * DB :=
  match users db !! uid with
  | None => (Review_401_UNAUTHORIZED, db)
  | Some _ =>
      match question_slides db !! pk with
      | None => (Review_404_NOT_FOUND, db)
      | Some question_slide =>
          match lesson_reviews db !! review_pk with
          | None => (Review_404_NOT_FOUND, db)
          | Some review =>
              if negb (bool_decide (review_user review = uid))
              then (Review_404_NOT_FOUND, db)
              else
                match QuestionSubmitView.answer data with
                | JNull => (Review_400_BAD_REQUEST, db)
                | user_answer =>
                    match questions db !! Lessons.question question_slide with
                    | None => (Review_404_NOT_FOUND, db)
                    | Some question =>
                        match review_is_correct question user_answer with
                        | Raise e => (Review_500_INTERNAL_SERVER_ERROR e, db)
                        | Return is_correct =>
                            let xp_earned :=
                              if is_correct
                              then Questions.xp_available question else 0 in
                            let attempt :=
                              {| attempt_review := review_pk;
                                 attempt_question_slide := pk;
                                 attempt_user_answer := user_answer;
                                 attempt_is_correct := is_correct;
                                 attempt_xp_earned := xp_earned |} in
                            let db := create_review_attempt attempt db in
                            let score :=
                              if is_correct then score review + 1 else score review in
                            let total_attempts := count_review_attempts review_pk db in
                            if total_possible review =? 0
                            then (Review_500_INTERNAL_SERVER_ERROR ZeroDivisionError, db)
                            else
                              let completion_percentage :=
                                percentage total_attempts (total_possible review) in
                              let '(completion_time, db) :=
                                if total_attempts >=? total_possible review
                                then
                                  (Some (now clock),
                                   create_xp
                                     {| xp_user := uid; xp_amount := xp_earned;
                                        xp_source_type := REVIEW;
                                        xp_object_id := Some review_pk |} db)
                                else (completion_time review, db) in
                              let review :=
                                {| review_user := review_user review;
                                   review_lesson := review_lesson review;
                                   score := score;
                                   total_possible := total_possible review;
                                   review_percentage := completion_percentage;
                                   completion_time := completion_time |} in
                              (Review_200_OK attempt,
                               set_lesson_reviews (insert review_pk review) db)
                        end
                    end
                end
          end
      end
  end.

(** Python's call [handler(request, **kwargs)]: a keyword that is not a
    parameter of the handler raises [TypeError] before its body runs. *)
Definition accepts_kwargs (parameters kwargs : list string) : bool :=
  forallb (fun name => bool_decide (name ∈ parameters)) kwargs.

(** [def submit_answer(self, request, pk=None, review_pk=None)] *)
Definition submit_answer_parameters : list string := ["pk"; "review_pk"].

(** [lessons/urls.py]: [LessonReviewQuestionViewSet] is registered on
    [review_questions_router] only, nested with lookup [review] under
    [reviews_router], itself nested with lookup [lesson] under the lesson
    router. The URL of the [submit] action is
    [<lesson_pk>/reviews/<review_pk>/questions/<pk>/submit/], and the view
    is called with these three keyword arguments. *)
Definition review_questions_kwargs : list string := ["lesson_pk"; "review_pk"; "pk"].

(** A POST to the [submit] action, as the framework dispatches it: the
    permission check, then the call of [submit_answer]. *)
Definition review_question_submit (clock : Clock) (uid lesson_pk review_pk pk : Z)
    (data : QuestionSubmitView.Submission) (db : DB) : ReviewResponse * DB :=
  match users db !! uid with
  | None => (Review_401_UNAUTHORIZED, db)
  | Some _ =>
      if accepts_kwargs submit_answer_parameters review_questions_kwargs
      then submit_answer clock uid pk review_pk data db
      else (Review_500_INTERNAL_SERVER_ERROR TypeError, db)
  end.

End LessonViews.

(** ** Statement-level notions *)

Module Spec.
Import Py Users Gamification Lessons Store.

(** The first entry of a fill-in-the-blank submission whose key is not an
    integer numeral, or is the number of no blank of the answer key, as far
    as the evaluation gets to it: an earlier entry whose value is not a
    string makes a case-insensitive question raise instead. *)
Fixpoint blank_key_error (fbq : Questions.FillBlankQuestion)
    (items : list (string * json)) : option string :=
  match items with
  | [] => None
  | (k, v) :: items =>
      match int_of_str k with
      | None => Some ("Invalid blank index format: " +:+ k)
      | Some idx =>
          if bool_decide (idx ∈ Questions.blank_index <$> Questions.answers fbq)
          then
            match v with
            | JStr _ => blank_key_error fbq items
            | _ => if Questions.case_sensitive fbq then blank_key_error fbq items else None
            end
          else Some ("Invalid blank index: " +:+ pretty idx)
      end
  end.

(** The first target of a drag-and-drop submission that no mapping row
    has. *)
Fixpoint target_error (ddq : Questions.DragDropQuestion)
    (items : list (string * json)) : option string :=
  match items with
  | [] => None
  | (t, _) :: items =>
      if bool_decide (t ∈ (fun m => pretty (Questions.target m)) <$> Questions.mappings ddq)
      then target_error ddq items
      else Some ("Invalid target ID: " +:+ t)
  end.

(** The answer-format errors of the four validators: a payload of the
    wrong JSON type for the variant, more than one choice for a
    single-selection question, a choice that is not an integer, a blank
    that is not a blank of the question, a target that is not a target of
    the question. [Some msg] is the message the validator puts in its
    feedback. [null] never reaches the validators. *)
Definition shape_error (question : Questions.Question) (answer : json) : option string :=
  match Questions.variant question, answer with
  | _, JNull => None
  | Questions.MULTIPLE_CHOICE mcq, JList l =>
      if negb (Questions.is_multiple_selection mcq) && (1 <? Z.of_nat (length l))
      then Some "Only one answer allowed for this question"
      else if forallb (fun x => bool_decide (is_Some (int x))) l
      then None
      else Some "Invalid choice IDs"
  | Questions.MULTIPLE_CHOICE _, _ => Some "Answer must be a list of choice IDs"
  | Questions.FILL_BLANK fbq, JDict items => blank_key_error fbq items
  | Questions.FILL_BLANK _, _ =>
      Some "Answer must be a dictionary mapping blank indices to answers"
  | Questions.DRAG_DROP ddq, JDict items => target_error ddq items
  | Questions.DRAG_DROP _, _ =>
      Some "Answer must be a dictionary mapping target IDs to draggable item IDs"
  | Questions.REORDER _, JList _ => None
  | Questions.REORDER _, _ =>
      Some "Answer must be a list of item IDs in the correct order"
  end.

(** An upper-case ASCII letter. *)
Definition is_upper (c : ascii) : bool := (65 <=? code c) && (code c <=? 90).

(** The same character, or the two cases of one ASCII letter (the
    lower-case letter is 32 code points after the upper-case one). *)
Definition same_letter (a b : ascii) : Prop :=
  a = b
  \/ (is_upper a = true /\ code b = code a + 32)
  \/ (is_upper b = true /\ code a = code b + 32).

(** Two strings that differ at most in the case of their letters. *)
Fixpoint equal_ignoring_case (s t : string) : Prop :=
  match s, t with
  | EmptyString, EmptyString => True
  | String a s, String b t => same_letter a b /\ equal_ignoring_case s t
  | _, _ => False
  end.

(** A submitted string matches blank [idx] of the answer key. *)
Definition blank_matches (fbq : Questions.FillBlankQuestion) (idx : Z) (s : string) : Prop :=
  exists row, row ∈ Questions.answers fbq /\ Questions.blank_index row = idx
    /\ if Questions.case_sensitive fbq
       then Questions.answer_text row = s
       else lower (Questions.answer_text row) = lower s.

(** The operations that can run on a lesson's progress: the recomputation
    after a slide is saved, the lesson-complete request, and any change of
    the slide tables in between. *)
Inductive op : Type :=
| Recompute (clock : Clock) (uid lesson_id : Z)
| CompleteLesson (clock : Clock) (uid pk : Z)
| SlideActivity (slides' : gmap Z Slide) (slide_progress' : gmap (Z * Z) UserSlideProgress).

Definition set_slide_tables
    (slides' : gmap Z Slide) (slide_progress' : gmap (Z * Z) UserSlideProgress)
    (db : DB) : DB :=
  {| users := users db; questions := questions db; lessons := lessons db;
     slides := slides'; question_slides := question_slides db;
     slide_progress := slide_progress'; lesson_progress := lesson_progress db;
     enrollments := enrollments db; lesson_reviews := lesson_reviews db;
     review_attempts := review_attempts db;
     question_attempts := question_attempts db;
     xp_transactions := xp_transactions db;
     jem_transactions := jem_transactions db |}.

Definition run_op (o : op) (db : DB) : DB :=
  match o with
  | Recompute clock uid lesson_id => LessonViews._update_lesson_progress clock uid lesson_id db
  | CompleteLesson clock uid pk => (LessonViews.update clock uid pk db).2
  | SlideActivity s p => set_slide_tables s p db
  end.

Definition run (ops : list op) (db : DB) : DB :=
  foldl (fun db o => run_op o db) db ops.

(** Cumulative XP written to the ledger for a user completing a lesson. *)
Definition awarded (uid lesson_id : Z) (db : DB) : Z :=
  foldr Z.add 0 (xp_amount <$> lesson_awards uid lesson_id db).

(** The completion time stamp and the earned XP of a user's progress row
    for a lesson; a missing row counts as not completed, nothing earned. *)
Definition completed_at (db : DB) (uid lesson_id : Z) : option datetime :=
  lesson_progress db !! (uid, lesson_id) ≫= completed_date.

Definition earned (db : DB) (uid lesson_id : Z) : Z :=
  from_option xp_earned 0 (lesson_progress db !! (uid, lesson_id)).

(** The state of the lesson-completion ledger that the two operations
    maintain: nothing is awarded before completion, and field values are
    non-negative as their column types demand. *)
Definition lesson_ledger_ok (db : DB) : Prop :=
  (forall l lesson, lessons db !! l = Some lesson -> 0 <= xp_available lesson)
  /\ forall u l,
       0 <= earned db u l
       /\ (completed_at db u l = None -> lesson_awards u l db = [])
       /\ (length (lesson_awards u l db) <= 1)%nat
       /\ forall lesson, lessons db !! l = Some lesson ->
            awarded u l db <= xp_available lesson.

(** The user has completed every required slide of the lesson: the
    lesson stands at 100%. *)
Definition all_required_done (uid l : Z) (db : DB) : Prop :=
  LessonViews.count_required_slides l db <= LessonViews.count_completed_slides uid l db.

(** What one run of either operation for [(uid, l)] does to the progress
    rows and to the lesson-completion ledger: it keeps the lesson's ledger
    entries, or it finds every required slide completed and the lesson not
    completed, and completes it. *)
Inductive lesson_effect (uid l : Z) (db db' : DB) : Prop :=
| effect_keep :
    lessons db' = lessons db ->
    (forall k, k <> (uid, l) -> lesson_progress db' !! k = lesson_progress db !! k) ->
    earned db' uid l = earned db uid l ->
    (completed_at db' uid l = completed_at db uid l \/ completed_at db uid l = None) ->
    (forall u l0, lesson_awards u l0 db' = lesson_awards u l0 db) ->
    lesson_effect uid l db db'
| effect_award (lesson : Lesson) :
    lessons db' = lessons db ->
    (forall k, k <> (uid, l) -> lesson_progress db' !! k = lesson_progress db !! k) ->
    lessons db !! l = Some lesson ->
    all_required_done uid l db ->
    completed_at db uid l = None ->
    completed_at db' uid l <> None ->
    (exists p, lesson_progress db' !! (uid, l) = Some p
               /\ (inject_Z 100 <= completion_percentage p)%Q) ->
    earned db uid l < xp_available lesson ->
    earned db' uid l = xp_available lesson ->
    (forall u l0,
       lesson_awards u l0 db' =
         lesson_awards u l0 db
         ++ (if decide (u = uid /\ l0 = l)
             then [LessonViews.lesson_xp uid l (xp_available lesson - earned db uid l)]
             else [])) ->
    lesson_effect uid l db db'.

(** The texts stored for blank [i], in row order. *)
Definition texts (i : Z) (rows : list Questions.FillBlankAnswer) : list string :=
  Questions.answer_text <$> filter (fun r => Questions.blank_index r = i) rows.

(** One iteration of the loop of [get_correct_answers]. *)
Definition add_answer (acc : gmap Z (list string)) (answer : Questions.FillBlankAnswer)
    : gmap Z (list string) :=
  let acc :=
    match acc !! Questions.blank_index answer with
    | None => <[Questions.blank_index answer := []]> acc
    | Some _ => acc
    end in
  alter (fun l => l ++ [Questions.answer_text answer]) (Questions.blank_index answer) acc.

(** A submission whose every entry addresses a blank of the key with a
    string. *)
Definition addresses_key (fbq : Questions.FillBlankQuestion)
    (items : list (string * json)) : Prop :=
  forall k v, (k, v) ∈ items ->
    exists idx s, int_of_str k = Some idx /\ v = JStr s
      /\ exists row, row ∈ Questions.answers fbq /\ Questions.blank_index row = idx.

(** The cached counter of a user agrees with the ledger. *)
Definition cached_total_ok (uid : Z) (db : DB) : Prop :=
  total_xp <$> users db !! uid = Some (ledger_xp uid db).

(** The attempt numbers recorded for a (user, question, lesson) key, in
    insertion order. *)
Definition attempt_numbers (uid question_id lesson_id : Z) (db : DB) : list Z :=
  attempt_number <$> filter
    (fun a => user a = uid /\ question a = question_id /\ Store.lesson a = lesson_id)
    (question_attempts db).

(** Every key's attempt numbers are 1, 2, 3, ... in order. *)
Definition gapless (db : DB) : Prop :=
  forall uid question_id lesson_id,
    attempt_numbers uid question_id lesson_id db
    = seqZ 1 (QuestionSubmitView.count_attempts uid question_id lesson_id db).

End Spec.

(** ** Concrete data *)

Module Examples.
Import Py Users Gamification Lessons Store.

Definition choice (i : Z) (ok : bool) : Questions.QuestionChoice :=
  {| Questions.choice_id := i; Questions.choice_text := "";
     Questions.choice_is_correct := ok; Questions.choice_order := i |}.

(** Correct choices 2 and 5, multiple selection allowed. *)
Definition mcq_2_5 : Questions.MultipleChoiceQuestion :=
  {| Questions.is_multiple_selection := true;
     Questions.choices :=
       [choice 1 false; choice 2 true; choice 3 false; choice 5 true] |}.

(** One correct choice, single selection. *)
Definition mcq_single : Questions.MultipleChoiceQuestion :=
  {| Questions.is_multiple_selection := false;
     Questions.choices := [choice 1 true; choice 2 false] |}.

Definition paris (cs : bool) : Questions.FillBlankQuestion :=
  {| Questions.case_sensitive := cs;
     Questions.answers :=
       [{| Questions.blank_index := 0; Questions.answer_text := "paris" |}] |}.

Definition question_of (v : Questions.Variant) : Questions.Question :=
  {| Questions.jems := 10; Questions.xp_available := 50;
     Questions.explanation := ""; Questions.variant := v |}.

Definition new_user : CustomUser :=
  {| jems := 5; total_xp := 0; streak_days := 0; last_activity := None |}.

Definition lesson_100 : Lesson :=
  {| xp_available := 100; is_published := true; course := 1 |}.

(** One user (id 1), four questions, one lesson (id 1) with two required
    slides, one review (id 1) of one question; nothing done yet. *)
Definition db0 : DB :=
  {| users := {[ 1 := new_user ]};
     questions :=
       {[ 1 := question_of (Questions.MULTIPLE_CHOICE mcq_2_5);
          2 := question_of (Questions.MULTIPLE_CHOICE mcq_single);
          3 := question_of (Questions.FILL_BLANK (paris false));
          4 := question_of (Questions.DRAG_DROP {| Questions.mappings := [] |}) ]};
     lessons := {[ 1 := lesson_100 ]};
     slides := {[ 1 := {| slide_lesson := 1; is_required := true |};
                  2 := {| slide_lesson := 1; is_required := true |} ]};
     question_slides := {[ 1 := {| Lessons.question := 2 |} ]};
     slide_progress := ∅;
     lesson_progress := ∅;
     enrollments := ∅;
     lesson_reviews :=
       {[ 1 := {| review_user := 1; review_lesson := 1; score := 0;
                  total_possible := 1; review_percentage := inject_Z 0;
                  completion_time := None |} ]};
     review_attempts := [];
     question_attempts := [];
     xp_transactions := [];
     jem_transactions := [] |}.

(** Noon of day 20000, and the same day in the configured time zone. *)
Definition noon : Clock := {| now := 20000 * 86400 + 43200; localdate := 20000 |}.

(** One hour later. *)
Definition one_pm : Clock := {| now := 20000 * 86400 + 46800; localdate := 20000 |}.

Definition done_slide : UserSlideProgress := {| is_completed := true |}.

(** The answer [[1]], for lesson 1. *)
Definition answer_1 : QuestionSubmitView.Submission :=
  {| QuestionSubmitView.answer := JList [JInt 1]; QuestionSubmitView.lesson_id := 1 |}.

(** [db0] after user 1 has completed both slides of lesson 1. *)
Definition slides_done : DB :=
  Spec.set_slide_tables (slides db0)
    {[ (1, 1) := done_slide; (1, 2) := done_slide ]} db0.

(** User 1 completes slide 1, then slide 2, of lesson 1; the progress is
    recomputed after each, then once more, and the lesson-complete request
    follows. *)
Definition scenario : list Spec.op :=
  [ Spec.SlideActivity (slides db0) {[ (1, 1) := done_slide ]};
    Spec.Recompute noon 1 1;
    Spec.SlideActivity (slides db0) {[ (1, 1) := done_slide; (1, 2) := done_slide ]};
    Spec.Recompute one_pm 1 1;
    Spec.Recompute one_pm 1 1;
    Spec.CompleteLesson one_pm 1 1 ].

End Examples.

(** ** lessons/views.py: starting a lesson, slide progress, starting a review *)

Module LessonStartView.
Import Py Users Gamification Lessons Store LessonViews.

(** The part of [serializer.validated_data] that reaches the new row:
    [completion_percentage], [xp_earned] and [current_slide] are overridden
    by the arguments of [serializer.save]; [completed_date] is a writable
    field of [UserLessonProgressSerializer]. *)
Record StartData := {
  data_completed_date : option datetime
}.

Inductive StartResponse : Type :=
| Start_201_CREATED (progress : UserLessonProgress)
| Start_400_BAD_REQUEST (detail : string)
| Start_401_UNAUTHORIZED
| Start_403_FORBIDDEN (detail : string)
| Start_404_NOT_FOUND (detail : string).

(** [LessonStartView.create], for the requesting user [uid] and the lesson
    [pk] of the URL. The progress record of this development has no
    [current_slide] column, so the pointer to the first slide is not
    stored. The body has passed [is_valid]. *)
Definition create (clock : Clock) (uid pk : Z) (data : StartData) (db : DB)
    : StartResponse * DB :=
  match users db !! uid with
  | None => (Start_401_UNAUTHORIZED, db)
  | Some _ =>
      match get_published_lesson pk db with
      | None => (Start_404_NOT_FOUND "Lesson not found.", db)
      | Some lesson =>
          match Store.lesson_progress db !! (uid, pk) with
          | Some _ => (Start_400_BAD_REQUEST "Lesson already in progress.", db)
          | None =>
              match enrollments db !! (uid, course lesson) with
              | None =>
                  (Start_403_FORBIDDEN
                     "You must be enrolled in this course to start this lesson.", db)
              | Some _ =>
                  let progress :=
                    {| completion_percentage := inject_Z 0; xp_earned := 0;
                       started_at := now clock;
                       completed_date := data_completed_date data |} in
                  (Start_201_CREATED progress,
                   set_lesson_progress (insert (uid, pk) progress) db)
              end
          end
      end
  end.

End LessonStartView.

Module UserSlideProgressViewSet.
Import Py Users Gamification Lessons Store LessonViews.

(** The writable field of [UserSlideProgressSerializer] that the slide
    progress record of this development keeps; [None]: not in the body. *)
Record SlideData := {
  data_is_completed : option bool
}.

Inductive SlideResponse : Type :=
| Slide_201_CREATED
| Slide_401_UNAUTHORIZED
| Slide_404_NOT_FOUND
| Slide_500_INTEGRITY_ERROR.

Definition set_slide_progress
    (f : gmap (Z * Z) UserSlideProgress -> gmap (Z * Z) UserSlideProgress) (db : DB) : DB :=
  {| users := users db; questions := questions db; lessons := lessons db;
     slides := slides db; question_slides := question_slides db;
     slide_progress := f (slide_progress db);
     Store.lesson_progress := Store.lesson_progress db;
     enrollments := enrollments db; lesson_reviews := lesson_reviews db;
     review_attempts := review_attempts db;
     question_attempts := question_attempts db;
     xp_transactions := xp_transactions db;
     jem_transactions := jem_transactions db |}.

(** [Slide.objects.get(id=slide_pk, lesson_id=lesson_pk)]; [None] stands
    for [Slide.DoesNotExist]. *)
Definition get_slide (lesson_pk slide_pk : Z) (db : DB) : option Slide :=
  match slides db !! slide_pk with
  | Some slide => if bool_decide (slide_lesson slide = lesson_pk) then Some slide else None
  | None => None
  end.

(** [UserSlideProgressViewSet.perform_create]; [slide_pk] is
    [self.kwargs.get("slide_pk")], absent on the route that has no slide in
    its URL. When [get_or_create] has
    just created the row, [serializer.instance] stays unset and
    [serializer.save] inserts a second row for the same (user, slide), which
    the [unique_together] constraint refuses; the view is not wrapped in a
    transaction and every query commits on its own, so the first row stays.
    The body has passed [is_valid]. *)
Definition perform_create (clock : Clock) (uid lesson_pk : Z) (slide_pk : option Z)
    (data : SlideData) (db : DB) : SlideResponse * DB :=
  match users db !! uid with
  | None => (Slide_401_UNAUTHORIZED, db)
  | Some _ =>
      match slide_pk ≫= (fun slide_id => pair slide_id <$> get_slide lesson_pk slide_id db) with
      | None => (Slide_404_NOT_FOUND, db)
      | Some (slide_id, slide) =>
          match slide_progress db !! (uid, slide_id) with
          | None =>
              (Slide_500_INTEGRITY_ERROR,
               set_slide_progress (insert (uid, slide_id) {| is_completed := false |}) db)
          | Some progress =>
              let progress :=
                {| is_completed := default (is_completed progress) (data_is_completed data) |} in
              let db := set_slide_progress (insert (uid, slide_id) progress) db in
              (Slide_201_CREATED, _update_lesson_progress clock uid (slide_lesson slide) db)
          end
      end
  end.

End UserSlideProgressViewSet.

Module LessonReviewViewSet.
Import Py Users Gamification Lessons Store LessonViews.

Inductive StartReviewResponse : Type :=
| StartReview_200_OK (review_id : Z) (questions : list Z)
| StartReview_400_BAD_REQUEST (detail : string)
| StartReview_401_UNAUTHORIZED
| StartReview_404_NOT_FOUND (detail : string).

(** The primary key of a new row: one past the largest key in use. *)
Definition next_id {V : Type} (table : gmap Z V) : Z :=
  1 + foldr Z.max 0 ((fun kv : Z * V => kv.1) <$> map_to_list table).

(** [x < 80] *)
Definition below_80 (x : Q) : bool := negb (Qle_bool (inject_Z 80) x).

(** [LessonReviewViewSet.start_review], for the requesting user [uid] and
    the lesson [lesson_pk] of the URL. [shuffled] is the result of
    [QuestionSlide.objects.filter(slide__lesson=lesson, is_for_review=True)
    .order_by("?")], the review-eligible question slides of the lesson in
    the random order the database chose. *)
Definition start_review (uid lesson_pk : Z) (shuffled : list Z) (db : DB)
    : StartReviewResponse * DB :=
  match users db !! uid with
  | None => (StartReview_401_UNAUTHORIZED, db)
  | Some _ =>
      match get_published_lesson lesson_pk db with
      | None => (StartReview_404_NOT_FOUND "Lesson not found", db)
      | Some lesson =>
          match Store.lesson_progress db !! (uid, lesson_pk) with
          | None =>
              (StartReview_400_BAD_REQUEST
                 "You need to start the lesson before reviewing", db)
          | Some progress =>
              if below_80 (completion_percentage progress)
              then (StartReview_400_BAD_REQUEST
                      "You need to complete at least 80% of the lesson before reviewing",
                    db)
              else
                let review_questions := take 5 shuffled in
                match review_questions with
                | [] =>
                    (StartReview_404_NOT_FOUND
                       "No review questions available for this lesson", db)
                | _ :: _ =>
                    let review_id := next_id (lesson_reviews db) in
                    let review :=
                      {| review_user := uid; review_lesson := lesson_pk; score := 0;
                         total_possible := Z.of_nat (length review_questions);
                         review_percentage := inject_Z 0;
                         completion_time := None |} in
                    (StartReview_200_OK review_id review_questions,
                     set_lesson_reviews (insert review_id review) db)
                end
          end
      end
  end.

End LessonReviewViewSet.

(** ** Further statement-level notions *)

Module MoreSpec.
Import Py Users Gamification Lessons Store.

#[export] Existing Instance Questions.position_le_dec.

(** The items of a reorder question in the order of their
    [correct_position]. *)
Definition ordered_items (rq : Questions.ReorderQuestion) : list Questions.ReorderItem :=
  merge_sort Questions.position_le (Questions.reorder_items rq).

(** The draggable items (as strings) the mapping rows allow on target [t]
    (a string), in row order. *)
Definition valid_items (t : string) (rows : list Questions.DragDropMapping) : list string :=
  (fun m => pretty (Questions.draggable_item m))
    <$> filter (fun m => pretty (Questions.target m) = t) rows.

(** One iteration of the loop of [get_correct_mappings]. *)
Definition add_mapping (acc : gmap string (list string)) (mapping : Questions.DragDropMapping)
    : gmap string (list string) :=
  let target_id := pretty (Questions.target mapping) in
  let acc :=
    match acc !! target_id with
    | None => <[target_id := []]> acc
    | Some _ => acc
    end in
  alter (fun l => l ++ [pretty (Questions.draggable_item mapping)]) target_id acc.

(** The items placed on one target: [item_indices] made a list. *)
Definition placed (item_indices : json) : list json :=
  match item_indices with
  | JList l => l
  | x => [x]
  end.

(** Every target of the submission has a mapping row. *)
Definition targets_known (ddq : Questions.DragDropQuestion)
    (items : list (string * json)) : Prop :=
  forall t v, (t, v) ∈ items ->
    exists row, row ∈ Questions.mappings ddq /\ pretty (Questions.target row) = t.

(** The placement of item [x] on target [t] is one of the mapping rows. *)
Definition placement_valid (ddq : Questions.DragDropQuestion) (t : string) (x : json) : Prop :=
  exists s row, str x = Some s /\ row ∈ Questions.mappings ddq
    /\ pretty (Questions.target row) = t
    /\ pretty (Questions.draggable_item row) = s.

(** The sum of the amounts of a user's [UserJem] rows. *)
Definition ledger_jems (uid : Z) (db : DB) : Z :=
  foldr Z.add 0
    (jem_amount <$> filter (fun t => jem_user t = uid) (jem_transactions db)).

(** The score of every review is between 0 and the number of its recorded
    attempts. *)
Definition scores_bounded (db : DB) : Prop :=
  forall rid r, lesson_reviews db !! rid = Some r ->
    0 <= score r <= LessonViews.count_review_attempts rid db.

(** Successive POSTs by [uid] to the [submit] action of the review
    [review_pk] of lesson [lesson_pk]. *)
Definition submit_all (uid lesson_pk review_pk : Z)
    (requests : list (Clock * Z * QuestionSubmitView.Submission)) (db : DB) : DB :=
  foldl
    (fun db (request : Clock * Z * QuestionSubmitView.Submission) =>
       (LessonViews.review_question_submit request.1.1 uid lesson_pk review_pk
          request.1.2 request.2 db).2)
    db requests.

End MoreSpec.

Module MoreExamples.
Import Py Users Gamification Lessons Store.

(** Targets 10 and 11; item 20 goes on 10, items 21 and 22 on 11. *)
Definition ddq_two_targets : Questions.DragDropQuestion :=
  {| Questions.mappings :=
       [ {| Questions.target := 10; Questions.draggable_item := 20 |};
         {| Questions.target := 11; Questions.draggable_item := 21 |};
         {| Questions.target := 11; Questions.draggable_item := 22 |} ] |}.

(** Items 7, 8, 9 with positions 2, 3, 1. *)
Definition rq_three : Questions.ReorderQuestion :=
  {| Questions.reorder_items :=
       [ {| Questions.item_id := 7; Questions.correct_position := 2 |};
         {| Questions.item_id := 8; Questions.correct_position := 3 |};
         {| Questions.item_id := 9; Questions.correct_position := 1 |} ] |}.

(** [Examples.db0] with user 1 enrolled in course 1, a second question
    slide showing the drag-and-drop question 4, and a second user. *)
Definition db1 : DB :=
  {| users := {[ 1 := Examples.new_user; 2 := Examples.new_user ]};
     questions := questions Examples.db0;
     lessons := lessons Examples.db0;
     slides := slides Examples.db0;
     question_slides := {[ 1 := {| Lessons.question := 2 |};
                           2 := {| Lessons.question := 4 |} ]};
     slide_progress := {[ (1, 1) := Examples.done_slide; (1, 2) := Examples.done_slide ]};
     lesson_progress :=
       {[ (1, 1) := {| completion_percentage := inject_Z 100; xp_earned := 0;
                       started_at := 0; completed_date := None |} ]};
     enrollments := {[ (1, 1) := {| enrollment_percentage := inject_Z 0;
                                    enrollment_is_completed := false |} ]};
     lesson_reviews :=
       {[ 1 := {| review_user := 1; review_lesson := 1; score := 0;
                  total_possible := 2; review_percentage := inject_Z 0;
                  completion_time := None |} ]};
     review_attempts := [];
     question_attempts := [];
     xp_transactions := [];
     jem_transactions := [] |}.

(** The answer [[2]] (a wrong choice for question 2), for lesson 1. *)
Definition answer_2 : QuestionSubmitView.Submission :=
  {| QuestionSubmitView.answer := JList [JInt 2]; QuestionSubmitView.lesson_id := 1 |}.

End MoreExamples.

(** ** The evaluators *)

Module EvaluatorFacts.
Import Py Questions.

Lemma sorted_eq_iff (l1 l2 : list Z) : sorted l1 = sorted l2 <-> l1 ≡ₚ l2.
Proof.
  unfold sorted. split.
  - intros H. rewrite <- (merge_sort_Permutation Z.le l1), H.
    apply merge_sort_Permutation.
  - intros H. apply (Sorted_unique Z.le).
    + apply Sorted_merge_sort. apply _.
    + apply Sorted_merge_sort. apply _.
    + by rewrite !merge_sort_Permutation.
Qed.

Lemma same_set_of_Permutation (l1 l2 : list Z) :
  l1 ≡ₚ l2 -> list_to_set l1 =@{gset Z} list_to_set l2.
Proof. intros H. apply set_eq. intros x. rewrite !elem_of_list_to_set. by rewrite H. Qed.

Lemma correct_choices_NoDup mcq :
  NoDup (choice_id <$> choices mcq) -> NoDup (get_correct_choices mcq).
Proof.
  unfold get_correct_choices. intros H. eapply sublist_NoDup; [exact H |].
  apply fmap_sublist, sublist_filter.
Qed.

(** C7 (as amended): a submitted list of choice identifiers (integers, or
    strings of ASCII text) is judged correct exactly when the question
    allows multiple selection or at most one identifier was submitted,
    every identifier converts to an integer, and the identifiers, with
    multiplicity, are a rearrangement of the ids of the choices flagged
    correct. A submission whose set of identifiers differs from the
    correct set (a strict superset or subset) is judged incorrect; so is,
    the ids of the choices being distinct as primary keys are, one that
    repeats an identifier. *)
Theorem multiple_choice_correct_iff question mcq (answer : list json) :
  ascii_json (JList answer) = true ->
  ((_validate_multiple_choice question mcq (JList answer)).1 = true
   <-> (is_multiple_selection mcq = true \/ (length answer <= 1)%nat)
       /\ exists ids, mapM int answer = Some ids
                      /\ ids ≡ₚ get_correct_choices mcq)
  /\ (forall ids, mapM int answer = Some ids ->
        list_to_set ids ≠@{gset Z} list_to_set (get_correct_choices mcq) ->
        (_validate_multiple_choice question mcq (JList answer)).1 = false)
  /\ (NoDup (choice_id <$> choices mcq) ->
      forall ids, mapM int answer = Some ids -> ~ NoDup ids ->
        (_validate_multiple_choice question mcq (JList answer)).1 = false).
Proof.
  intros _.
  assert (Hgate : negb (is_multiple_selection mcq) && (1 <? Z.of_nat (length answer)) = false
                  <-> is_multiple_selection mcq = true \/ (length answer <= 1)%nat).
  { destruct (is_multiple_selection mcq); simpl.
    - split; auto.
    - rewrite Z.ltb_ge. split; [intros; right; lia | intros [?|?]; [done | lia]]. }
  assert (Hiff : (_validate_multiple_choice question mcq (JList answer)).1 = true
     <-> (is_multiple_selection mcq = true \/ (length answer <= 1)%nat)
         /\ exists ids, mapM int answer = Some ids /\ ids ≡ₚ get_correct_choices mcq).
  { unfold _validate_multiple_choice.
    destruct (negb _ && _) eqn:Hg.
    + simpl. split; [done |]. intros [H _]. apply Hgate in H. congruence.
    + destruct (mapM int answer) as [ids|] eqn:Hm.
      * destruct (bool_decide _) eqn:Hs; simpl.
        -- apply bool_decide_eq_true in Hs. apply sorted_eq_iff in Hs.
           split; [| done]. intros _. split; [by apply Hgate |]. eauto.
        -- apply bool_decide_eq_false in Hs. split; [done |].
           intros [_ (ids' & Heq & Hp)]. inversion Heq; subst.
           exfalso. apply Hs. by apply sorted_eq_iff.
      * simpl. split; [done |]. intros [_ (ids & Heq & _)]. done. }
  split; [exact Hiff |]. split.
  - intros ids Hm Hne. apply not_true_is_false. intros Ht.
    apply Hiff in Ht as [_ (ids' & Hm' & Hp)]. rewrite Hm in Hm'. inversion Hm'; subst.
    apply Hne. by apply same_set_of_Permutation.
  - intros Hkeys ids Hm Hdup. apply not_true_is_false. intros Ht.
    apply Hiff in Ht as [_ (ids' & Hm' & Hp)]. rewrite Hm in Hm'. inversion Hm'; subst.
    apply Hdup. rewrite Hp. by apply correct_choices_NoDup.
Qed.

(** With correct choices 2 and 5, the submission [" 2", 2] names choice 2
    twice and is judged incorrect. *)
Lemma multiple_choice_repeated_id :
  ascii_json (JList [JStr " 2"; JInt 2]) = true
  /\ NoDup (choice_id <$> choices Examples.mcq_2_5)
  /\ (_validate_multiple_choice
        (Examples.question_of (MULTIPLE_CHOICE Examples.mcq_2_5)) Examples.mcq_2_5
        (JList [JStr " 2"; JInt 2])).1 = false.
Proof.
  assert (Hk : NoDup (choice_id <$> choices Examples.mcq_2_5)).
  { apply (bool_decide_unpack _). vm_compute. exact I. }
  split; [reflexivity |]. split; [exact Hk |].
  destruct (multiple_choice_correct_iff
              (Examples.question_of (MULTIPLE_CHOICE Examples.mcq_2_5)) Examples.mcq_2_5
              [JStr " 2"; JInt 2] eq_refl) as (_ & _ & H).
  apply (H Hk [2; 2]); [reflexivity |].
  intros Hn. apply NoDup_cons in Hn as [Hn _]. apply Hn. left.
Defined.

(** C7, counterexample: with correct choices 2 and 5, the submission
    [2, 5, 5] equals the correct set as an unordered set and is judged
    incorrect. *)
Lemma duplicated_choice_judged_incorrect :
  list_to_set [2; 5; 5] =@{gset Z} list_to_set (get_correct_choices Examples.mcq_2_5)
  /\ (_validate_multiple_choice
        (Examples.question_of (MULTIPLE_CHOICE Examples.mcq_2_5)) Examples.mcq_2_5
        (JList [JInt 2; JInt 5; JInt 5])).1 = false.
Proof.
  split; [| vm_compute; reflexivity].
  assert (get_correct_choices Examples.mcq_2_5 = [2; 5]) as ->
    by (vm_compute; reflexivity).
  set_solver.
Qed.

(** Order and numerals as strings do not matter: [5, 2] and ["2", 5] are
    both judged correct. A numeral behind a character that [int] does not
    strip (here the file separator, code 28) is not an integer. *)
Example any_order_is_correct :
  (_validate_multiple_choice
     (Examples.question_of (MULTIPLE_CHOICE Examples.mcq_2_5)) Examples.mcq_2_5
     (JList [JInt 5; JInt 2])).1 = true
  /\ (_validate_multiple_choice
        (Examples.question_of (MULTIPLE_CHOICE Examples.mcq_2_5)) Examples.mcq_2_5
        (JList [JStr "2"; JInt 5])).1 = true
  /\ _validate_multiple_choice
       (Examples.question_of (MULTIPLE_CHOICE Examples.mcq_2_5)) Examples.mcq_2_5
       (JList [JStr (String (ascii_of_nat 28) "2"); JInt 5])
     = (false, rejected "Invalid choice IDs").
Proof. repeat split; vm_compute; reflexivity. Qed.

(** A single-selection question with two choices flagged correct: the
    correct set itself is turned down by the single-selection guard. *)
Example single_selection_guard :
  (_validate_multiple_choice
     (Examples.question_of
        (MULTIPLE_CHOICE {| is_multiple_selection := false;
                            choices := choices Examples.mcq_2_5 |}))
     {| is_multiple_selection := false; choices := choices Examples.mcq_2_5 |}
     (JList [JInt 2; JInt 5]))
  = (false, rejected "Only one answer allowed for this question").
Proof. vm_compute. reflexivity. Qed.
End EvaluatorFacts.

Module FillBlankFacts.
Import Py Questions Spec.

Lemma add_answer_lookup acc r i :
  add_answer acc r !! i =
    if decide (blank_index r = i)
    then Some (default [] (acc !! i) ++ [answer_text r])
    else acc !! i.
Proof.
  unfold add_answer. case_decide as Hi.
  - subst i. destruct (acc !! blank_index r) as [l|] eqn:E.
    + rewrite lookup_alter_eq, E. done.
    + rewrite lookup_alter_eq, lookup_insert_eq. done.
  - rewrite lookup_alter_ne by done.
    destruct (acc !! blank_index r); [done |]. by rewrite lookup_insert_ne.
Qed.

Lemma foldl_add_answer_lookup rows : forall acc i,
  foldl add_answer acc rows !! i =
    match acc !! i, texts i rows with
    | None, [] => None
    | o, ts => Some (default [] o ++ ts)
    end.
Proof.
  induction rows as [|r rows IH]; intros acc i; simpl.
  - unfold texts. simpl. destruct (acc !! i); simpl; [by rewrite app_nil_r | done].
  - rewrite IH, add_answer_lookup. unfold texts. rewrite filter_cons.
    case_decide as Hi.
    + simpl. rewrite <- app_assoc. simpl.
      by destruct (acc !! i).
    + done.
Qed.

Lemma correct_answers_lookup fbq i :
  get_correct_answers fbq !! i =
    match texts i (answers fbq) with
    | [] => None
    | ts => Some ts
    end.
Proof.
  unfold get_correct_answers. change (foldl _ ∅ (answers fbq)) with (foldl add_answer ∅ (answers fbq)).
  rewrite foldl_add_answer_lookup, lookup_empty. by destruct (texts i (answers fbq)).
Qed.

Lemma texts_elem i rows s :
  s ∈ texts i rows <-> exists r, r ∈ rows /\ blank_index r = i /\ answer_text r = s.
Proof.
  unfold texts. rewrite list_elem_of_fmap. split.
  - intros (r & -> & Hr). apply list_elem_of_filter in Hr as [? ?]. eauto.
  - intros (r & ? & ? & <-). exists r. split; [done |]. by apply list_elem_of_filter.
Qed.

Lemma texts_lower_elem i rows s :
  lower s ∈ lower <$> texts i rows
  <-> exists r, r ∈ rows /\ blank_index r = i /\ lower (answer_text r) = lower s.
Proof.
  rewrite list_elem_of_fmap. split.
  - intros (t & Ht & Hin). apply texts_elem in Hin as (r & ? & ? & <-). eauto.
  - intros (r & ? & ? & Hl). exists (answer_text r). split; [done |].
    apply texts_elem. eauto.
Qed.

Lemma is_blank_correct_spec fbq idx s valid :
  get_correct_answers fbq !! idx = Some valid ->
  exists b, is_blank_correct fbq (JStr s) valid = Return b
            /\ (b = true <-> blank_matches fbq idx s).
Proof.
  intros Hv. rewrite correct_answers_lookup in Hv.
  assert (valid = texts idx (answers fbq)) as ->.
  { destruct (texts idx (answers fbq)); congruence. }
  unfold is_blank_correct, blank_matches. destruct (case_sensitive fbq).
  - eexists. split; [done |]. rewrite bool_decide_eq_true. apply texts_elem.
  - eexists. split; [done |]. rewrite bool_decide_eq_true. apply texts_lower_elem.
Qed.

Lemma in_key_lookup fbq idx :
  (exists row, row ∈ answers fbq /\ blank_index row = idx) ->
  is_Some (get_correct_answers fbq !! idx).
Proof.
  intros (row & Hin & Hi). rewrite correct_answers_lookup.
  destruct (texts idx (answers fbq)) eqn:E; [| done].
  assert (answer_text row ∈ texts idx (answers fbq)) as H by (apply texts_elem; eauto).
  rewrite E in H. by apply elem_of_nil in H.
Qed.

Lemma fill_blank_loop_spec fbq items : forall incorrect,
  addresses_key fbq items ->
  exists bad,
    fill_blank_loop fbq (get_correct_answers fbq) items incorrect
      = Return (inr (incorrect ++ bad))
    /\ (bad = [] <->
        forall k idx s, (k, JStr s) ∈ items -> int_of_str k = Some idx ->
                        blank_matches fbq idx s).
Proof.
  induction items as [|[k v] items IH]; intros incorrect Hk; simpl.
  - exists []. rewrite app_nil_r. split; [done |]. split; [| done].
    intros _ ? ? ? Hin. by apply elem_of_nil in Hin.
  - destruct (Hk k v) as (idx & s & Hidx & -> & Hrow); [left |].
    rewrite Hidx. destruct (in_key_lookup _ _ Hrow) as [valid Hv]. rewrite Hv.
    destruct (is_blank_correct_spec fbq idx s valid Hv) as (b & -> & Hb). simpl.
    assert (Hk' : addresses_key fbq items).
    { intros k' v' Hin. apply Hk. by right. }
    destruct b.
    + destruct (IH incorrect Hk') as (bad & -> & Hbad). exists bad. split; [done |].
      rewrite Hbad. split.
      * intros H k' idx' s' Hin Hi. apply elem_of_cons in Hin as [Heq | Hin].
        -- inversion Heq; subst. rewrite Hidx in Hi. inversion Hi; subst. by apply Hb.
        -- eauto.
      * intros H k' idx' s' Hin Hi. apply (H k'); [by right | done].
    + destruct (IH (incorrect ++ [idx]) Hk') as (bad & -> & Hbad).
      exists (idx :: bad). split; [by rewrite <- app_assoc |].
      split; [done |]. intros H. exfalso.
      assert (blank_matches fbq idx s) as Hm by (apply (H k); [left | done]).
      apply Hb in Hm. done.
Qed.

Lemma code_lower_char c :
  code (lower_char c) = if is_upper c then code c + 32 else code c.
Proof.
  unfold lower_char, is_upper.
  destruct ((65 <=? code c) && (code c <=? 90)) eqn:E; [| done].
  unfold code in *. rewrite nat_ascii_embedding; lia.
Qed.

Lemma code_inj a b : code a = code b -> a = b.
Proof.
  unfold code. intros H. apply Nat2Z.inj in H.
  rewrite <- (ascii_nat_embedding a), <- (ascii_nat_embedding b). by rewrite H.
Qed.

(** [lower] identifies exactly the characters that are equal or the two
    cases of one letter. *)
Lemma lower_char_eq_iff a b : lower_char a = lower_char b <-> same_letter a b.
Proof.
  unfold same_letter. split.
  - intros H. apply (f_equal code) in H. rewrite !code_lower_char in H.
    destruct (is_upper a) eqn:Ea, (is_upper b) eqn:Eb.
    + left. apply code_inj. lia.
    + right. left. split; [done | lia].
    + right. right. split; [done | lia].
    + left. by apply code_inj.
  - intros [-> | [[Ha Hb] | [Hb Ha]]]; [done | |];
      apply code_inj; rewrite !code_lower_char.
    + rewrite Ha. replace (is_upper b) with false by (unfold is_upper in *; lia). lia.
    + rewrite Hb. replace (is_upper a) with false by (unfold is_upper in *; lia). lia.
Qed.

Lemma lower_eq_iff s : forall t, lower s = lower t <-> equal_ignoring_case s t.
Proof.
  induction s as [|a s IH]; intros [|b t]; simpl; try (split; [discriminate | done]).
  - done.
  - rewrite <- IH, <- lower_char_eq_iff. split.
    + intros H. by inversion H.
    + intros [-> ->]. done.
Qed.

(** C8: for a fill-in-the-blank submission of ASCII text whose entries
    address blanks of the key with strings, the answer is judged correct
    exactly when every submitted string matches an accepted string of its
    blank: up to the case of its letters when the case-sensitive flag is
    false, by exact equality when it is true. *)
Theorem fill_blank_case_rule question fbq (items : list (string * json)) :
  addresses_key fbq items ->
  (forall row, row ∈ answers fbq -> ascii_text (answer_text row) = true) ->
  ascii_json (JDict items) = true ->
  exists is_correct feedback,
    _validate_fill_blank question fbq (JDict items) = Return (is_correct, feedback)
    /\ (is_correct = true <->
        forall k idx s, (k, JStr s) ∈ items -> int_of_str k = Some idx ->
          exists row, row ∈ answers fbq /\ blank_index row = idx
            /\ if case_sensitive fbq
               then answer_text row = s
               else equal_ignoring_case (answer_text row) s).
Proof.
  intros Hk _ _. unfold _validate_fill_blank.
  destruct (fill_blank_loop_spec fbq items [] Hk) as (bad & -> & Hbad). simpl.
  assert (Hm : forall idx s,
            blank_matches fbq idx s
            <-> exists row, row ∈ answers fbq /\ blank_index row = idx
                  /\ if case_sensitive fbq
                     then answer_text row = s
                     else equal_ignoring_case (answer_text row) s).
  { intros idx s. unfold blank_matches.
    destruct (case_sensitive fbq); [done |].
    split; intros (row & ? & ? & H); exists row; (split; [done |]); (split; [done |]);
      by apply lower_eq_iff. }
  destruct bad as [|i bad]; simpl.
  - do 2 eexists. split; [done |]. split; [| done]. intros _ k idx s Hin Hi.
    apply Hm. by apply (proj1 Hbad eq_refl k).
  - do 2 eexists. split; [done |]. split; [done |]. intros H.
    assert (i :: bad = []) as Hnil; [| done].
    apply Hbad. intros k idx s Hin Hi. apply Hm. by apply (H k).
Qed.

(** The spec's example: "Paris" is submitted for a blank whose accepted
    string is "paris". It is judged correct when the flag is off and
    incorrect when it is on. *)
Lemma fill_blank_paris :
  (exists feedback,
     _validate_fill_blank (Examples.question_of (FILL_BLANK (Examples.paris false)))
       (Examples.paris false) (JDict [("0", JStr "Paris")]) = Return (true, feedback))
  /\ (exists feedback,
        _validate_fill_blank (Examples.question_of (FILL_BLANK (Examples.paris true)))
          (Examples.paris true) (JDict [("0", JStr "Paris")]) = Return (false, feedback)).
Proof.
  assert (Hk : forall cs, addresses_key (Examples.paris cs) [("0", JStr "Paris")]).
  { intros cs k v Hin. apply list_elem_of_singleton in Hin. inversion Hin; subst.
    exists 0, "Paris". split; [reflexivity |]. split; [reflexivity |].
    eexists. split; [left |]. reflexivity. }
  assert (Ha : forall cs row, row ∈ answers (Examples.paris cs) ->
                 ascii_text (answer_text row) = true).
  { intros cs row Hin. apply list_elem_of_singleton in Hin. by subst row. }
  split.
  - destruct (fill_blank_case_rule
                (Examples.question_of (FILL_BLANK (Examples.paris false)))
                (Examples.paris false) [("0", JStr "Paris")] (Hk false) (Ha false) eq_refl)
      as (b & feedback & He & Hb).
    exists feedback. rewrite He. f_equal. f_equal. apply Hb.
    intros k idx s Hin Hi. apply list_elem_of_singleton in Hin. inversion Hin; subst.
    inversion Hi; subst. eexists. split; [left |]. split; [reflexivity |].
    simpl. unfold same_letter.
    split; [right; right; split; reflexivity |]. repeat split; by left.
  - destruct (fill_blank_case_rule
                (Examples.question_of (FILL_BLANK (Examples.paris true)))
                (Examples.paris true) [("0", JStr "Paris")] (Hk true) (Ha true) eq_refl)
      as (b & feedback & He & Hb).
    exists feedback. rewrite He. f_equal. f_equal. apply not_true_is_false. intros Ht.
    destruct (proj1 Hb Ht "0" 0 "Paris") as (row & Hin & _ & Heq);
      [left | reflexivity |].
    apply list_elem_of_singleton in Hin. subst row. discriminate.
Defined.

(** "Paris" matches the stored "paris" when the flag is off ... *)
Example paris_insensitive :
  _validate_fill_blank (Examples.question_of (FILL_BLANK (Examples.paris false)))
    (Examples.paris false) (JDict [("0", JStr "Paris")])
  = Return (true, accepted (Examples.question_of (FILL_BLANK (Examples.paris false))) "Correct!").
Proof. vm_compute. reflexivity. Qed.

(** ... and does not when it is on. *)
Example paris_sensitive :
  (fun r => match r with Return (b, _) => Some b | Raise _ => None end)
    (_validate_fill_blank (Examples.question_of (FILL_BLANK (Examples.paris true)))
       (Examples.paris true) (JDict [("0", JStr "Paris")]))
  = Some false.
Proof. vm_compute. reflexivity. Qed.
End FillBlankFacts.

(** ** Question submission *)

Module SubmitFacts.
Import Py Users Gamification Store QuestionSubmitView Spec.

(** [create] past its guards, for a submission that names a lesson. *)
Lemma create_evaluated clock uid pk data db user question lesson is_correct feedback :
  users db !! uid = Some user ->
  questions db !! pk = Some question ->
  lessons db !! lesson_id data = Some lesson ->
  answer data <> JNull ->
  Questions._evaluate_answer question (answer data) = Return (is_correct, feedback) ->
  create clock uid pk data db =
    let attempt_count := count_attempts uid pk (lesson_id data) db in
    let attempt :=
      {| user := uid; question := pk; Store.lesson := lesson_id data;
         user_answer := answer data; is_correct := is_correct;
         attempt_number := attempt_count + 1;
         jems_earned := (rewards question is_correct attempt_count).1 |} in
    let r :=
      if is_correct
      then update_stats clock uid pk (rewards question is_correct attempt_count).2
             (rewards question is_correct attempt_count).1 user
             (create_attempt attempt db)
      else (user, create_attempt attempt db) in
    (HTTP_200_OK attempt feedback
       {| upd_xp_earned := (rewards question is_correct attempt_count).2;
          upd_jems_earned := (rewards question is_correct attempt_count).1;
          upd_total_xp := total_xp r.1;
          upd_total_jems := jems r.1;
          upd_streak_days := streak_days r.1 |},
     r.2).
Proof.
  intros Hu Hq Hl Hn He. unfold create. rewrite Hu, Hq. revert He.
  destruct (answer data); try congruence; intros ->; rewrite Hl; simpl;
    destruct (rewards _ _ _) as [j x]; simpl;
    destruct is_correct; try reflexivity;
    destruct (update_stats _ _ _ _ _ _ _); reflexivity.
Qed.

Lemma update_stats_user clock uid qid xp j user db :
  (update_stats clock uid qid xp j user db).1 =
    {| jems := jems user + (if j >? 0 then j else 0);
       total_xp := total_xp user + (if xp >? 0 then xp else 0);
       streak_days :=
         if localdate clock - date (now clock) =? 1 then streak_days user + 1
         else if localdate clock - date (now clock) >? 1 then 1
         else streak_days user;
       last_activity := Some (now clock) |}.
Proof.
  unfold update_stats, _update_user_streak.
  set (d := localdate clock - date (now clock)).
  destruct (xp >? 0), (j >? 0); simpl; fold d;
    destruct (d =? 1), (d >? 1); unfold with_streak_days; simpl; f_equal; lia.
Qed.

Lemma rewards_nonneg question is_correct n :
  0 <= Questions.xp_available question -> 0 <= Questions.jems question ->
  0 <= (rewards question is_correct n).1 /\ 0 <= (rewards question is_correct n).2.
Proof.
  intros. unfold rewards. destruct is_correct; [| simpl; lia].
  destruct (n =? 0); simpl; lia.
Qed.

(** A submission that gets past the evaluation and names no lesson fails:
    the request is answered with 500 and nothing is written. *)
Lemma create_unknown_lesson clock uid pk data db user question r :
  users db !! uid = Some user ->
  questions db !! pk = Some question ->
  answer data <> JNull ->
  Questions._evaluate_answer question (answer data) = Return r ->
  lessons db !! lesson_id data = None ->
  create clock uid pk data db = (HTTP_500_INTERNAL_SERVER_ERROR IntegrityError, db).
Proof.
  intros Hu Hq Hn He Hl. unfold create. rewrite Hu, Hq. revert He. destruct r as [b fb].
  destruct (answer data); try congruence; intros ->; by rewrite Hl.
Qed.

(** C1: for a submission that names an existing lesson: a correct one
    with no prior attempt for (user, question, lesson) earns the
    question's full [xp_available] and [jems]; the N-th correct attempt,
    N > 1, earns [max 10 (xp_available / N)] and [max 1 (jems / N)] with
    integer division; an incorrect submission earns 0 of both. The amounts
    are the ones added to the user's totals and recorded on the attempt,
    whose number is N. *)
Theorem reward_policy clock uid pk data db user question is_correct feedback :
  users db !! uid = Some user ->
  questions db !! pk = Some question ->
  is_Some (lessons db !! lesson_id data) ->
  answer data <> JNull ->
  Questions._evaluate_answer question (answer data) = Return (is_correct, feedback) ->
  0 <= Questions.xp_available question ->
  0 <= Questions.jems question ->
  let N := count_attempts uid pk (lesson_id data) db + 1 in
  exists attempt updates db',
    create clock uid pk data db = (HTTP_200_OK attempt feedback updates, db')
    /\ attempt_number attempt = N
    /\ jems_earned attempt = upd_jems_earned updates
    /\ upd_total_xp updates = total_xp user + upd_xp_earned updates
    /\ upd_total_jems updates = jems user + upd_jems_earned updates
    /\ (is_correct = false ->
        upd_xp_earned updates = 0 /\ upd_jems_earned updates = 0)
    /\ (is_correct = true -> N = 1 ->
        upd_xp_earned updates = Questions.xp_available question
        /\ upd_jems_earned updates = Questions.jems question)
    /\ (is_correct = true -> 1 < N ->
        upd_xp_earned updates = Z.max 10 (Questions.xp_available question / N)
        /\ upd_jems_earned updates = Z.max 1 (Questions.jems question / N)).
Proof.
  intros Hu Hq [lesson Hl] Hn He Hx Hj N.
  rewrite (create_evaluated _ _ _ _ _ _ _ _ _ _ Hu Hq Hl Hn He). cbv zeta.
  do 3 eexists. split; [reflexivity |]. simpl.
  fold N. split; [done |]. split; [done |].
  destruct (rewards_nonneg question is_correct (N - 1) Hx Hj) as [Hj' Hx'].
  replace (N - 1) with (count_attempts uid pk (lesson_id data) db) in * by (unfold N; lia).
  set (n := count_attempts uid pk (lesson_id data) db) in *.
  assert (Hn0 : 0 <= n) by (unfold n, count_attempts; lia).
  remember (rewards question is_correct n) as rw eqn:Er.
  split; [| split; [| split; [| split]]].
  - destruct is_correct; [| simpl; subst rw; simpl; lia].
    rewrite update_stats_user. simpl. destruct (rw.2 >? 0) eqn:E; lia.
  - destruct is_correct; [| simpl; subst rw; simpl; lia].
    rewrite update_stats_user. simpl. destruct (rw.1 >? 0) eqn:E; lia.
  - intros ->. by subst rw.
  - intros -> HN. subst rw. unfold rewards. replace n with 0 by lia. done.
  - intros -> HN. subst rw. unfold rewards. destruct (n =? 0) eqn:E; [lia |]. done.
Qed.

(** The spec's scenario: correct choices 2 and 5, base XP 50; [5,2] was
    submitted first, [2,5] is the second attempt. *)
Lemma reward_policy_second_attempt :
  exists attempt updates db',
    create Examples.one_pm 1 1 {| answer := JList [JInt 2; JInt 5]; lesson_id := 1 |}
      (create Examples.noon 1 1
         {| answer := JList [JInt 5; JInt 2]; lesson_id := 1 |} Examples.db0).2
    = (HTTP_200_OK attempt
         (Questions.accepted
            (Examples.question_of (Questions.MULTIPLE_CHOICE Examples.mcq_2_5)) "Correct!")
         updates, db')
    /\ attempt_number attempt = 2
    /\ upd_xp_earned updates = 25
    /\ upd_jems_earned updates = 5.
Proof.
  destruct (reward_policy Examples.one_pm 1 1
              {| answer := JList [JInt 2; JInt 5]; lesson_id := 1 |}
              (create Examples.noon 1 1
                 {| answer := JList [JInt 5; JInt 2]; lesson_id := 1 |} Examples.db0).2
              {| jems := 15; total_xp := 50; streak_days := 0;
                 last_activity := Some (now Examples.noon) |}
              (Examples.question_of (Questions.MULTIPLE_CHOICE Examples.mcq_2_5))
              true
              (Questions.accepted
                 (Examples.question_of (Questions.MULTIPLE_CHOICE Examples.mcq_2_5))
                 "Correct!"))
    as (attempt & updates & db' & Hc & Hn & _ & _ & _ & _ & _ & Hr).
  - vm_compute. reflexivity.
  - vm_compute. reflexivity.
  - eexists. vm_compute. reflexivity.
  - discriminate.
  - vm_compute. reflexivity.
  - simpl. lia.
  - simpl. lia.
  - exists attempt, updates, db'. split; [exact Hc |].
    split; [rewrite Hn; vm_compute; reflexivity |].
    destruct Hr as [Hx Hj]; [reflexivity | vm_compute; reflexivity |].
    split; [rewrite Hx | rewrite Hj]; vm_compute; reflexivity.
Defined.

(** C10: for a fill-in-the-blank or drag-and-drop question the empty
    mapping is judged correct, and submitted as a first attempt for an
    existing lesson it earns the question's full XP and jems. *)
Theorem empty_mapping_is_correct clock uid pk lesson db user question :
  users db !! uid = Some user ->
  questions db !! pk = Some question ->
  is_Some (lessons db !! lesson) ->
  (exists fbq, Questions.variant question = Questions.FILL_BLANK fbq)
  \/ (exists ddq, Questions.variant question = Questions.DRAG_DROP ddq) ->
  count_attempts uid pk lesson db = 0 ->
  Questions._evaluate_answer question (JDict [])
    = Return (true, Questions.accepted question "Correct!")
  /\ exists attempt updates db',
       create clock uid pk {| answer := JDict []; lesson_id := lesson |} db
         = (HTTP_200_OK attempt (Questions.accepted question "Correct!") updates, db')
       /\ is_correct attempt = true
       /\ attempt_number attempt = 1
       /\ upd_xp_earned updates = Questions.xp_available question
       /\ upd_jems_earned updates = Questions.jems question.
Proof.
  intros Hu Hq [row Hl] Hv Hc.
  assert (He : Questions._evaluate_answer question (JDict [])
               = Return (true, Questions.accepted question "Correct!")).
  { unfold Questions._evaluate_answer. destruct Hv as [[q ->] | [q ->]]; reflexivity. }
  split; [exact He |].
  rewrite (create_evaluated clock uid pk {| answer := JDict []; lesson_id := lesson |}
             db user question row true _ Hu Hq Hl ltac:(discriminate) He).
  cbv zeta. simpl lesson_id. rewrite Hc.
  do 3 eexists. split; [reflexivity |]. simpl. done.
Qed.

Lemma empty_mapping_witness :
  Questions._evaluate_answer (Examples.question_of (Questions.FILL_BLANK (Examples.paris false)))
    (JDict [])
  = Return (true,
      Questions.accepted
        (Examples.question_of (Questions.FILL_BLANK (Examples.paris false))) "Correct!")
  /\ exists attempt updates db',
       create Examples.noon 1 3 {| answer := JDict []; lesson_id := 1 |} Examples.db0
         = (HTTP_200_OK attempt
              (Questions.accepted
                 (Examples.question_of (Questions.FILL_BLANK (Examples.paris false)))
                 "Correct!") updates, db')
       /\ is_correct attempt = true
       /\ attempt_number attempt = 1
       /\ upd_xp_earned updates = 50
       /\ upd_jems_earned updates = 10.
Proof.
  refine (empty_mapping_is_correct Examples.noon 1 3 1 Examples.db0 Examples.new_user
            (Examples.question_of (Questions.FILL_BLANK (Examples.paris false))) _ _ _ _ _).
  - vm_compute. reflexivity.
  - vm_compute. reflexivity.
  - eexists. vm_compute. reflexivity.
  - left. eexists. reflexivity.
  - vm_compute. reflexivity.
Defined.

(** X13: after a correct submission for an existing lesson the streak
    depends on the clock alone: the activity time stamp read by the streak
    rule is the one [create] has just written. *)
Lemma streak_after_correct_submission clock uid pk data db user question feedback :
  users db !! uid = Some user ->
  questions db !! pk = Some question ->
  is_Some (lessons db !! lesson_id data) ->
  answer data <> JNull ->
  Questions._evaluate_answer question (answer data) = Return (true, feedback) ->
  streak_days <$> users (create clock uid pk data db).2 !! uid
  = Some (if localdate clock - date (now clock) =? 1 then streak_days user + 1
          else if localdate clock - date (now clock) >? 1 then 1
          else streak_days user).
Proof.
  intros Hu Hq [lesson Hl] Hn He.
  rewrite (create_evaluated _ _ _ _ _ _ _ _ _ _ Hu Hq Hl Hn He). cbv zeta. simpl.
  unfold update_stats, _update_user_streak.
  set (d := localdate clock - date (now clock)).
  destruct (_ >? 0), (_ >? 0); simpl; fold d;
    rewrite !lookup_alter_eq; simpl; rewrite Hu; simpl;
    destruct (d =? 1), (d >? 1); reflexivity.
Qed.

(** C6, at the failing input: a user with no activity time stamp and a
    streak of 0 answers correctly for the first time; the streak stays
    0. *)
Theorem first_activity_leaves_streak_at_zero :
  last_activity Examples.new_user = None
  /\ streak_days Examples.new_user = 0
  /\ exists attempt feedback updates db',
       create Examples.noon 1 1 {| answer := JList [JInt 5; JInt 2]; lesson_id := 1 |}
         Examples.db0
       = (HTTP_200_OK attempt feedback updates, db')
       /\ is_correct attempt = true
       /\ upd_streak_days updates = 0
       /\ streak_days <$> users db' !! 1 = Some 0.
Proof.
  split; [reflexivity |]. split; [reflexivity |].
  do 4 eexists. split; [vm_compute; reflexivity |].
  split; [reflexivity |]. split; [reflexivity |]. vm_compute. reflexivity.
Qed.
End SubmitFacts.

Module AttemptFacts.
Import Py Users Gamification Store QuestionSubmitView Spec.

Lemma update_stats_attempts clock uid qid xp j user db :
  question_attempts (update_stats clock uid qid xp j user db).2 = question_attempts db.
Proof. unfold update_stats. by destruct (xp >? 0), (j >? 0). Qed.

Lemma create_attempts clock uid pk data db :
  question_attempts (create clock uid pk data db).2 = question_attempts db
  \/ exists a,
       question_attempts (create clock uid pk data db).2 = question_attempts db ++ [a]
       /\ user a = uid /\ question a = pk /\ Store.lesson a = lesson_id data
       /\ attempt_number a = count_attempts uid pk (lesson_id data) db + 1.
Proof.
  unfold create.
  destruct (users db !! uid) as [u|]; [| by left].
  destruct (questions db !! pk) as [q|]; [| by left].
  destruct (answer data) as [|jb|jn|js|jl|jd] eqn:Ha; [by left | ..];
    (destruct (Questions._evaluate_answer q _) as [[b fb]|]; [| by left]);
    (destruct (lessons db !! lesson_id data); [| by left]);
    destruct (rewards q b _) as [j x]; right; eexists;
    (destruct b;
     [match goal with
      | |- context [update_stats ?c ?a ?b ?x ?j ?u ?d] =>
          pose proof (update_stats_attempts c a b x j u d) as Hs;
          destruct (update_stats c a b x j u d) as [u' db']
      end; simpl in *; rewrite Hs |]); simpl; done.
Qed.

Lemma count_attempts_nonneg uid pk l db : 0 <= count_attempts uid pk l db.
Proof. unfold count_attempts. lia. Qed.

(** X12: a submission keeps every key's attempt numbers equal to
    1, 2, 3, ... in the order the attempts were recorded. *)
Lemma create_gapless clock uid pk data db :
  gapless db -> gapless (create clock uid pk data db).2.
Proof.
  intros Hg u q l. specialize (Hg u q l).
  unfold attempt_numbers, count_attempts in *.
  destruct (create_attempts clock uid pk data db) as [-> | (a & -> & Hu & Hq & Hl & Hn)];
    [done |].
  rewrite filter_app, fmap_app, length_app, Hg, filter_cons, filter_nil.
  case_decide as Hk; simpl.
  - destruct Hk as (Hu' & Hq' & Hl'). rewrite Hn.
    replace (Z.of_nat (length (filter _ (question_attempts db)) + 1))
      with (Z.of_nat (length (filter
             (fun a => user a = u /\ question a = q /\ Store.lesson a = l)
             (question_attempts db))) + 1) by lia.
    rewrite seqZ_app by lia. f_equal.
    unfold count_attempts. rewrite <- Hu, <- Hq, <- Hl, Hu', Hq', Hl'.
    unfold seqZ. simpl. f_equal. lia.
  - rewrite app_nil_r. f_equal. lia.
Qed.

End AttemptFacts.

(** ** Lesson progress *)

Module LessonFacts.
Import Py Users Gamification Lessons Store LessonViews Spec.

Lemma lesson_awards_create_xp u l t db :
  lesson_awards u l (create_xp t db) =
    lesson_awards u l db
    ++ (if decide (xp_user t = u /\ xp_source_type t = LESSON /\ xp_object_id t = Some l)
        then [t] else []).
Proof.
  unfold lesson_awards, create_xp. simpl. by rewrite filter_app.
Qed.

Lemma lesson_awards_lesson_xp u l uid lesson_id amount db :
  lesson_awards u l (create_xp (lesson_xp uid lesson_id amount) db) =
    lesson_awards u l db
    ++ (if decide (u = uid /\ l = lesson_id) then [lesson_xp uid lesson_id amount] else []).
Proof.
  rewrite lesson_awards_create_xp. f_equal. apply decide_ext. simpl. intuition congruence.
Qed.

Lemma earned_insert uid l p db :
  earned (set_lesson_progress (insert (uid, l) p) db) uid l = xp_earned p.
Proof. unfold earned. simpl. by rewrite lookup_insert_eq. Qed.

Lemma completed_at_insert uid l p db :
  completed_at (set_lesson_progress (insert (uid, l) p) db) uid l = completed_date p.
Proof. unfold completed_at. simpl. by rewrite lookup_insert_eq. Qed.

(** On counts, [(a / b) * 100 >= 100] says that [a] is at least [b]. *)
Lemma at_least_100_percentage c t :
  0 < t -> at_least_100 (percentage c t) = true <-> t <= c.
Proof.
  intros Ht. unfold at_least_100, percentage.
  rewrite Qle_bool_iff, Qred_correct.
  destruct t as [|p|p]; try lia.
  unfold Qle, Qmult, Qdiv, Qinv, inject_Z. simpl. lia.
Qed.

Lemma recompute_effect clock uid l db :
  lesson_effect uid l db (_update_lesson_progress clock uid l db).
Proof.
  unfold _update_lesson_progress.
  destruct (lessons db !! l) as [lesson|] eqn:Hl; [| by apply effect_keep; auto].
  destruct (count_required_slides l db =? 0) eqn:Ht; [by apply effect_keep; auto |].
  assert (Hpos : 0 < count_required_slides l db) by (unfold count_required_slides in *; lia).
  set (pct := percentage _ _).
  assert (Hother : forall p (db1 : DB), lesson_progress db1 = lesson_progress db ->
            forall k, k <> (uid, l) ->
            lesson_progress (set_lesson_progress (insert (uid, l) p) db1) !! k
            = lesson_progress db !! k).
  { intros p db1 Hdb1 k Hk. simpl. rewrite lookup_insert_ne by done. by rewrite Hdb1. }
  assert (He : forall p0, from_option xp_earned 0 (Some p0) = xp_earned p0) by done.
  assert (Hfull : forall b, at_least_100 pct && b = true ->
            all_required_done uid l db /\ (inject_Z 100 <= pct)%Q).
  { intros b Hb. apply andb_true_iff in Hb as [Hb _]. split.
    - by apply (at_least_100_percentage _ _ Hpos).
    - by apply Qle_bool_iff. }
  destruct (lesson_progress db !! (uid, l)) as [p|] eqn:Hp; simpl.
  - destruct (at_least_100 pct && bool_decide (completed_date p = None)) eqn:Hg.
    + destruct (Hfull _ Hg) as [Hdone Hpct].
      apply andb_true_iff in Hg as [_ Hc]. apply bool_decide_eq_true in Hc.
      destruct (xp_earned p <? xp_available lesson) eqn:Hlt.
      * apply (effect_award _ _ _ _ lesson).
        -- done.
        -- by apply Hother.
        -- done.
        -- done.
        -- unfold completed_at. by rewrite Hp.
        -- by rewrite completed_at_insert.
        -- eexists. split; [simpl; apply lookup_insert_eq | done].
        -- unfold earned. rewrite Hp. simpl. lia.
        -- rewrite earned_insert. simpl. lia.
        -- intros u l0. unfold earned at 1. rewrite Hp. simpl.
           apply lesson_awards_lesson_xp.
      * apply effect_keep; auto.
        -- rewrite earned_insert. unfold earned. by rewrite Hp.
        -- right. unfold completed_at. by rewrite Hp.
    + apply effect_keep; auto.
      * rewrite earned_insert. unfold earned. by rewrite Hp.
      * left. rewrite completed_at_insert. unfold completed_at. by rewrite Hp.
  - destruct (at_least_100 pct && _) eqn:Hg.
    + destruct (Hfull _ Hg) as [Hdone Hpct].
      destruct (0 <? xp_available lesson) eqn:Hlt.
      * apply (effect_award _ _ _ _ lesson).
        -- done.
        -- by apply Hother.
        -- done.
        -- done.
        -- unfold completed_at. by rewrite Hp.
        -- by rewrite completed_at_insert.
        -- eexists. split; [simpl; apply lookup_insert_eq | done].
        -- unfold earned. rewrite Hp. simpl. lia.
        -- rewrite earned_insert. simpl. lia.
        -- intros u l0. unfold earned at 1. rewrite Hp. simpl.
           apply lesson_awards_lesson_xp.
      * apply effect_keep; auto.
        -- rewrite earned_insert. unfold earned. by rewrite Hp.
        -- right. unfold completed_at. by rewrite Hp.
    + apply effect_keep; auto.
      * rewrite earned_insert. unfold earned. by rewrite Hp.
      * left. rewrite completed_at_insert. unfold completed_at. by rewrite Hp.
Qed.

Lemma course_progress_frame uid c db :
  lessons (_update_course_progress uid c db) = lessons db
  /\ Store.lesson_progress (_update_course_progress uid c db) = Store.lesson_progress db
  /\ forall u l, lesson_awards u l (_update_course_progress uid c db) = lesson_awards u l db.
Proof.
  unfold _update_course_progress.
  destruct (enrollments db !! (uid, c)) as [enrollment|]; [| done].
  destruct (_ =? 0); [done |].
  destruct (at_least_100 _ && _); simpl; [| done].
  split; [done |]. split; [done |]. intros u l.
  transitivity (lesson_awards u l
                  (create_xp {| xp_user := uid; xp_amount := 500;
                                xp_source_type := COURSE;
                                xp_object_id := Some c |} db)); [reflexivity |].
  rewrite lesson_awards_create_xp. simpl.
  rewrite decide_False by intuition congruence. by rewrite app_nil_r.
Qed.

Lemma complete_effect clock uid pk db :
  lesson_effect uid pk db (update clock uid pk db).2.
Proof.
  unfold update.
  destruct (users db !! uid); [| by apply effect_keep; auto].
  unfold get_published_lesson.
  destruct (lessons db !! pk) as [lesson|] eqn:Hl; [| by apply effect_keep; auto].
  destruct (is_published lesson); [| by apply effect_keep; auto].
  destruct (Store.lesson_progress db !! (uid, pk)) as [p|] eqn:Hp;
    [| by apply effect_keep; auto].
  destruct (_ <? _) eqn:Hdone; [by apply effect_keep; auto |].
  destruct (bool_decide (completed_date p = None)) eqn:Hc;
    [| by apply effect_keep; auto].
  apply bool_decide_eq_true in Hc. simpl.
  destruct (xp_earned p <? xp_available lesson) eqn:Hlt; simpl.
  - match goal with
    | |- context [_update_course_progress uid ?c ?d] =>
        destruct (course_progress_frame uid c d) as (Hls & Hlp & Haw)
    end.
    apply (effect_award _ _ _ _ lesson).
    + exact Hls.
    + intros k Hk. simpl. rewrite lookup_insert_ne by done. by rewrite Hlp.
    + exact Hl.
    + unfold all_required_done. lia.
    + unfold completed_at. by rewrite Hp.
    + by rewrite completed_at_insert.
    + eexists. split; [simpl; apply lookup_insert_eq |]. simpl. apply Qle_refl.
    + unfold earned. rewrite Hp. simpl. lia.
    + rewrite earned_insert. simpl. lia.
    + intros u l0. unfold earned at 1. rewrite Hp. simpl.
      rewrite <- (lesson_awards_lesson_xp u l0 uid pk _ db).
      etrans; [| apply Haw]. done.
  - destruct (course_progress_frame uid (course lesson) db) as (Hls & Hlp & Haw).
    apply effect_keep.
    + exact Hls.
    + intros k Hk. simpl. rewrite lookup_insert_ne by done. by rewrite Hlp.
    + rewrite earned_insert. unfold earned. by rewrite Hp.
    + right. unfold completed_at. by rewrite Hp.
    + intros u l0. etrans; [| apply Haw]. done.
Qed.

Lemma run_op_effect o db :
  exists uid l, lesson_effect uid l db (run_op o db).
Proof.
  destruct o as [clock uid l | clock uid pk | s p]; simpl.
  - exists uid, l. apply recompute_effect.
  - exists uid, pk. apply complete_effect.
  - exists 0, 0. by apply effect_keep; auto.
Qed.

Lemma effect_other uid l db db' u l0 :
  lesson_effect uid l db db' -> (u, l0) <> (uid, l) ->
  earned db' u l0 = earned db u l0 /\ completed_at db' u l0 = completed_at db u l0.
Proof.
  intros He Hne. unfold earned, completed_at.
  destruct He as [_ Hk _ _ _ | lesson _ Hk _ _ _ _ _ _ _ _]; by rewrite (Hk _ Hne).
Qed.

Lemma effect_preserves_ok uid l db db' :
  lesson_effect uid l db db' -> lesson_ledger_ok db -> lesson_ledger_ok db'.
Proof.
  intros He [Hls Hok].
  assert (Hls' : lessons db' = lessons db) by (by destruct He).
  split; [intros l0 lesson; rewrite Hls'; apply Hls |].
  intros u l0. destruct (Hok u l0) as (H0 & Hnone & Hlen & Hsum).
  destruct (decide ((u, l0) = (uid, l))) as [Heq | Hne].
  - inversion Heq; subst u l0. clear Heq.
    destruct He as [_ _ Hearn Hcomp Haw | lesson _ _ Hl _ Hc Hc' _ Hlt Hearn Haw].
    + unfold awarded. rewrite Haw, Hearn, Hls'. repeat split; auto.
      intros Hn. apply Hnone. destruct Hcomp as [<- | ?]; done.
    + unfold awarded. rewrite Haw, Hearn, Hls', (Hnone Hc).
      rewrite decide_True by done. simpl.
      repeat split; [by eapply Hls | done | lia |].
      intros lesson' Hl'. rewrite Hl in Hl'. inversion Hl'; subst. lia.
  - destruct (effect_other _ _ _ _ u l0 He Hne) as [-> ->].
    assert (Haw : lesson_awards u l0 db' = lesson_awards u l0 db).
    { destruct He as [_ _ _ _ Haw | lesson _ _ _ _ _ _ _ _ _ Haw]; rewrite Haw; [done |].
      rewrite decide_False by intuition congruence. by rewrite app_nil_r. }
    unfold awarded. rewrite Haw, Hls'. done.
Qed.

Lemma run_preserves_ok ops : forall db,
  lesson_ledger_ok db -> lesson_ledger_ok (run ops db).
Proof.
  induction ops as [|o ops IH]; intros db Hok; [done |].
  simpl. apply IH. destruct (run_op_effect o db) as (uid & l & He).
  by eapply effect_preserves_ok.
Qed.







Lemma db0_ledger_ok : lesson_ledger_ok Examples.db0.
Proof.
  split.
  - intros l lesson Hl. unfold Examples.db0 in Hl. simpl in Hl.
    apply lookup_singleton_Some in Hl as [_ <-]. simpl. lia.
  - intros u l. unfold earned, completed_at, awarded, lesson_awards. simpl.
    rewrite lookup_empty. simpl. repeat split; try done; try lia.
    intros lesson Hl. apply lookup_singleton_Some in Hl as [_ <-]. simpl. lia.
Qed.


(** The spec's scenario: two required slides, 100 XP for the lesson. After
    the first slide the lesson stands at 50% with nothing awarded; after
    the second at 100% with 100 XP awarded; the later runs award nothing
    more. *)
Example two_slides_100_xp :
  completion_percentage
    <$> Store.lesson_progress (run (take 2 Examples.scenario) Examples.db0) !! (1, 1)
  = Some (inject_Z 50)
  /\ awarded 1 1 (run (take 2 Examples.scenario) Examples.db0) = 0
  /\ completion_percentage
       <$> Store.lesson_progress (run (take 4 Examples.scenario) Examples.db0) !! (1, 1)
     = Some (inject_Z 100)
  /\ awarded 1 1 (run (take 4 Examples.scenario) Examples.db0) = 100
  /\ awarded 1 1 (run Examples.scenario Examples.db0) = 100
  /\ xp_transactions (run Examples.scenario Examples.db0) = [lesson_xp 1 1 100].
Proof. vm_compute. repeat split; reflexivity. Qed.
End LessonFacts.

(** ** Lesson reviews: the body of [submit_answer] *)

Module ReviewFacts.
Import Py Users Gamification Lessons Store LessonViews Spec.

Lemma count_review_attempts_create rid a db :
  count_review_attempts rid (create_review_attempt a db)
  = count_review_attempts rid db + (if decide (attempt_review a = rid) then 1 else 0).
Proof.
  unfold count_review_attempts, create_review_attempt. simpl.
  rewrite filter_app, length_app, filter_cons, filter_nil.
  case_decide; simpl; lia.
Qed.

(** The body of [submit_answer] has no test for a review that is already
    completed: run for a review whose answered count is at
    [total_possible - 1] or beyond, it stamps the completion time with the
    current clock and appends one more review transaction. *)
Lemma submit_answer_restamps clock uid pk review_pk data db attempt db' review :
  submit_answer clock uid pk review_pk data db = (Review_200_OK attempt, db') ->
  lesson_reviews db !! review_pk = Some review ->
  total_possible review <= count_review_attempts review_pk db + 1 ->
  completion_time <$> lesson_reviews db' !! review_pk = Some (Some (now clock))
  /\ review_awards review_pk db'
     = review_awards review_pk db
       ++ [ {| xp_user := uid; xp_amount := attempt_xp_earned attempt;
               xp_source_type := REVIEW; xp_object_id := Some review_pk |} ].
Proof.
  intros H Hr Hc. unfold submit_answer in H. rewrite Hr in H.
  repeat case_match; simplify_eq;
    match goal with
    | H : Z.geb _ _ = _ |- _ =>
        rewrite count_review_attempts_create in H; simpl in H;
        rewrite decide_True in H by done
    end; try lia;
    (split; [simpl; by rewrite lookup_insert_eq |]);
    unfold review_awards; simpl; rewrite filter_app, filter_cons, filter_nil;
    by rewrite decide_True.
Qed.
End ReviewFacts.

(** ** The XP ledger and the cached counter *)

Module LedgerFacts.
Import Py Users Gamification Lessons Store QuestionSubmitView LessonViews Spec.

Lemma sum_app (l1 l2 : list Z) :
  foldr Z.add 0 (l1 ++ l2) = foldr Z.add 0 l1 + foldr Z.add 0 l2.
Proof. induction l1 as [|x l1 IH]; simpl; lia. Qed.

Lemma ledger_xp_create_xp uid t db :
  ledger_xp uid (create_xp t db)
  = ledger_xp uid db + (if decide (xp_user t = uid) then xp_amount t else 0).
Proof.
  unfold ledger_xp, create_xp. simpl.
  rewrite filter_app, fmap_app, sum_app, filter_cons, filter_nil.
  case_decide; simpl; lia.
Qed.

Lemma cached_total_add uid amount t db :
  xp_user t = uid -> xp_amount t = amount ->
  cached_total_ok uid db ->
  cached_total_ok uid (add_total_xp uid amount (create_xp t db)).
Proof.
  unfold cached_total_ok. intros Hu Ha H.
  change (ledger_xp uid (add_total_xp uid amount (create_xp t db)))
    with (ledger_xp uid (create_xp t db)).
  rewrite ledger_xp_create_xp, decide_True by done. simpl.
  rewrite lookup_alter_eq. destruct (users db !! uid) as [row|]; [| done].
  simpl in *. inversion H. f_equal. lia.
Qed.

Lemma course_progress_keeps_cached_total uid c db :
  cached_total_ok uid db -> cached_total_ok uid (_update_course_progress uid c db).
Proof.
  intros H. unfold _update_course_progress.
  destruct (enrollments db !! (uid, c)) as [enrollment|]; [| done].
  destruct (_ =? 0); [done |].
  destruct (at_least_100 _ && _); [| done].
  by apply (cached_total_add uid 500).
Qed.

(** X22: the lesson-complete request writes the ledger rows (the lesson's
    and the course's) and the cached counter together: a [total_xp] that
    equals the user's ledger sum before the request equals it after. *)
Lemma complete_keeps_cached_total clock uid pk db :
  cached_total_ok uid db -> cached_total_ok uid (update clock uid pk db).2.
Proof.
  intros H. unfold update.
  destruct (users db !! uid); [| done].
  unfold get_published_lesson.
  destruct (lessons db !! pk) as [lesson|]; [| done].
  destruct (is_published lesson); [| done].
  destruct (Store.lesson_progress db !! (uid, pk)) as [p|]; [| done].
  destruct (_ <? _); [done |].
  destruct (bool_decide (completed_date p = None)); [| done].
  simpl. destruct (xp_earned p <? xp_available lesson); simpl.
  - change (cached_total_ok uid
              (_update_course_progress uid (course lesson)
                 (add_total_xp uid (xp_available lesson - xp_earned p)
                    (create_xp (lesson_xp uid pk (xp_available lesson - xp_earned p))
                       db)))).
    apply course_progress_keeps_cached_total. by apply cached_total_add.
  - change (cached_total_ok uid (_update_course_progress uid (course lesson) db)).
    by apply course_progress_keeps_cached_total.
Qed.

(** The question path writes the ledger row and the cached counter
    together. *)
Lemma update_stats_keeps_cached_total clock uid qid xp j user db :
  users db !! uid = Some user ->
  cached_total_ok uid db ->
  cached_total_ok uid (update_stats clock uid qid xp j user db).2.
Proof.
  unfold cached_total_ok. intros Hu H. rewrite Hu in H. simpl in H. inversion H as [Ht].
  unfold update_stats, _update_user_streak, ledger_xp.
  destruct (xp >? 0), (j >? 0); simpl;
    rewrite !lookup_alter_eq, Hu; simpl;
    rewrite ?filter_app, ?fmap_app, ?sum_app, ?filter_cons, ?filter_nil;
    simpl; rewrite ?decide_True by done; simpl;
    f_equal; unfold ledger_xp in Ht; lia.
Qed.

(** C5, at the failing input: user 1 has completed both required slides
    of lesson 1 and the progress is recomputed. The ledger gains a
    transaction of 100 XP; the cached [total_xp] stays 0. *)
Theorem lesson_bonus_bypasses_cached_total :
  let db := _update_lesson_progress Examples.noon 1 1 Examples.slides_done in
  ledger_xp 1 Examples.slides_done = 0
  /\ total_xp <$> users Examples.slides_done !! 1 = Some 0
  /\ xp_transactions db = [lesson_xp 1 1 100]
  /\ ledger_xp 1 db = 100
  /\ total_xp <$> users db !! 1 = Some 0.
Proof. vm_compute. repeat split; reflexivity. Qed.

End LedgerFacts.

(** ** Reorder and drag-and-drop evaluators *)

Module ReorderFacts.
Import Py Questions MoreSpec.

#[local] Instance position_le_total : Total position_le.
Proof. intros a b. unfold position_le. lia. Qed.

(** X2: [get_correct_order] lists the ids of all the items of the question,
    each row once, in non-decreasing [correct_position]. *)
Theorem correct_order_sorted rq :
  get_correct_order rq = (fun item => pretty (item_id item)) <$> ordered_items rq
  /\ ordered_items rq ≡ₚ reorder_items rq
  /\ Sorted position_le (ordered_items rq).
Proof.
  split; [reflexivity |]. split.
  - apply merge_sort_Permutation.
  - apply Sorted_merge_sort. apply _.
Qed.

Lemma str_ints (ids : list Z) : str <$> (JInt <$> ids) = Some <$> (pretty <$> ids).
Proof. induction ids as [|i ids IH]; [done |]. csimpl. by rewrite IH. Qed.

(** X1: a submitted sequence of integer item ids is judged correct exactly
    when it is the sequence of item ids in the order of [correct_position]:
    same length, same id at every position. *)
Theorem reorder_correct_iff question rq (ids : list Z) :
  (_validate_reorder question rq (JList (JInt <$> ids))).1 = true
  <-> ids = item_id <$> ordered_items rq.
Proof.
  assert (Hc : get_correct_order rq = pretty <$> (item_id <$> ordered_items rq)).
  { unfold get_correct_order. by rewrite <- list_fmap_compose. }
  unfold _validate_reorder. cbv zeta. rewrite str_ints, Hc.
  destruct (bool_decide _) eqn:Hb; simpl.
  - apply bool_decide_eq_true in Hb. split; [intros _ | done].
    apply (inj (fmap Some)) in Hb. by apply (inj (fmap pretty)) in Hb.
  - apply bool_decide_eq_false in Hb. split; [done |]. intros ->. by exfalso.
Qed.

End ReorderFacts.

Module DragDropFacts.
Import Py Questions MoreSpec.

Lemma add_mapping_lookup acc m t :
  add_mapping acc m !! t =
    if decide (pretty (target m) = t)
    then Some (default [] (acc !! t) ++ [pretty (draggable_item m)])
    else acc !! t.
Proof.
  unfold add_mapping. cbv zeta. case_decide as Ht.
  - subst t. destruct (acc !! pretty (target m)) as [l|] eqn:E.
    + by rewrite lookup_alter_eq, E.
    + by rewrite lookup_alter_eq, lookup_insert_eq.
  - rewrite lookup_alter_ne by done.
    destruct (acc !! pretty (target m)); [done |]. by rewrite lookup_insert_ne.
Qed.

Lemma foldl_add_mapping_lookup rows : forall acc t,
  foldl add_mapping acc rows !! t =
    match acc !! t, valid_items t rows with
    | None, [] => None
    | o, vs => Some (default [] o ++ vs)
    end.
Proof.
  induction rows as [|r rows IH]; intros acc t; simpl.
  - unfold valid_items. simpl. destruct (acc !! t); simpl; [by rewrite app_nil_r | done].
  - rewrite IH, add_mapping_lookup. unfold valid_items. rewrite filter_cons.
    case_decide as Ht.
    + simpl. rewrite <- app_assoc. simpl. by destruct (acc !! t).
    + done.
Qed.

Lemma correct_mappings_lookup ddq t :
  get_correct_mappings ddq !! t =
    match valid_items t (mappings ddq) with
    | [] => None
    | vs => Some vs
    end.
Proof.
  unfold get_correct_mappings.
  change (foldl _ ∅ (mappings ddq)) with (foldl add_mapping ∅ (mappings ddq)).
  rewrite foldl_add_mapping_lookup, lookup_empty. by destruct (valid_items t (mappings ddq)).
Qed.

Lemma valid_items_elem t rows s :
  s ∈ valid_items t rows
  <-> exists row, row ∈ rows /\ pretty (target row) = t /\ pretty (draggable_item row) = s.
Proof.
  unfold valid_items. rewrite list_elem_of_fmap. split.
  - intros (r & -> & Hr). apply list_elem_of_filter in Hr as [? ?]. eauto.
  - intros (r & ? & ? & <-). exists r. split; [done |]. by apply list_elem_of_filter.
Qed.

Lemma known_target_lookup ddq t :
  (exists row, row ∈ mappings ddq /\ pretty (target row) = t) ->
  get_correct_mappings ddq !! t = Some (valid_items t (mappings ddq)).
Proof.
  intros (row & Hin & Ht). rewrite correct_mappings_lookup.
  destruct (valid_items t (mappings ddq)) eqn:E; [| done].
  assert (pretty (draggable_item row) ∈ valid_items t (mappings ddq)) as H
    by (apply valid_items_elem; eauto).
  rewrite E in H. by apply elem_of_nil in H.
Qed.

Lemma unknown_target_lookup ddq t :
  (forall row, row ∈ mappings ddq -> pretty (target row) <> t) ->
  get_correct_mappings ddq !! t = None.
Proof.
  intros Hno. rewrite correct_mappings_lookup.
  destruct (valid_items t (mappings ddq)) as [|s l] eqn:E; [done |].
  assert (s ∈ valid_items t (mappings ddq)) as H by (rewrite E; left).
  apply valid_items_elem in H as (row & Hin & Ht & _). by destruct (Hno row Hin).
Qed.

Lemma placements_valid_iff ddq t v :
  forallb (item_valid (valid_items t (mappings ddq))) (str <$> placed v) = true
  <-> forall x, x ∈ placed v -> placement_valid ddq t x.
Proof.
  rewrite <- Is_true_true, forallb_True, Forall_fmap, Forall_forall.
  unfold placement_valid.
  split; intros H x Hx; specialize (H x Hx); simpl in *.
  - unfold item_valid in H. destruct (str x) as [s|] eqn:Hs; [| done].
    apply bool_decide_unpack, valid_items_elem in H as (row & ? & ? & ?). eauto 10.
  - destruct H as (s & row & -> & ? & ? & ?). simpl.
    apply bool_decide_pack, valid_items_elem. eauto.
Qed.

Lemma drag_drop_loop_spec ddq items : forall incorrect,
  targets_known ddq items ->
  exists bad,
    drag_drop_loop (get_correct_mappings ddq) items incorrect = inr (incorrect ++ bad)
    /\ (bad = [] <->
        forall t v x, (t, v) ∈ items -> x ∈ placed v -> placement_valid ddq t x).
Proof.
  induction items as [|[t v] items IH]; intros incorrect Hk; simpl.
  - exists []. rewrite app_nil_r. split; [done |]. split; [| done].
    intros _ ? ? ? Hin. by apply elem_of_nil in Hin.
  - rewrite (known_target_lookup ddq t) by (apply (Hk t v); left).
    assert (Hk' : targets_known ddq items) by (intros t' v' Hin; apply (Hk t' v'); by right).
    fold (placed v).
    destruct (forallb _ _) eqn:Hf.
    + pose proof (proj1 (placements_valid_iff ddq t v) Hf) as Hv. clear Hf. rename Hv into Hf.
      destruct (IH incorrect Hk') as (bad & -> & Hbad). exists bad. split; [done |].
      rewrite Hbad. split.
      * intros H t' v' x Hin Hx. apply elem_of_cons in Hin as [Heq | Hin]; [| eauto].
        inversion Heq; subst. by apply Hf.
      * intros H t' v' x Hin Hx. apply (H t' v'); [by right | done].
    + destruct (IH (incorrect ++ [t]) Hk') as (bad & -> & Hbad).
      exists (t :: bad). split; [by rewrite <- app_assoc |]. split; [done |].
      intros H. exfalso.
      assert (forallb (item_valid (valid_items t (mappings ddq))) (str <$> placed v) = true)
        as Hf'.
      { apply placements_valid_iff. intros x Hx. apply (H t v); [left | done]. }
      congruence.
Qed.

(** X3: a drag-and-drop submission whose targets all have mapping rows is
    judged correct exactly when every item it places on a target is, as a
    string, one of the draggable items that a mapping row allows on that
    target; a single item given without a list counts as a list of one. *)
Theorem drag_drop_correct_iff question ddq (items : list (string * json)) :
  targets_known ddq items ->
  (_validate_drag_drop question ddq (JDict items)).1 = true
  <-> forall t v x, (t, v) ∈ items -> x ∈ placed v -> placement_valid ddq t x.
Proof.
  intros Hk. unfold _validate_drag_drop. cbv zeta.
  destruct (drag_drop_loop_spec ddq items [] Hk) as (bad & -> & Hbad). simpl.
  destruct bad as [|t bad]; simpl.
  - split; [intros _; by apply Hbad | done].
  - split; [done |]. intros H. by apply Hbad in H.
Qed.

Lemma drag_drop_correct_example :
  targets_known MoreExamples.ddq_two_targets
    [("11", JList [JInt 22; JStr "21"]); ("10", JInt 20)]
  /\ ((_validate_drag_drop (Examples.question_of (DRAG_DROP MoreExamples.ddq_two_targets))
         MoreExamples.ddq_two_targets
         (JDict [("11", JList [JInt 22; JStr "21"]); ("10", JInt 20)])).1 = true
      <-> forall t v x,
            (t, v) ∈ [("11", JList [JInt 22; JStr "21"]); ("10", JInt 20)] ->
            x ∈ placed v -> placement_valid MoreExamples.ddq_two_targets t x).
Proof.
  assert (H : targets_known MoreExamples.ddq_two_targets
                [("11", JList [JInt 22; JStr "21"]); ("10", JInt 20)]).
  { intros t v Hin. apply elem_of_cons in Hin as [Heq | Hin].
    - inversion Heq; subst. eexists. split; [right; left |]. reflexivity.
    - apply list_elem_of_singleton in Hin. inversion Hin; subst.
      eexists. split; [left |]. reflexivity. }
  split; [exact H |]. exact (drag_drop_correct_iff _ _ _ H).
Defined.

Lemma drag_drop_loop_app cm good more : forall incorrect,
  drag_drop_loop cm (good ++ more) incorrect =
    match drag_drop_loop cm good incorrect with
    | inl feedback => inl feedback
    | inr incorrect' => drag_drop_loop cm more incorrect'
    end.
Proof.
  induction good as [|[t v] good IH]; intros incorrect; simpl; [done |].
  destruct (cm !! t); [| done]. apply IH.
Qed.

(** X4: when the targets before it all have mapping rows, the first target
    of a drag-and-drop submission that has none ends the evaluation: the
    answer is incorrect, the message names that target, and the feedback
    carries no list of incorrect targets, whatever was placed before or
    after. *)
Theorem drag_drop_unknown_target question ddq good t v rest :
  targets_known ddq good ->
  (forall row, row ∈ mappings ddq -> pretty (target row) <> t) ->
  _validate_drag_drop question ddq (JDict (good ++ (t, v) :: rest))
  = (false, rejected ("Invalid target ID: " +:+ t)).
Proof.
  intros Hk Hno. unfold _validate_drag_drop. cbv zeta.
  rewrite drag_drop_loop_app.
  destruct (drag_drop_loop_spec ddq good [] Hk) as (bad & -> & _). simpl.
  by rewrite (unknown_target_lookup ddq t Hno).
Qed.

Lemma drag_drop_unknown_target_example :
  _validate_drag_drop (Examples.question_of (DRAG_DROP MoreExamples.ddq_two_targets))
    MoreExamples.ddq_two_targets
    (JDict ([("10", JInt 99)] ++ ("12", JInt 20) :: [("11", JInt 21)]))
  = (false, rejected ("Invalid target ID: " +:+ "12")).
Proof.
  apply drag_drop_unknown_target.
  - intros t v Hin. apply list_elem_of_singleton in Hin. inversion Hin; subst.
    eexists. split; [left |]. reflexivity.
  - intros row Hin. unfold MoreExamples.ddq_two_targets in Hin. simpl in Hin.
    repeat (apply elem_of_cons in Hin as [-> | Hin]; [vm_compute; discriminate |]).
    by apply elem_of_nil in Hin.
Defined.

End DragDropFacts.

(** ** Error paths of the fill-in-the-blank evaluator *)

Module FillBlankErrors.
Import Py Questions Spec.

Lemma fill_blank_loop_app fbq ca good more : forall incorrect,
  fill_blank_loop fbq ca (good ++ more) incorrect =
    bind (fill_blank_loop fbq ca good incorrect)
      (fun r =>
         match r with
         | inl feedback => Return (inl feedback)
         | inr incorrect' => fill_blank_loop fbq ca more incorrect'
         end).
Proof.
  induction good as [|[k v] good IH]; intros incorrect; simpl; [done |].
  destruct (int_of_str k) as [idx|]; [| done].
  destruct (ca !! idx) as [valid|]; [| done].
  destruct (is_blank_correct fbq v valid) as [ok|e]; simpl; [apply IH | done].
Qed.

Lemma unknown_index_lookup fbq idx :
  (forall row, row ∈ answers fbq -> blank_index row <> idx) ->
  get_correct_answers fbq !! idx = None.
Proof.
  intros Hno. rewrite FillBlankFacts.correct_answers_lookup.
  destruct (texts idx (answers fbq)) as [|s l] eqn:E; [done |].
  assert (s ∈ texts idx (answers fbq)) as H by (rewrite E; left).
  apply FillBlankFacts.texts_elem in H as (row & Hin & Hi & _). by destruct (Hno row Hin).
Qed.

(** X5: when the entries before it address blanks of the key with strings,
    the first entry of a fill-in-the-blank submission whose key (ASCII
    text) is not an integer numeral, or names a blank the key does not
    have, ends the evaluation: the answer is incorrect, the message quotes
    the offending key, and the feedback lists no incorrect blanks,
    whatever the entries before or after contain. *)
Theorem fill_blank_bad_index question fbq good k v rest :
  addresses_key fbq good ->
  ascii_text k = true ->
  (int_of_str k = None ->
   _validate_fill_blank question fbq (JDict (good ++ (k, v) :: rest))
   = Return (false, rejected ("Invalid blank index format: " +:+ k)))
  /\ (forall idx, int_of_str k = Some idx ->
        (forall row, row ∈ answers fbq -> blank_index row <> idx) ->
        _validate_fill_blank question fbq (JDict (good ++ (k, v) :: rest))
        = Return (false, rejected ("Invalid blank index: " +:+ pretty idx))).
Proof.
  intros Hk _. unfold _validate_fill_blank. cbv zeta. rewrite fill_blank_loop_app.
  destruct (FillBlankFacts.fill_blank_loop_spec fbq good [] Hk) as (bad & -> & _). simpl.
  split.
  - intros ->. done.
  - intros idx -> Hno. by rewrite (unknown_index_lookup fbq idx Hno).
Qed.

(** After a wrong answer for blank 0: the key "one" is not a numeral; nor
    is "7" behind a file separator (code 28), which [int] does not strip;
    the key " 7 " is the numeral 7, the number of no blank. *)
Lemma fill_blank_bad_index_example :
  addresses_key (Examples.paris false) [("0", JStr "rome")]
  /\ _validate_fill_blank (Examples.question_of (FILL_BLANK (Examples.paris false)))
       (Examples.paris false)
       (JDict ([("0", JStr "rome")] ++ ("one", JStr "paris") :: []))
     = Return (false, rejected ("Invalid blank index format: " +:+ "one"))
  /\ _validate_fill_blank (Examples.question_of (FILL_BLANK (Examples.paris false)))
       (Examples.paris false)
       (JDict ([("0", JStr "rome")]
               ++ (String (ascii_of_nat 28) "7", JStr "paris") :: []))
     = Return (false, rejected ("Invalid blank index format: "
                                +:+ String (ascii_of_nat 28) "7"))
  /\ _validate_fill_blank (Examples.question_of (FILL_BLANK (Examples.paris false)))
       (Examples.paris false)
       (JDict ([("0", JStr "rome")] ++ (" 7 ", JStr "paris") :: []))
     = Return (false, rejected ("Invalid blank index: " +:+ pretty 7)).
Proof.
  assert (H : addresses_key (Examples.paris false) [("0", JStr "rome")]).
  { intros k v Hin. apply list_elem_of_singleton in Hin. inversion Hin; subst.
    exists 0, "rome". split; [reflexivity |]. split; [reflexivity |].
    eexists. split; [left |]. reflexivity. }
  split; [exact H |]. split; [| split].
  - apply (proj1 (fill_blank_bad_index _ _ _ "one" _ _ H eq_refl)). reflexivity.
  - apply (proj1 (fill_blank_bad_index _ _ _ (String (ascii_of_nat 28) "7") _ _ H eq_refl)).
    reflexivity.
  - apply (proj2 (fill_blank_bad_index _ _ _ " 7 " _ _ H eq_refl) 7); [reflexivity |].
    intros row Hin. apply list_elem_of_singleton in Hin. subst row. simpl. lia.
Defined.

Lemma sensitive_loop_returns fbq ca items : forall incorrect,
  case_sensitive fbq = true ->
  exists r, fill_blank_loop fbq ca items incorrect = Return r
    /\ (incorrect <> [] -> forall l, r = inr l -> l <> []).
Proof.
  induction items as [|[k v] items IH]; intros incorrect Hcs; simpl.
  - eexists. split; [done |]. intros Hne l [= <-]. done.
  - destruct (int_of_str k) as [idx|]; [| eexists; split; [done | intros _ l; discriminate]].
    destruct (ca !! idx) as [valid|]; [| eexists; split; [done | intros _ l; discriminate]].
    unfold is_blank_correct. rewrite Hcs.
    destruct v; simpl;
      match goal with
      | |- context [fill_blank_loop fbq ca items ?i] =>
          destruct (IH i Hcs) as (r & -> & Hr); exists r; split; [done |];
          intros Hne; apply Hr
      end;
      try (intros Heq; by apply app_eq_nil in Heq as [_ ?]).
    destruct (bool_decide _); [done |].
    intros Heq. by apply app_eq_nil in Heq as [_ ?].
Qed.

Lemma non_string_value_outcome question fbq good k idx v rest :
  addresses_key fbq good ->
  int_of_str k = Some idx ->
  (exists row, row ∈ answers fbq /\ blank_index row = idx) ->
  (forall s, v <> JStr s) ->
  if case_sensitive fbq
  then exists feedback,
         _validate_fill_blank question fbq (JDict (good ++ (k, v) :: rest))
         = Return (false, feedback)
  else _validate_fill_blank question fbq (JDict (good ++ (k, v) :: rest))
       = Raise AttributeError.
Proof.
  intros Hk Hidx Hrow Hv. unfold _validate_fill_blank. cbv zeta.
  rewrite fill_blank_loop_app.
  destruct (FillBlankFacts.fill_blank_loop_spec fbq good [] Hk) as (bad & -> & _). simpl.
  rewrite Hidx. destruct (FillBlankFacts.in_key_lookup _ _ Hrow) as [valid ->].
  unfold is_blank_correct. destruct (case_sensitive fbq) eqn:Hcs.
  - assert (Hret : (match v with
                    | JStr s => Return (bool_decide (s ∈ valid))
                    | _ => Return false
                    end) = Return false).
    { destruct v; try done. by destruct (Hv s). }
    rewrite Hret. simpl.
    destruct (sensitive_loop_returns fbq (get_correct_answers fbq) rest (bad ++ [idx]) Hcs)
      as (r & -> & Hr). simpl.
    destruct r as [fb | l]; [eauto |].
    assert (l <> []) as Hl.
    { apply Hr; [| done]. intros Heq. by apply app_eq_nil in Heq as [_ ?]. }
    destruct l; [done |]. simpl. eauto.
  - destruct v; try done. by destruct (Hv s).
Qed.

(** X6: a fill-in-the-blank entry whose key names a blank of the answer key
    and whose value is not a string. For a case-insensitive question the
    evaluation raises [AttributeError]; for a case-sensitive question it
    never raises, and the answer is judged incorrect. *)
Theorem fill_blank_non_string question fbq good k idx v rest :
  addresses_key fbq good ->
  int_of_str k = Some idx ->
  (exists row, row ∈ answers fbq /\ blank_index row = idx) ->
  (forall s, v <> JStr s) ->
  if case_sensitive fbq
  then exists feedback,
         _validate_fill_blank question fbq (JDict (good ++ (k, v) :: rest))
         = Return (false, feedback)
  else _validate_fill_blank question fbq (JDict (good ++ (k, v) :: rest))
       = Raise AttributeError.
Proof. apply non_string_value_outcome. Qed.

Lemma fill_blank_non_string_example :
  _validate_fill_blank (Examples.question_of (FILL_BLANK (Examples.paris false)))
    (Examples.paris false) (JDict ([] ++ ("0", JInt 5) :: []))
  = Raise AttributeError.
Proof.
  apply (fill_blank_non_string
           (Examples.question_of (FILL_BLANK (Examples.paris false)))
           (Examples.paris false) [] "0" 0 (JInt 5) []).
  - intros k v Hin. by apply elem_of_nil in Hin.
  - reflexivity.
  - eexists. split; [left |]. reflexivity.
  - intros s. discriminate.
Defined.

End FillBlankErrors.

(** ** More on question submission *)

Module RewardFacts.
Import Py Users Gamification Store QuestionSubmitView Spec MoreSpec.

(** X7: for a correct resubmission (at least one prior attempt) the reward
    is at least 10 XP and 1 jem, even for a question configured with less,
    and at most the larger of that floor and the question's base amount;
    and it never grows with the number of prior attempts. *)
Theorem retry_reward_bounds question n m :
  0 <= Questions.xp_available question ->
  0 <= Questions.jems question ->
  0 < n <= m ->
  10 <= (rewards question true n).2 <= Z.max 10 (Questions.xp_available question)
  /\ 1 <= (rewards question true n).1 <= Z.max 1 (Questions.jems question)
  /\ (rewards question true m).2 <= (rewards question true n).2
  /\ (rewards question true m).1 <= (rewards question true n).1.
Proof.
  intros Hx Hj [Hn Hm]. unfold rewards.
  destruct (n =? 0) eqn:En; [lia |]. destruct (m =? 0) eqn:Em; [lia |]. simpl.
  assert (Hdx : Questions.xp_available question / (n + 1) <= Questions.xp_available question).
  { apply Z.div_le_upper_bound; nia. }
  assert (Hdj : Questions.jems question / (n + 1) <= Questions.jems question).
  { apply Z.div_le_upper_bound; nia. }
  assert (Hmx : Questions.xp_available question / (m + 1)
                <= Questions.xp_available question / (n + 1)).
  { apply Z.div_le_compat_l; lia. }
  assert (Hmj : Questions.jems question / (m + 1) <= Questions.jems question / (n + 1)).
  { apply Z.div_le_compat_l; lia. }
  lia.
Qed.

Lemma retry_reward_bounds_low_base :
  10 <= (rewards {| Questions.jems := 0; Questions.xp_available := 5;
                    Questions.explanation := "";
                    Questions.variant := Questions.MULTIPLE_CHOICE Examples.mcq_2_5 |}
           true 1).2
  /\ (rewards {| Questions.jems := 0; Questions.xp_available := 5;
                 Questions.explanation := "";
                 Questions.variant := Questions.MULTIPLE_CHOICE Examples.mcq_2_5 |}
        true 0).2 = 5.
Proof.
  split; [| reflexivity].
  apply (retry_reward_bounds
           {| Questions.jems := 0; Questions.xp_available := 5;
              Questions.explanation := "";
              Questions.variant := Questions.MULTIPLE_CHOICE Examples.mcq_2_5 |} 1 1);
    simpl; lia.
Defined.

End RewardFacts.

Module CreateFacts.
Import Py Users Gamification Store QuestionSubmitView Spec MoreSpec.

(** The request either stops at a guard or an exception, leaving the
    database as it was, or gets past the evaluation. *)
Lemma create_cases clock uid pk data db :
  (create clock uid pk data db).2 = db
  \/ exists user question lesson is_correct feedback,
       users db !! uid = Some user /\ questions db !! pk = Some question
       /\ lessons db !! lesson_id data = Some lesson
       /\ answer data <> JNull
       /\ Questions._evaluate_answer question (answer data) = Return (is_correct, feedback).
Proof.
  unfold create.
  destruct (users db !! uid) as [user|] eqn:Hu; [| by left].
  destruct (questions db !! pk) as [question|] eqn:Hq; [| by left].
  destruct (answer data) as [|jb|jn|js|jl|jd] eqn:Ha; [by left | ..];
    (destruct (Questions._evaluate_answer question _) as [[b fb]|] eqn:He; [| by left]);
    (destruct (lessons db !! lesson_id data) as [lesson|] eqn:Hl; [| by left]);
    right; exists user, question, lesson, b, fb; by rewrite ?Ha.
Qed.

Lemma create_db clock uid pk data db user question lesson is_correct feedback :
  users db !! uid = Some user ->
  questions db !! pk = Some question ->
  lessons db !! lesson_id data = Some lesson ->
  answer data <> JNull ->
  Questions._evaluate_answer question (answer data) = Return (is_correct, feedback) ->
  exists attempt,
    (create clock uid pk data db).2 =
      if is_correct
      then (update_stats clock uid pk
              (rewards question is_correct (count_attempts uid pk (lesson_id data) db)).2
              (rewards question is_correct (count_attempts uid pk (lesson_id data) db)).1
              user (create_attempt attempt db)).2
      else create_attempt attempt db.
Proof.
  intros Hu Hq Hl Hn He.
  rewrite (SubmitFacts.create_evaluated _ _ _ _ _ _ _ _ _ _ Hu Hq Hl Hn He). cbv zeta.
  eexists. simpl. by destruct is_correct.
Qed.

Lemma update_stats_xp clock uid qid xp j user db :
  xp_transactions (update_stats clock uid qid xp j user db).2
  = xp_transactions db
    ++ (if xp >? 0
        then [ {| xp_user := uid; xp_amount := xp; xp_source_type := QUESTION;
                  xp_object_id := Some qid |} ]
        else []).
Proof.
  unfold update_stats. destruct (xp >? 0), (j >? 0); simpl; by rewrite ?app_nil_r.
Qed.

Lemma update_stats_jems clock uid qid xp j user db :
  jem_transactions (update_stats clock uid qid xp j user db).2
  = jem_transactions db
    ++ (if j >? 0
        then [ {| jem_user := uid; jem_amount := j; jem_object_id := Some qid |} ]
        else []).
Proof.
  unfold update_stats. destruct (xp >? 0), (j >? 0); simpl; by rewrite ?app_nil_r.
Qed.

Lemma update_stats_other_user clock uid qid xp j user db u :
  u <> uid -> users (update_stats clock uid qid xp j user db).2 !! u = users db !! u.
Proof.
  intros Hne. unfold update_stats, _update_user_streak.
  destruct (xp >? 0), (j >? 0); simpl; by rewrite !lookup_alter_ne.
Qed.

Lemma update_stats_row clock uid qid xp j user db :
  users db !! uid = Some user ->
  users (update_stats clock uid qid xp j user db).2 !! uid
  = Some (update_stats clock uid qid xp j user db).1.
Proof.
  intros Hu. unfold update_stats, _update_user_streak, with_streak_days.
  destruct (xp >? 0), (j >? 0); simpl; rewrite !lookup_alter_eq, Hu; simpl;
    repeat case_match; reflexivity.
Qed.

(** X8: a submission for an existing lesson that is judged incorrect
    writes exactly one row, the attempt, with the next attempt number and
    no jems; the two ledgers and the user rows stay as they were, and the
    response reports no gain. *)
Theorem incorrect_submission_writes_attempt_only
    clock uid pk data db user question feedback :
  users db !! uid = Some user ->
  questions db !! pk = Some question ->
  is_Some (lessons db !! lesson_id data) ->
  answer data <> JNull ->
  Questions._evaluate_answer question (answer data) = Return (false, feedback) ->
  let attempt :=
    {| Store.user := uid; Store.question := pk; Store.lesson := lesson_id data;
       user_answer := answer data; is_correct := false;
       attempt_number := count_attempts uid pk (lesson_id data) db + 1;
       jems_earned := 0 |} in
  create clock uid pk data db =
    (HTTP_200_OK attempt feedback
       {| upd_xp_earned := 0; upd_jems_earned := 0;
          upd_total_xp := total_xp user; upd_total_jems := jems user;
          upd_streak_days := streak_days user |},
     create_attempt attempt db).
Proof.
  intros Hu Hq [lesson Hl] Hn He attempt.
  by rewrite (SubmitFacts.create_evaluated _ _ _ _ _ _ _ _ _ _ Hu Hq Hl Hn He).
Qed.

Lemma incorrect_submission_example :
  create Examples.noon 1 1 {| answer := JList [JInt 2]; lesson_id := 1 |} Examples.db0
  = (HTTP_200_OK
       {| Store.user := 1; Store.question := 1; Store.lesson := 1;
          user_answer := JList [JInt 2]; is_correct := false;
          attempt_number := 1; jems_earned := 0 |}
       (Questions.rejected "Incorrect. Try again!")
       {| upd_xp_earned := 0; upd_jems_earned := 0;
          upd_total_xp := 0; upd_total_jems := 5; upd_streak_days := 0 |},
     create_attempt
       {| Store.user := 1; Store.question := 1; Store.lesson := 1;
          user_answer := JList [JInt 2]; is_correct := false;
          attempt_number := 1; jems_earned := 0 |} Examples.db0).
Proof.
  apply (incorrect_submission_writes_attempt_only Examples.noon 1 1
           {| answer := JList [JInt 2]; lesson_id := 1 |} Examples.db0
           Examples.new_user
           (Examples.question_of (Questions.MULTIPLE_CHOICE Examples.mcq_2_5))).
  - vm_compute. reflexivity.
  - vm_compute. reflexivity.
  - eexists. vm_compute. reflexivity.
  - discriminate.
  - vm_compute. reflexivity.
Defined.

(** X30: a submission that gets past the evaluation and names a lesson
    that does not exist makes the request fail with status 500
    ([IntegrityError]): nothing is written, neither the attempt nor, for a
    correct answer, any reward. *)
Theorem unknown_lesson_fails_request clock uid pk data db user question r :
  users db !! uid = Some user ->
  questions db !! pk = Some question ->
  answer data <> JNull ->
  Questions._evaluate_answer question (answer data) = Return r ->
  lessons db !! lesson_id data = None ->
  create clock uid pk data db = (HTTP_500_INTERNAL_SERVER_ERROR IntegrityError, db).
Proof. apply SubmitFacts.create_unknown_lesson. Qed.

(** The correct answer [5, 2] to question 1, for lesson 99. *)
Lemma unknown_lesson_example :
  create Examples.noon 1 1 {| answer := JList [JInt 5; JInt 2]; lesson_id := 99 |}
    Examples.db0
  = (HTTP_500_INTERNAL_SERVER_ERROR IntegrityError, Examples.db0).
Proof.
  apply (unknown_lesson_fails_request Examples.noon 1 1
           {| answer := JList [JInt 5; JInt 2]; lesson_id := 99 |} Examples.db0
           Examples.new_user
           (Examples.question_of (Questions.MULTIPLE_CHOICE Examples.mcq_2_5))
           (true, Questions.accepted
                    (Examples.question_of (Questions.MULTIPLE_CHOICE Examples.mcq_2_5))
                    "Correct!")).
  - vm_compute. reflexivity.
  - vm_compute. reflexivity.
  - discriminate.
  - vm_compute. reflexivity.
  - vm_compute. reflexivity.
Defined.

Lemma ledger_xp_app uid (l1 l2 : list UserXP) :
  foldr Z.add 0 (xp_amount <$> filter (fun t => xp_user t = uid) (l1 ++ l2))
  = foldr Z.add 0 (xp_amount <$> filter (fun t => xp_user t = uid) l1)
    + foldr Z.add 0 (xp_amount <$> filter (fun t => xp_user t = uid) l2).
Proof. by rewrite filter_app, fmap_app, LedgerFacts.sum_app. Qed.

(** X9: question submission keeps, for every user, the cached [total_xp]
    equal to the sum of that user's XP ledger. *)
Theorem create_keeps_cached_total clock uid pk data db u :
  cached_total_ok u db -> cached_total_ok u (create clock uid pk data db).2.
Proof.
  intros H.
  destruct (create_cases clock uid pk data db)
    as [-> | (user & question & lesson & b & fb & Hu & Hq & Hl & Hn & He)]; [done |].
  destruct (create_db clock _ _ _ _ _ _ _ _ _ Hu Hq Hl Hn He) as (attempt & ->).
  destruct b; [| done].
  destruct (decide (u = uid)) as [-> | Hne].
  - by apply LedgerFacts.update_stats_keeps_cached_total.
  - unfold cached_total_ok, ledger_xp in *.
    rewrite update_stats_other_user, update_stats_xp, ledger_xp_app by done.
    simpl. rewrite H. f_equal.
    destruct (_ >? 0); simpl; [| lia].
    rewrite filter_cons, filter_nil. rewrite decide_False by (simpl; congruence).
    simpl. lia.
Qed.

Lemma create_keeps_cached_total_example :
  cached_total_ok 1 Examples.db0
  /\ cached_total_ok 1
       (create Examples.noon 1 1 {| answer := JList [JInt 5; JInt 2]; lesson_id := 1 |}
          Examples.db0).2.
Proof.
  assert (H : cached_total_ok 1 Examples.db0) by (vm_compute; reflexivity).
  split; [exact H |]. by apply create_keeps_cached_total.
Defined.

Lemma ledger_jems_app uid (l1 l2 : list UserJem) :
  foldr Z.add 0 (jem_amount <$> filter (fun t => jem_user t = uid) (l1 ++ l2))
  = foldr Z.add 0 (jem_amount <$> filter (fun t => jem_user t = uid) l1)
    + foldr Z.add 0 (jem_amount <$> filter (fun t => jem_user t = uid) l2).
Proof. by rewrite filter_app, fmap_app, LedgerFacts.sum_app. Qed.

(** X10: question submission changes a user's cached [jems] by exactly what
    it adds to that user's jem ledger: the difference between the counter
    and the ledger sum is the same before and after. *)
Theorem create_keeps_jems_in_step clock uid pk data db u row :
  users db !! u = Some row ->
  exists row',
    users (create clock uid pk data db).2 !! u = Some row'
    /\ jems row' - ledger_jems u (create clock uid pk data db).2
       = jems row - ledger_jems u db.
Proof.
  intros Hrow.
  destruct (create_cases clock uid pk data db)
    as [-> | (user & question & lesson & b & fb & Hu & Hq & Hl & Hn & He)]; [eauto |].
  destruct (create_db clock _ _ _ _ _ _ _ _ _ Hu Hq Hl Hn He) as (attempt & ->).
  destruct b; [| eauto].
  destruct (decide (u = uid)) as [-> | Hne].
  - rewrite Hu in Hrow. inversion Hrow; subst row.
    eexists. split; [by apply update_stats_row |].
    rewrite SubmitFacts.update_stats_user. unfold ledger_jems.
    rewrite update_stats_jems, ledger_jems_app. simpl.
    destruct (_ >? 0); simpl; [| lia].
    rewrite filter_cons, filter_nil. rewrite decide_True by done. simpl. lia.
  - exists row. split; [by rewrite update_stats_other_user |].
    unfold ledger_jems. rewrite update_stats_jems, ledger_jems_app. simpl.
    destruct (_ >? 0); simpl; [| lia].
    rewrite filter_cons, filter_nil. rewrite decide_False by (simpl; congruence).
    simpl. lia.
Qed.

Lemma create_keeps_jems_in_step_example :
  exists row',
    users (create Examples.noon 1 1 {| answer := JList [JInt 5; JInt 2]; lesson_id := 1 |}
             Examples.db0).2 !! 1 = Some row'
    /\ jems row'
       - ledger_jems 1
           (create Examples.noon 1 1 {| answer := JList [JInt 5; JInt 2]; lesson_id := 1 |}
              Examples.db0).2
       = jems Examples.new_user - ledger_jems 1 Examples.db0.
Proof.
  apply (create_keeps_jems_in_step Examples.noon 1 1
           {| answer := JList [JInt 5; JInt 2]; lesson_id := 1 |} Examples.db0 1
           Examples.new_user).
  vm_compute. reflexivity.
Defined.

Lemma update_stats_frame clock uid qid xp j user db :
  let db' := (update_stats clock uid qid xp j user db).2 in
  questions db' = questions db /\ lessons db' = lessons db /\ slides db' = slides db
  /\ question_slides db' = question_slides db /\ slide_progress db' = slide_progress db
  /\ lesson_progress db' = lesson_progress db /\ enrollments db' = enrollments db
  /\ lesson_reviews db' = lesson_reviews db /\ review_attempts db' = review_attempts db.
Proof.
  unfold update_stats. destruct (xp >? 0), (j >? 0); simpl; done.
Qed.

(** X11: whatever the request, question submission writes nothing but the
    attempt log, the two ledgers and the requesting user's row: every other
    table, and every other user's row, is left as it was. *)
Theorem create_frame clock uid pk data db :
  let db' := (create clock uid pk data db).2 in
  questions db' = questions db /\ lessons db' = lessons db /\ slides db' = slides db
  /\ question_slides db' = question_slides db /\ slide_progress db' = slide_progress db
  /\ lesson_progress db' = lesson_progress db /\ enrollments db' = enrollments db
  /\ lesson_reviews db' = lesson_reviews db /\ review_attempts db' = review_attempts db
  /\ forall u, u <> uid -> users db' !! u = users db !! u.
Proof.
  cbv zeta.
  destruct (create_cases clock uid pk data db)
    as [-> | (user & question & lesson & b & fb & Hu & Hq & Hl & Hn & He)]; [done |].
  destruct (create_db clock _ _ _ _ _ _ _ _ _ Hu Hq Hl Hn He) as (attempt & ->).
  destruct b; [| done].
  match goal with
  | |- context [update_stats ?c ?a ?q ?x ?j ?us ?d] =>
      destruct (update_stats_frame c a q x j us d) as (?&?&?&?&?&?&?&?&?)
  end.
  repeat split; try done. intros u Hne. by rewrite update_stats_other_user.
Qed.

(** X17: a fill-in-the-blank submission that gives a non-string value for a
    blank of a case-insensitive question makes the request fail with
    status 500 ([AttributeError]) and nothing is written, not even an
    attempt row. *)
Theorem non_string_blank_fails_request
    clock uid pk lesson db user question fbq good k idx v rest :
  users db !! uid = Some user ->
  questions db !! pk = Some question ->
  Questions.variant question = Questions.FILL_BLANK fbq ->
  Questions.case_sensitive fbq = false ->
  addresses_key fbq good ->
  int_of_str k = Some idx ->
  (exists row, row ∈ Questions.answers fbq /\ Questions.blank_index row = idx) ->
  (forall s, v <> JStr s) ->
  create clock uid pk {| answer := JDict (good ++ (k, v) :: rest); lesson_id := lesson |} db
  = (HTTP_500_INTERNAL_SERVER_ERROR AttributeError, db).
Proof.
  intros Hu Hq Hv Hcs Hk Hidx Hrow Hns.
  pose proof (FillBlankErrors.non_string_value_outcome question fbq good k idx v rest
                Hk Hidx Hrow Hns) as He.
  rewrite Hcs in He.
  unfold create. rewrite Hu, Hq. simpl.
  unfold Questions._evaluate_answer. rewrite Hv, He. done.
Qed.

Lemma non_string_blank_example :
  create Examples.noon 1 3 {| answer := JDict ([] ++ ("0", JInt 5) :: []); lesson_id := 1 |}
    Examples.db0
  = (HTTP_500_INTERNAL_SERVER_ERROR AttributeError, Examples.db0).
Proof.
  apply (non_string_blank_fails_request Examples.noon 1 3 1 Examples.db0
           Examples.new_user
           (Examples.question_of (Questions.FILL_BLANK (Examples.paris false)))
           (Examples.paris false) [] "0" 0 (JInt 5) []).
  - vm_compute. reflexivity.
  - vm_compute. reflexivity.
  - reflexivity.
  - reflexivity.
  - intros k v Hin. by apply elem_of_nil in Hin.
  - reflexivity.
  - eexists. split; [left |]. reflexivity.
  - intros s. discriminate.
Defined.

(** [Examples.db0] has no attempts: every key's numbers are the empty
    sequence. After two submissions for one key they are 1, 2. *)
Lemma gapless_after_two_submissions :
  gapless Examples.db0
  /\ gapless
       (create Examples.one_pm 1 1 {| answer := JList [JInt 2]; lesson_id := 1 |}
          (create Examples.noon 1 1 {| answer := JList [JInt 5]; lesson_id := 1 |}
             Examples.db0).2).2.
Proof.
  assert (H : gapless Examples.db0) by (intros u q l; reflexivity).
  split; [exact H |].
  apply AttemptFacts.create_gapless. apply AttemptFacts.create_gapless. exact H.
Defined.

(** A first correct answer at noon UTC of day 20000, in a time zone where
    it is already day 20001: the streak goes from 0 to 1, by the "one day
    after the last activity" branch, the last activity being the time
    stamp just written. *)
Lemma streak_after_correct_example :
  streak_days
    <$> users (create {| now := now Examples.noon; localdate := 20001 |} 1 1
                 {| answer := JList [JInt 5; JInt 2]; lesson_id := 1 |} Examples.db0).2 !! 1
  = Some 1.
Proof.
  exact (SubmitFacts.streak_after_correct_submission
           {| now := now Examples.noon; localdate := 20001 |} 1 1
           {| answer := JList [JInt 5; JInt 2]; lesson_id := 1 |} Examples.db0
           Examples.new_user
           (Examples.question_of (Questions.MULTIPLE_CHOICE Examples.mcq_2_5))
           (Questions.accepted
              (Examples.question_of (Questions.MULTIPLE_CHOICE Examples.mcq_2_5))
              "Correct!")
           eq_refl eq_refl (ex_intro _ Examples.lesson_100 eq_refl)
           ltac:(discriminate) eq_refl).
Defined.

End CreateFacts.

(** ** Answer-format errors *)

Module FormatErrorFacts.
Import Py Users Gamification Store QuestionSubmitView Spec MoreSpec.

Lemma blank_key_error_loop fbq items : forall incorrect msg,
  blank_key_error fbq items = Some msg ->
  Questions.fill_blank_loop fbq (Questions.get_correct_answers fbq) items incorrect
  = Return (inl (Questions.rejected msg)).
Proof.
  induction items as [|[k v] items IH]; intros incorrect msg H; simpl in *; [done |].
  destruct (int_of_str k) as [idx|]; [| by inversion H].
  destruct (bool_decide (idx ∈ Questions.blank_index <$> Questions.answers fbq)) eqn:E.
  - apply bool_decide_eq_true in E. apply list_elem_of_fmap in E as (row & -> & Hin).
    destruct (FillBlankFacts.in_key_lookup fbq (Questions.blank_index row)) as [valid ->];
      [eauto |].
    unfold Questions.is_blank_correct.
    destruct v; destruct (Questions.case_sensitive fbq); simpl;
      try discriminate; by apply IH.
  - apply bool_decide_eq_false in E.
    rewrite FillBlankErrors.unknown_index_lookup; [by inversion H |].
    intros row Hin Heq. apply E. apply list_elem_of_fmap. by exists row.
Qed.

Lemma target_error_loop ddq items : forall incorrect msg,
  target_error ddq items = Some msg ->
  Questions.drag_drop_loop (Questions.get_correct_mappings ddq) items incorrect
  = inl (Questions.rejected msg).
Proof.
  induction items as [|[t v] items IH]; intros incorrect msg H; simpl in *; [done |].
  destruct (bool_decide _) eqn:E.
  - apply bool_decide_eq_true in E. apply list_elem_of_fmap in E as (row & -> & Hin).
    rewrite DragDropFacts.known_target_lookup by eauto. by apply IH.
  - apply bool_decide_eq_false in E.
    rewrite DragDropFacts.unknown_target_lookup; [by inversion H |].
    intros row Hin Heq. apply E. apply list_elem_of_fmap. by exists row.
Qed.

Lemma not_all_integers (l : list json) :
  forallb (fun x => bool_decide (is_Some (int x))) l = false -> mapM int l = None.
Proof.
  intros H. destruct (mapM int l) as [ids|] eqn:E; [| done].
  assert (Hs : is_Some (mapM int l)) by (by rewrite E).
  apply mapM_is_Some in Hs.
  assert (Ht : forallb (fun x => bool_decide (is_Some (int x))) l = true); [| congruence].
  apply Is_true_true, forallb_True. eapply Forall_impl; [exact Hs |].
  intros x Hx. by apply bool_decide_pack.
Qed.

(** A format error is what the evaluator answers with: incorrect, and the
    message alone in the feedback. *)
Lemma shape_error_evaluated question answer msg :
  shape_error question answer = Some msg ->
  Questions._evaluate_answer question answer = Return (false, Questions.rejected msg).
Proof.
  unfold shape_error, Questions._evaluate_answer. intros H.
  destruct (Questions.variant question) as [mcq|fbq|ddq|rq];
    destruct answer as [| | | |l|d]; simpl in *;
    try discriminate; try (by inversion H).
  - unfold Questions._validate_multiple_choice.
    destruct (negb _ && _); [by inversion H |].
    destruct (forallb _ l) eqn:E; [discriminate |].
    rewrite (not_all_integers l E). by inversion H.
  - unfold Questions._validate_fill_blank. by rewrite (blank_key_error_loop _ _ _ _ H).
  - unfold Questions._validate_drag_drop. by rewrite (target_error_loop _ _ _ _ H).
Qed.

Lemma blank_key_error_prefix fbq items msg :
  blank_key_error fbq items = Some msg -> exists rest, msg = "Inv" +:+ rest.
Proof.
  induction items as [|[k v] items IH]; simpl; [done |].
  destruct (int_of_str k); [| intros [= <-]; by eexists].
  destruct (bool_decide _); [| intros [= <-]; by eexists].
  destruct v; try exact IH; destruct (Questions.case_sensitive fbq); try exact IH; done.
Qed.

Lemma target_error_prefix ddq items msg :
  target_error ddq items = Some msg -> exists rest, msg = "Inv" +:+ rest.
Proof.
  induction items as [|[t v] items IH]; simpl; [done |].
  destruct (bool_decide _); [exact IH | intros [= <-]; by eexists].
Qed.

(** The messages of the format errors are not the wrong-answer
    messages. *)
Lemma shape_error_message question answer msg :
  shape_error question answer = Some msg ->
  msg <> "Incorrect. Try again!" /\ msg <> "Incorrect sequence. Try again!".
Proof.
  unfold shape_error. intros H.
  destruct (Questions.variant question) as [mcq|fbq|ddq|rq];
    destruct answer as [| | | |l|d]; simpl in *;
    try discriminate; try (inversion H; subst; split; discriminate).
  - destruct (negb _ && _); [inversion H; subst; split; discriminate |].
    destruct (forallb _ l); [discriminate |]. inversion H; subst; split; discriminate.
  - apply blank_key_error_prefix in H as [rest ->]. split; discriminate.
  - apply target_error_prefix in H as [rest ->]. split; discriminate.
Qed.

(** C2 (as amended): a submission of ASCII text for an existing lesson. A
    [null] answer is refused with 400 and nothing is written. Any other
    answer with a format error (the wrong JSON type for the variant, more
    than one choice for a single-selection question, a choice that is not
    an integer, a blank or a target the question does not have) is
    answered with 200: the evaluator reports it as incorrect with a
    message of its own, distinct from the wrong-answer messages; one
    attempt row is written, with [is_correct] false, the next attempt
    number and no jems; no reward transaction is written and no user row
    changes. *)
Theorem format_error_recorded_as_incorrect clock uid pk data db user question :
  users db !! uid = Some user ->
  questions db !! pk = Some question ->
  is_Some (lessons db !! lesson_id data) ->
  ascii_json (answer data) = true ->
  (answer data = JNull -> create clock uid pk data db = (HTTP_400_BAD_REQUEST, db))
  /\ forall msg, shape_error question (answer data) = Some msg ->
       let attempt :=
         {| Store.user := uid; Store.question := pk; Store.lesson := lesson_id data;
            user_answer := answer data; is_correct := false;
            attempt_number := count_attempts uid pk (lesson_id data) db + 1;
            jems_earned := 0 |} in
       create clock uid pk data db =
         (HTTP_200_OK attempt (Questions.rejected msg)
            {| upd_xp_earned := 0; upd_jems_earned := 0;
               upd_total_xp := total_xp user; upd_total_jems := jems user;
               upd_streak_days := streak_days user |},
          create_attempt attempt db)
       /\ msg <> "Incorrect. Try again!"
       /\ msg <> "Incorrect sequence. Try again!"
       /\ xp_transactions (create clock uid pk data db).2 = xp_transactions db
       /\ jem_transactions (create clock uid pk data db).2 = jem_transactions db
       /\ users (create clock uid pk data db).2 = users db.
Proof.
  intros Hu Hq [lesson Hl] _. split.
  - intros Hn. unfold create. by rewrite Hu, Hq, Hn.
  - intros msg Hs attempt.
    assert (Hn : answer data <> JNull).
    { intros Hn. rewrite Hn in Hs. unfold shape_error in Hs.
      by destruct (Questions.variant question). }
    destruct (shape_error_message _ _ _ Hs) as [Hm1 Hm2].
    pose proof (shape_error_evaluated _ _ _ Hs) as He.
    rewrite (SubmitFacts.create_evaluated _ _ _ _ _ _ _ _ _ _ Hu Hq Hl Hn He). simpl.
    repeat split; done.
Qed.

(** The list [null, 5] given to the question whose correct choices are 2
    and 5: "Invalid choice IDs", recorded as attempt 1. *)
Lemma format_error_recorded_witness :
  create Examples.noon 1 1 {| answer := JList [JNull; JInt 5]; lesson_id := 1 |} Examples.db0
  = (HTTP_200_OK
       {| Store.user := 1; Store.question := 1; Store.lesson := 1;
          user_answer := JList [JNull; JInt 5]; is_correct := false;
          attempt_number := 1; jems_earned := 0 |}
       (Questions.rejected "Invalid choice IDs")
       {| upd_xp_earned := 0; upd_jems_earned := 0;
          upd_total_xp := 0; upd_total_jems := 5; upd_streak_days := 0 |},
     create_attempt
       {| Store.user := 1; Store.question := 1; Store.lesson := 1;
          user_answer := JList [JNull; JInt 5]; is_correct := false;
          attempt_number := 1; jems_earned := 0 |} Examples.db0).
Proof.
  refine (proj1 (proj2 (format_error_recorded_as_incorrect Examples.noon 1 1
            {| answer := JList [JNull; JInt 5]; lesson_id := 1 |} Examples.db0
            Examples.new_user
            (Examples.question_of (Questions.MULTIPLE_CHOICE Examples.mcq_2_5))
            _ _ _ _) "Invalid choice IDs" _)).
  - vm_compute. reflexivity.
  - vm_compute. reflexivity.
  - eexists. vm_compute. reflexivity.
  - reflexivity.
  - vm_compute. reflexivity.
Defined.

(** C2, counterexample: a single-selection question given two choice
    ids. The request is answered with 200 and an attempt row is
    persisted. *)
Lemma format_error_writes_attempt :
  exists attempt feedback updates db',
    create Examples.noon 1 2 {| answer := JList [JInt 1; JInt 2]; lesson_id := 1 |}
      Examples.db0
    = (HTTP_200_OK attempt feedback updates, db')
    /\ Questions.is_multiple_selection Examples.mcq_single = false
    /\ question_attempts Examples.db0 = []
    /\ question_attempts db' = [attempt].
Proof.
  do 4 eexists. split; [vm_compute; reflexivity |].
  split; [reflexivity |]. split; reflexivity.
Qed.

(** The other format errors of the four validators, each recorded the same
    way: a blank that is not a numeral, a blank and a target the question
    does not have, a dictionary where a list is expected. *)
Example format_errors_by_variant :
  shape_error (Examples.question_of (Questions.FILL_BLANK (Examples.paris false)))
    (JDict [("one", JStr "paris")])
  = Some "Invalid blank index format: one"
  /\ shape_error (Examples.question_of (Questions.FILL_BLANK (Examples.paris false)))
       (JDict [("0", JStr "rome"); ("7", JStr "paris")])
     = Some "Invalid blank index: 7"
  /\ shape_error (Examples.question_of (Questions.DRAG_DROP MoreExamples.ddq_two_targets))
       (JDict [("10", JInt 20); ("12", JInt 21)])
     = Some "Invalid target ID: 12"
  /\ shape_error (Examples.question_of (Questions.REORDER MoreExamples.rq_three))
       (JDict [])
     = Some "Answer must be a list of item IDs in the correct order".
Proof. repeat split; vm_compute; reflexivity. Qed.

End FormatErrorFacts.

(** ** More on lesson reviews *)

Module ReviewMoreFacts.
Import Py Users Gamification Lessons Store LessonViews Spec MoreSpec.

Lemma int_keys_ints (ids : list Z) : int_keys (JInt <$> ids) = Return (Some <$> ids).
Proof. induction ids as [|i ids IH]; [done |]. csimpl. by rewrite IH. Qed.

Lemma omap_Some_ints (ids : list Z) : omap (fun k : option Z => k) (Some <$> ids) = ids.
Proof. induction ids as [|i ids IH]; [done |]. csimpl. by rewrite IH. Qed.

Lemma forallb_is_Some_ints (ids : list Z) :
  forallb (fun k : option Z => bool_decide (is_Some k)) (Some <$> ids) = true.
Proof.
  induction ids as [|i ids IH]; [done |]. csimpl. by rewrite IH.
Qed.

(** X14: in a review, a list of integer choice ids is judged correct exactly
    when it has the same elements as the list of correct choice ids:
    repetitions and order are ignored, and there is no single-selection
    guard. *)
Theorem review_multiple_choice_as_sets mcq (ids : list Z) :
  exists b, review_multiple_choice mcq (JList (JInt <$> ids)) = Return b
    /\ (b = true <-> forall x, x ∈ ids <-> x ∈ Questions.get_correct_choices mcq).
Proof.
  unfold review_multiple_choice. simpl.
  rewrite int_keys_ints. simpl.
  rewrite forallb_is_Some_ints, omap_Some_ints. simpl.
  eexists. split; [done |]. rewrite bool_decide_eq_true. split.
  - intros H x. rewrite <- !(elem_of_list_to_set (C := gset Z)). by rewrite H.
  - intros H. apply set_eq. intros x. rewrite !elem_of_list_to_set. apply H.
Qed.

(** A repeated id is accepted by the review and turned down by question
    submission. *)
Example repeated_choice_in_review :
  review_multiple_choice Examples.mcq_2_5 (JList [JInt 2; JInt 5; JInt 5]) = Return true
  /\ (Questions._validate_multiple_choice
        (Examples.question_of (Questions.MULTIPLE_CHOICE Examples.mcq_2_5))
        Examples.mcq_2_5 (JList [JInt 2; JInt 5; JInt 5])).1 = false.
Proof. split; vm_compute; reflexivity. Qed.

(** What a submission to a review can do to the database. *)
Lemma submit_answer_shape clock uid pk review_pk data db :
  let db' := (submit_answer clock uid pk review_pk data db).2 in
  db' = db
  \/ exists a,
       attempt_review a = review_pk
       /\ review_attempts db' = review_attempts db ++ [a]
       /\ (lesson_reviews db' = lesson_reviews db
           \/ exists r r',
                lesson_reviews db !! review_pk = Some r
                /\ lesson_reviews db' = <[review_pk := r']> (lesson_reviews db)
                /\ score r <= score r' <= score r + 1).
Proof.
  cbv zeta. unfold submit_answer.
  repeat case_match; simplify_eq; simpl; try (by left);
    right;
    eexists {| attempt_review := review_pk; attempt_question_slide := _;
               attempt_user_answer := _; attempt_is_correct := _;
               attempt_xp_earned := _ |};
    (split; [reflexivity |]); (split; [reflexivity |]);
    try (by left); right; do 2 eexists; (split; [reflexivity |]);
    (split; [reflexivity |]); simpl; lia.
Qed.

(** X16: a submission to a review keeps every review's score between 0 and
    the number of attempts recorded for it. *)
Theorem submit_answer_keeps_scores_bounded clock uid pk review_pk data db :
  scores_bounded db ->
  scores_bounded (submit_answer clock uid pk review_pk data db).2.
Proof.
  intros Hb rid r'.
  destruct (submit_answer_shape clock uid pk review_pk data db)
    as [-> | (a & Ha & Hat & Hrev)]; [apply Hb |].
  assert (Hcount : forall i, count_review_attempts i
                     (submit_answer clock uid pk review_pk data db).2
                   = count_review_attempts i db + (if decide (review_pk = i) then 1 else 0)).
  { intros i. unfold count_review_attempts. rewrite Hat.
    rewrite filter_app, length_app, filter_cons, filter_nil, Ha.
    case_decide; simpl; lia. }
  rewrite Hcount.
  destruct Hrev as [-> | (r & r1 & Hr & -> & Hs)].
  - intros Hl. specialize (Hb rid r' Hl). case_decide; lia.
  - destruct (decide (review_pk = rid)) as [-> | Hne].
    + rewrite lookup_insert_eq. intros [= <-]. specialize (Hb rid r Hr). lia.
    + rewrite lookup_insert_ne by done. intros Hl. specialize (Hb rid r' Hl). lia.
Qed.

Lemma scores_bounded_example :
  scores_bounded Examples.db0
  /\ scores_bounded
       (submit_answer Examples.noon 1 1 1 Examples.answer_1 Examples.db0).2.
Proof.
  assert (H : scores_bounded Examples.db0).
  { intros rid r Hl. unfold Examples.db0 in Hl. simpl in Hl.
    apply lookup_singleton_Some in Hl as [<- <-]. vm_compute. split; discriminate. }
  split; [exact H |]. by apply submit_answer_keeps_scores_bounded.
Defined.

End ReviewMoreFacts.

(** ** Course progress and the lesson-complete request *)

Module CourseFacts.
Import Py Users Gamification Lessons Store LessonViews Spec MoreSpec.





Example single_lesson_course_stays_at_zero :
  enrollments (update Examples.one_pm 1 1 MoreExamples.db1).2 !! (1, 1)
  = Some {| enrollment_percentage := inject_Z 0; enrollment_is_completed := false |}
  /\ completed_at (update Examples.one_pm 1 1 MoreExamples.db1).2 1 1
     = Some (now Examples.one_pm).
Proof. split; vm_compute; reflexivity. Qed.

Lemma complete_keeps_cached_total_example :
  cached_total_ok 1 MoreExamples.db1
  /\ cached_total_ok 1 (update Examples.one_pm 1 1 MoreExamples.db1).2
  /\ ledger_xp 1 (update Examples.one_pm 1 1 MoreExamples.db1).2 = 100.
Proof.
  assert (H : cached_total_ok 1 MoreExamples.db1) by (vm_compute; reflexivity).
  split; [exact H |]. split; [| vm_compute; reflexivity].
  by apply LedgerFacts.complete_keeps_cached_total.
Defined.

Lemma recompute_users clock uid l db :
  users (_update_lesson_progress clock uid l db) = users db.
Proof.
  unfold _update_lesson_progress. repeat case_match; simplify_eq; done.
Qed.

Lemma recompute_ledger clock uid l db :
  xp_transactions (_update_lesson_progress clock uid l db) = xp_transactions db
  \/ exists amount,
       0 < amount
       /\ xp_transactions (_update_lesson_progress clock uid l db)
          = xp_transactions db ++ [lesson_xp uid l amount].
Proof.
  unfold _update_lesson_progress.
  repeat case_match; simplify_eq; simpl; try (by left);
    right; eexists; (split; [| reflexivity]); simpl in *; lia.
Qed.

(** X23: the progress recomputation never changes a user row; so whenever
    it writes the lesson's XP transaction, a cached [total_xp] that agreed
    with the ledger before no longer does. *)
Theorem recompute_award_breaks_cache clock uid l db :
  cached_total_ok uid db ->
  xp_transactions (_update_lesson_progress clock uid l db) <> xp_transactions db ->
  users (_update_lesson_progress clock uid l db) = users db
  /\ ~ cached_total_ok uid (_update_lesson_progress clock uid l db).
Proof.
  intros Hok Hne. split; [apply recompute_users |].
  unfold cached_total_ok in *. rewrite recompute_users, Hok.
  destruct (recompute_ledger clock uid l db) as [? | (amount & Hpos & Heq)]; [done |].
  unfold ledger_xp. rewrite Heq, CreateFacts.ledger_xp_app. simpl.
  rewrite filter_cons, filter_nil. rewrite decide_True by done. simpl.
  intros [= H]. lia.
Qed.

Lemma recompute_award_breaks_cache_example :
  users (_update_lesson_progress Examples.noon 1 1 Examples.slides_done)
  = users Examples.slides_done
  /\ ~ cached_total_ok 1 (_update_lesson_progress Examples.noon 1 1 Examples.slides_done).
Proof.
  apply recompute_award_breaks_cache.
  - vm_compute. reflexivity.
  - vm_compute. discriminate.
Defined.

End CourseFacts.

(** ** Starting a review, starting a lesson, saving slide progress *)

Module StartReviewFacts.
Import Py Users Gamification Lessons Store LessonViews Spec MoreSpec LessonReviewViewSet.

Lemma le_foldr_max (l : list Z) x : x ∈ l -> x <= foldr Z.max 0 l.
Proof.
  induction l as [|y l IH]; intros Hin; [by apply elem_of_nil in Hin |].
  apply elem_of_cons in Hin as [-> | Hin]; simpl; [lia |]. specialize (IH Hin). lia.
Qed.

Lemma next_id_fresh {V : Type} (m : gmap Z V) : m !! next_id m = None.
Proof.
  destruct (m !! next_id m) as [v|] eqn:E; [| done]. exfalso.
  apply elem_of_map_to_list in E.
  assert (next_id m ∈ (fun kv : Z * V => kv.1) <$> map_to_list m) as Hin.
  { apply list_elem_of_fmap. by exists (next_id m, v). }
  apply le_foldr_max in Hin. unfold next_id in Hin at 1. lia.
Qed.

Lemma start_review_ok uid lesson_pk shuffled db review_id questions db' :
  start_review uid lesson_pk shuffled db = (StartReview_200_OK review_id questions, db') ->
  questions = take 5 shuffled
  /\ (1 <= length questions <= 5)%nat
  /\ lesson_reviews db !! review_id = None
  /\ db' = set_lesson_reviews
             (insert review_id
                {| review_user := uid; review_lesson := lesson_pk; score := 0;
                   total_possible := Z.of_nat (length questions);
                   review_percentage := inject_Z 0; completion_time := None |}) db
  /\ is_Some (get_published_lesson lesson_pk db)
  /\ exists progress,
       Store.lesson_progress db !! (uid, lesson_pk) = Some progress
       /\ (inject_Z 80 <= completion_percentage progress)%Q.
Proof.
  unfold start_review. intros H.
  destruct (users db !! uid); [| done].
  destruct (get_published_lesson lesson_pk db) as [lesson|]; [| done].
  destruct (Store.lesson_progress db !! (uid, lesson_pk)) as [progress|]; [| done].
  destruct (below_80 _) eqn:Hb; [done |].
  destruct (take 5 shuffled) as [|q qs] eqn:Ht; [done |].
  inversion H; subst. clear H.
  split; [done |]. split.
  { rewrite <- Ht. rewrite length_take. split; [| lia].
    assert (length (take 5 shuffled) = S (length qs)) as Hl by (by rewrite Ht).
    rewrite length_take in Hl. lia. }
  split; [apply next_id_fresh |]. split; [done |]. split; [done |].
  exists progress. split; [done |].
  unfold below_80 in Hb. apply negb_false_iff in Hb. by apply Qle_bool_iff.
Qed.

(** X24: a review is opened only for a published lesson whose progress row
    of the requesting user stands at 80% or more; it holds the first five
    (or fewer, never zero) of the shuffled review questions, gets a key no
    review had before, belongs to the requesting user, and starts with
    score 0 and no completion time; no other review changes. *)
Theorem start_review_opens_fresh_review uid lesson_pk shuffled db review_id questions db' :
  start_review uid lesson_pk shuffled db = (StartReview_200_OK review_id questions, db') ->
  questions = take 5 shuffled
  /\ (1 <= length questions <= 5)%nat
  /\ lesson_reviews db !! review_id = None
  /\ db' = set_lesson_reviews
             (insert review_id
                {| review_user := uid; review_lesson := lesson_pk; score := 0;
                   total_possible := Z.of_nat (length questions);
                   review_percentage := inject_Z 0; completion_time := None |}) db
  /\ is_Some (get_published_lesson lesson_pk db)
  /\ exists progress,
       Store.lesson_progress db !! (uid, lesson_pk) = Some progress
       /\ (inject_Z 80 <= completion_percentage progress)%Q.
Proof. apply start_review_ok. Qed.

Lemma start_review_example :
  exists db',
    start_review 1 1 [2; 1] MoreExamples.db1 = (StartReview_200_OK 2 [2; 1], db')
    /\ lesson_reviews MoreExamples.db1 !! 2 = None
    /\ total_possible <$> lesson_reviews db' !! 2 = Some 2.
Proof.
  eexists. split; [vm_compute; reflexivity |].
  assert (H : start_review 1 1 [2; 1] MoreExamples.db1
              = (StartReview_200_OK 2 [2; 1],
                 (start_review 1 1 [2; 1] MoreExamples.db1).2))
    by (vm_compute; reflexivity).
  destruct (start_review_opens_fresh_review _ _ _ _ _ _ _ H) as (_ & _ & Hf & _).
  split; [exact Hf |]. vm_compute. reflexivity.
Defined.

End StartReviewFacts.

(** ** Lesson reviews: the route to [submit_answer] *)

Module ReviewRouteFacts.
Import Py Users Gamification Lessons Store LessonViews Spec MoreSpec LessonReviewViewSet.

(** The URL carries [lesson_pk], which [submit_answer] does not declare:
    the call fails with [TypeError] before the body of the method runs. *)
Lemma review_question_submit_fails clock uid lesson_pk review_pk pk data db :
  review_question_submit clock uid lesson_pk review_pk pk data db
  = (match users db !! uid with
     | Some _ => Review_500_INTERNAL_SERVER_ERROR TypeError
     | None => Review_401_UNAUTHORIZED
     end, db).
Proof. unfold review_question_submit. by destruct (users db !! uid). Qed.

Lemma submit_all_nothing uid lesson_pk review_pk requests : forall db,
  submit_all uid lesson_pk review_pk requests db = db.
Proof.
  unfold submit_all. induction requests as [|request requests IH]; intros db; [done |].
  simpl. rewrite review_question_submit_fails. apply IH.
Qed.

(** C4: a review opened by [start_review], followed by any number of
    submissions to it through the only route there is. Every submission is
    answered with 500 ([TypeError]) and writes nothing: whatever is
    submitted, and however often, the review keeps no completion time, no
    attempt is recorded, and no XP transaction is written. *)
Theorem review_never_completed
    uid lesson_pk shuffled db review_id questions db1 requests :
  start_review uid lesson_pk shuffled db = (StartReview_200_OK review_id questions, db1) ->
  (forall clock pk data,
     review_question_submit clock uid lesson_pk review_id pk data db1
     = (Review_500_INTERNAL_SERVER_ERROR TypeError, db1))
  /\ total_possible
       <$> lesson_reviews (submit_all uid lesson_pk review_id requests db1) !! review_id
     = Some (Z.of_nat (length questions))
  /\ completion_time
       <$> lesson_reviews (submit_all uid lesson_pk review_id requests db1) !! review_id
     = Some None
  /\ review_attempts (submit_all uid lesson_pk review_id requests db1) = review_attempts db
  /\ xp_transactions (submit_all uid lesson_pk review_id requests db1) = xp_transactions db.
Proof.
  intros Hs. rewrite submit_all_nothing.
  destruct (StartReviewFacts.start_review_ok _ _ _ _ _ _ _ Hs) as (_ & _ & _ & -> & _).
  split.
  - intros clock pk data. rewrite review_question_submit_fails. simpl.
    unfold start_review in Hs. by destruct (users db !! uid).
  - simpl. rewrite lookup_insert_eq. done.
Qed.

(** The failing input: user 1 opens a review of two questions and answers
    both. The second answer should complete the review; both requests
    fail, and the review stays open with nothing recorded. *)
Lemma review_never_completed_example :
  exists db1,
    start_review 1 1 [2; 1] MoreExamples.db1 = (StartReview_200_OK 2 [2; 1], db1)
    /\ review_question_submit Examples.noon 1 1 2 2 MoreExamples.answer_2 db1
       = (Review_500_INTERNAL_SERVER_ERROR TypeError, db1)
    /\ completion_time
         <$> lesson_reviews
               (submit_all 1 1 2
                  [(Examples.noon, 2, MoreExamples.answer_2);
                   (Examples.one_pm, 1, Examples.answer_1)] db1) !! 2
       = Some None
    /\ xp_transactions
         (submit_all 1 1 2
            [(Examples.noon, 2, MoreExamples.answer_2);
             (Examples.one_pm, 1, Examples.answer_1)] db1)
       = [].
Proof.
  eexists. split; [vm_compute; reflexivity |].
  assert (Hs : start_review 1 1 [2; 1] MoreExamples.db1
               = (StartReview_200_OK 2 [2; 1],
                  (start_review 1 1 [2; 1] MoreExamples.db1).2))
    by (vm_compute; reflexivity).
  destruct (review_never_completed 1 1 [2; 1] MoreExamples.db1 2 [2; 1] _
              [(Examples.noon, 2, MoreExamples.answer_2);
               (Examples.one_pm, 1, Examples.answer_1)] Hs)
    as (H1 & _ & H2 & _ & H3).
  split; [apply H1 |]. split; [exact H2 |]. exact H3.
Defined.

End ReviewRouteFacts.

Module LessonStartFacts.
Import Py Users Gamification Lessons Store LessonViews Spec MoreSpec.

Lemma lesson_start_effect clock uid pk data db :
  lesson_effect uid pk db (LessonStartView.create clock uid pk data db).2.
Proof.
  unfold LessonStartView.create.
  destruct (users db !! uid); [| by apply effect_keep; auto].
  destruct (get_published_lesson pk db) as [lesson|]; [| by apply effect_keep; auto].
  destruct (Store.lesson_progress db !! (uid, pk)) as [p|] eqn:Hp;
    [by apply effect_keep; auto |].
  destruct (enrollments db !! (uid, course lesson)); [| by apply effect_keep; auto].
  simpl. apply effect_keep.
  - done.
  - intros k Hk. simpl. by rewrite lookup_insert_ne.
  - rewrite LessonFacts.earned_insert. unfold earned. by rewrite Hp.
  - right. unfold completed_at. by rewrite Hp.
  - done.
Qed.

(** X26: starting a lesson keeps the state of the lesson-completion ledger
    on which the at-most-once award rests: nothing awarded for lessons not
    completed, at most one award per (user, lesson), never above the
    lesson's [xp_available]. *)
Theorem lesson_start_keeps_ledger_ok clock uid pk data db :
  lesson_ledger_ok db ->
  lesson_ledger_ok (LessonStartView.create clock uid pk data db).2.
Proof. intros H. eapply LessonFacts.effect_preserves_ok; [apply lesson_start_effect | done]. Qed.

(** A database in which no XP has been awarded and every progress row
    has a non-negative [xp_earned]. *)
Lemma ledger_ok_without_awards db :
  (forall l lesson, lessons db !! l = Some lesson -> 0 <= xp_available lesson) ->
  (forall k p, lesson_progress db !! k = Some p -> 0 <= xp_earned p) ->
  xp_transactions db = [] ->
  lesson_ledger_ok db.
Proof.
  intros Hl Hp Hx. split; [exact Hl |]. intros u l.
  unfold earned, awarded, lesson_awards. rewrite Hx. simpl.
  split; [| split; [done | split; [lia | intros lesson Hls; by eapply Hl]]].
  destruct (lesson_progress db !! (u, l)) as [p|] eqn:E; simpl; [by eapply Hp | done].
Qed.

(** User 2, enrolled in course 1, starts lesson 1: the request is answered
    with 201 and writes the progress row. *)
Lemma lesson_start_keeps_ledger_ok_example :
  let db :=
    set_enrollments (insert (2, 1)
      {| enrollment_percentage := inject_Z 0; enrollment_is_completed := false |})
      MoreExamples.db1 in
  lesson_ledger_ok db
  /\ (exists progress,
        (LessonStartView.create Examples.noon 2 1
           {| LessonStartView.data_completed_date := None |} db).1
        = LessonStartView.Start_201_CREATED progress)
  /\ is_Some (Store.lesson_progress
                (LessonStartView.create Examples.noon 2 1
                   {| LessonStartView.data_completed_date := None |} db).2 !! (2, 1))
  /\ lesson_ledger_ok
       (LessonStartView.create Examples.noon 2 1
          {| LessonStartView.data_completed_date := None |} db).2.
Proof.
  intros db.
  assert (H : lesson_ledger_ok db).
  { apply ledger_ok_without_awards; [| | done].
    - intros l lesson Hl.
      change (lessons db) with ({[ 1 := Examples.lesson_100 ]} : gmap Z Lesson) in Hl.
      apply lookup_singleton_Some in Hl as [_ <-]. simpl. lia.
    - intros k p Hp. unfold db, MoreExamples.db1 in Hp. simpl in Hp.
      apply lookup_singleton_Some in Hp as [_ <-]. simpl. lia. }
  split; [exact H |].
  split; [eexists; vm_compute; reflexivity |].
  split; [eexists; vm_compute; reflexivity |].
  by apply lesson_start_keeps_ledger_ok.
Defined.

(** X27: a lesson is started once. The row a successful start writes has no
    XP and 0%; a second start by the same user, whatever its body, is
    answered with 400 and changes nothing. *)
Theorem lesson_start_twice clock1 clock2 uid pk data1 data2 db progress db1 :
  LessonStartView.create clock1 uid pk data1 db
  = (LessonStartView.Start_201_CREATED progress, db1) ->
  Store.lesson_progress db !! (uid, pk) = None
  /\ Store.lesson_progress db1 !! (uid, pk) = Some progress
  /\ xp_earned progress = 0
  /\ completion_percentage progress = inject_Z 0
  /\ LessonStartView.create clock2 uid pk data2 db1
     = (LessonStartView.Start_400_BAD_REQUEST "Lesson already in progress.", db1).
Proof.
  unfold LessonStartView.create. intros H.
  destruct (users db !! uid) as [user|] eqn:Hu; [| done].
  destruct (get_published_lesson pk db) as [lesson|] eqn:Hl; [| done].
  destruct (Store.lesson_progress db !! (uid, pk)) as [p|] eqn:Hp; [done |].
  destruct (enrollments db !! (uid, course lesson)); [| done].
  inversion H; subst. clear H. simpl.
  split; [done |]. rewrite lookup_insert_eq. split; [done |]. split; [done |].
  split; [done |].
  change (get_published_lesson pk (set_lesson_progress ?f db))
    with (get_published_lesson pk db).
  by rewrite Hu, Hl.
Qed.

Lemma lesson_start_twice_example :
  exists progress db1,
    LessonStartView.create Examples.noon 2 1
      {| LessonStartView.data_completed_date := None |}
      (set_enrollments (insert (2, 1)
         {| enrollment_percentage := inject_Z 0; enrollment_is_completed := false |})
         MoreExamples.db1)
    = (LessonStartView.Start_201_CREATED progress, db1)
    /\ LessonStartView.create Examples.one_pm 2 1
         {| LessonStartView.data_completed_date := Some 5 |} db1
       = (LessonStartView.Start_400_BAD_REQUEST "Lesson already in progress.", db1).
Proof.
  do 2 eexists. split; [vm_compute; reflexivity |].
  eapply (lesson_start_twice Examples.noon Examples.one_pm 2 1
            {| LessonStartView.data_completed_date := None |}
            {| LessonStartView.data_completed_date := Some 5 |}
            (set_enrollments (insert (2, 1)
               {| enrollment_percentage := inject_Z 0; enrollment_is_completed := false |})
               MoreExamples.db1)).
  vm_compute. reflexivity.
Defined.

End LessonStartFacts.

Module SlideProgressFacts.
Import Py Users Gamification Lessons Store LessonViews Spec MoreSpec.
Import UserSlideProgressViewSet.

(** Saving slide progress is a change of the slide tables, followed on the
    update path by a recomputation of the lesson's progress. *)
Lemma perform_create_as_run clock uid lesson_pk slide_pk data db :
  exists ops, (perform_create clock uid lesson_pk slide_pk data db).2 = run ops db.
Proof.
  unfold perform_create.
  destruct (users db !! uid); [| by exists []].
  destruct (slide_pk ≫= _) as [[slide_id slide]|]; [| by exists []].
  destruct (slide_progress db !! (uid, slide_id)) as [p|].
  - eexists [SlideActivity (slides db) _; Recompute clock uid (slide_lesson slide)].
    reflexivity.
  - eexists [SlideActivity (slides db) _]. reflexivity.
Qed.

(** X29: saving slide progress keeps the state of the lesson-completion
    ledger: nothing awarded for lessons not completed, at most one award
    per (user, lesson), never above the lesson's [xp_available]. *)
Theorem perform_create_keeps_ledger_ok clock uid lesson_pk slide_pk data db :
  lesson_ledger_ok db ->
  lesson_ledger_ok (perform_create clock uid lesson_pk slide_pk data db).2.
Proof.
  intros H. destruct (perform_create_as_run clock uid lesson_pk slide_pk data db)
    as [ops ->]. by apply LessonFacts.run_preserves_ok.
Qed.

(** User 1 has completed slide 1 of lesson 1 and has a row, not
    completed, for slide 2. Saving slide 2 as completed is answered with
    201 and the recomputation awards the lesson's 100 XP. *)
Lemma perform_create_keeps_ledger_ok_example :
  let db :=
    set_slide_progress
      (fun _ => {[ (1, 1) := Examples.done_slide; (1, 2) := {| is_completed := false |} ]})
      Examples.db0 in
  lesson_ledger_ok db
  /\ (perform_create Examples.noon 1 1 (Some 2) {| data_is_completed := Some true |} db).1
     = Slide_201_CREATED
  /\ xp_transactions
       (perform_create Examples.noon 1 1 (Some 2) {| data_is_completed := Some true |} db).2
     = [lesson_xp 1 1 100]
  /\ lesson_ledger_ok
       (perform_create Examples.noon 1 1 (Some 2) {| data_is_completed := Some true |} db).2.
Proof.
  intros db.
  assert (H : lesson_ledger_ok db).
  { destruct LessonFacts.db0_ledger_ok as [Hl Hok]. split; [exact Hl |]. exact Hok. }
  split; [exact H |].
  split; [vm_compute; reflexivity |].
  split; [vm_compute; reflexivity |].
  by apply perform_create_keeps_ledger_ok.
Defined.

(** X28: the first request that saves progress for a slide fails with
    status 500 after creating the row as not completed, whatever its
    (valid) body,
    and leaves the lesson progress and the XP ledger alone; the same
    request sent again is answered with 201, stores the submitted
    completion flag and recomputes the lesson's progress. *)
Theorem slide_progress_needs_two_requests
    clock1 clock2 uid lesson_pk slide_id data db user slide :
  users db !! uid = Some user ->
  get_slide lesson_pk slide_id db = Some slide ->
  slide_progress db !! (uid, slide_id) = None ->
  let first := perform_create clock1 uid lesson_pk (Some slide_id) data db in
  let db1 := set_slide_progress (insert (uid, slide_id) {| is_completed := false |}) db in
  first = (Slide_500_INTEGRITY_ERROR, db1)
  /\ Store.lesson_progress db1 = Store.lesson_progress db
  /\ xp_transactions db1 = xp_transactions db
  /\ perform_create clock2 uid lesson_pk (Some slide_id) data db1
     = (Slide_201_CREATED,
        _update_lesson_progress clock2 uid (slide_lesson slide)
          (set_slide_progress
             (insert (uid, slide_id)
                {| is_completed := default false (data_is_completed data) |}) db1)).
Proof.
  intros Hu Hs Hp. cbv zeta. unfold perform_create. simpl.
  rewrite Hu, Hs. simpl. rewrite Hp. split; [done |]. split; [done |]. split; [done |].
  change (get_slide lesson_pk slide_id (set_slide_progress ?f db))
    with (get_slide lesson_pk slide_id db).
  rewrite Hs. simpl. by rewrite lookup_insert_eq.
Qed.

(** The last required slide of lesson 1, for a user who has completed the
    other one: the first request fails, the second awards the lesson's
    100 XP. *)
Lemma slide_progress_two_requests_example :
  perform_create Examples.noon 1 1 (Some 2) {| data_is_completed := Some true |}
    (set_slide_progress (fun _ => {[ (1, 1) := Examples.done_slide ]}) Examples.db0)
  = (Slide_500_INTEGRITY_ERROR,
     set_slide_progress (insert (1, 2) {| is_completed := false |})
       (set_slide_progress (fun _ => {[ (1, 1) := Examples.done_slide ]}) Examples.db0))
  /\ xp_transactions
       (perform_create Examples.one_pm 1 1 (Some 2) {| data_is_completed := Some true |}
          (set_slide_progress (insert (1, 2) {| is_completed := false |})
             (set_slide_progress (fun _ => {[ (1, 1) := Examples.done_slide ]})
                Examples.db0))).2
     = [lesson_xp 1 1 100].
Proof.
  destruct (slide_progress_needs_two_requests Examples.noon Examples.one_pm 1 1 2
              {| data_is_completed := Some true |}
              (set_slide_progress (fun _ => {[ (1, 1) := Examples.done_slide ]}) Examples.db0)
              Examples.new_user {| slide_lesson := 1; is_required := true |})
    as (H1 & _ & _ & H2).
  - vm_compute. reflexivity.
  - vm_compute. reflexivity.
  - vm_compute. reflexivity.
  - split; [exact H1 |]. rewrite H2. vm_compute. reflexivity.
Defined.

End SlideProgressFacts.
